(** * Finance-Tracker-WebApp: the aggregation and derived-metrics engine

    A shallow embedding of [backend/core/models.py], [backend/core/serializers.py]
    and [backend/core/views.py].

    - calendar dates are records of year, month and day, with the proleptic
      Gregorian ordinal of Python's [datetime.date];
    - Python [float] is IEEE-754 binary64, taken from the standard
      library's [SpecFloat] with [prec = 53] and [emax = 1024];
    - Python [Decimal] is a sign, a coefficient and a decimal exponent, with
      the arithmetic of the default context (28 significant digits, round
      half even);
    - the tables of the data store are lists of rows, each row carrying the
      id of its owner; [QuerySet.filter] is [filter], [Sum] is a fold. *)

From Stdlib Require Import ZArith QArith Qpower Lia Lqa Bool List Ascii String.
From Stdlib Require Import Floats.SpecFloat.
From Stdlib Require Import DecimalString.
From Stdlib Require DecimalN.
From stdpp Require Import base option list gmap strings sorting.

Local Open Scope string_scope.
Local Open Scope Z_scope.

(** ** Calendar dates ([datetime.date]) *)

Module PyDate.

Record date := mkdate { year : Z; month : Z; day : Z }.

Definition MINYEAR : Z := 1.
Definition MAXYEAR : Z := 9999.

Definition is_leap (y : Z) : bool :=
  (y mod 4 =? 0) && (negb (y mod 100 =? 0) || (y mod 400 =? 0)).

Definition days_in_month (y m : Z) : Z :=
  match m with
  | 1 => 31 | 2 => if is_leap y then 29 else 28 | 3 => 31 | 4 => 30
  | 5 => 31 | 6 => 30 | 7 => 31 | 8 => 31 | 9 => 30 | 10 => 31
  | 11 => 30 | 12 => 31 | _ => 0
  end.

Definition valid (d : date) : Prop :=
  MINYEAR <= year d <= MAXYEAR /\ 1 <= month d <= 12 /\
  1 <= day d <= days_in_month (year d) (month d).

Definition validb (d : date) : bool :=
  (MINYEAR <=? year d) && (year d <=? MAXYEAR) &&
  (1 <=? month d) && (month d <=? 12) &&
  (1 <=? day d) && (day d <=? days_in_month (year d) (month d)).

(** [_days_before_year], [_days_before_month] and [date.toordinal]. *)
Definition days_before_year (y : Z) : Z :=
  let p := y - 1 in p * 365 + p / 4 - p / 100 + p / 400.

Definition days_before_month (y m : Z) : Z :=
  match m with
  | 1 => 0 | 2 => 31 | 3 => 59 | 4 => 90 | 5 => 120 | 6 => 151 | 7 => 181
  | 8 => 212 | 9 => 243 | 10 => 273 | 11 => 304 | 12 => 334 | _ => 0
  end + (if (2 <? m) && is_leap y then 1 else 0).

Definition toordinal (d : date) : Z :=
  days_before_year (year d) + days_before_month (year d) (month d) + day d.

(** [(a - b).days] for two dates. *)
Definition days_between (a b : date) : Z := toordinal a - toordinal b.

(** [d.replace(day=1)]: always a valid date when [d] is. *)
Definition replace_day1 (d : date) : date := mkdate (year d) (month d) 1.

(** [d - timedelta(days=1)]; [None] is Python's [OverflowError], raised
    when the result would fall before 0001-01-01. *)
Definition sub_one_day (d : date) : option date :=
  if 1 <? day d then Some (mkdate (year d) (month d) (day d - 1))
  else if 1 <? month d then
    Some (mkdate (year d) (month d - 1) (days_in_month (year d) (month d - 1)))
  else if MINYEAR <? year d then Some (mkdate (year d - 1) 12 31)
  else None.

Definition month_abbr (m : Z) : string :=
  match m with
  | 1 => "Jan" | 2 => "Feb" | 3 => "Mar" | 4 => "Apr" | 5 => "May"
  | 6 => "Jun" | 7 => "Jul" | 8 => "Aug" | 9 => "Sep" | 10 => "Oct"
  | 11 => "Nov" | 12 => "Dec" | _ => ""
  end.

Definition month_name (m : Z) : string :=
  match m with
  | 1 => "January" | 2 => "February" | 3 => "March" | 4 => "April"
  | 5 => "May" | 6 => "June" | 7 => "July" | 8 => "August"
  | 9 => "September" | 10 => "October" | 11 => "November"
  | 12 => "December" | _ => ""
  end.

(** The year as [%Y] prints it (no padding is added). *)
Definition year_digits (y : Z) : string :=
  NilZero.string_of_uint (N.to_uint (Z.to_N y)).

(** [d.strftime('%b %Y')] and [d.strftime('%B %Y')] in the C locale. *)
Definition strftime_b_Y (d : date) : string :=
  (month_abbr (month d) ++ " " ++ year_digits (year d))%string.

Definition strftime_B_Y (d : date) : string :=
  (month_name (month d) ++ " " ++ year_digits (year d))%string.

End PyDate.

(** ** Python exceptions and the error monad *)

Inductive exn :=
  | OverflowError
  | ValueError
  | InvalidOperation
  | DivisionByZero
  | DecimalOverflow.

Inductive res (A : Type) :=
  | Ok (a : A)
  | Raise (e : exn).
Arguments Ok {A} a.
Arguments Raise {A} e.

Definition bind {A B} (m : res A) (k : A -> res B) : res B :=
  match m with Ok a => k a | Raise e => Raise e end.

Notation "'let*' x := m 'in' k" := (bind m (fun x => k))
  (at level 10, x name, m at level 100, k at level 200).

Definition of_option {A} (e : exn) (o : option A) : res A :=
  match o with Some a => Ok a | None => Raise e end.

Fixpoint mapM {A B} (f : A -> res B) (l : list A) : res (list B) :=
  match l with
  | [] => Ok []
  | a :: l' => let* b := f a in let* bs := mapM f l' in Ok (b :: bs)
  end.

(** ** Python [float]: IEEE-754 binary64 *)

Module PyFloat.

Definition prec : Z := 53.
Definition emax : Z := 1024.

Abbreviation float := spec_float.

Definition fmul : float -> float -> float := SFmul prec emax.
Definition fdiv : float -> float -> float := SFdiv prec emax.

(** [a < b], [a <= b] and [a >= b] on floats: false when either is NaN. *)
Definition flt (a b : float) : bool := SFltb a b.
Definition fle (a b : float) : bool := SFleb a b.
Definition fge (a b : float) : bool := SFleb b a.
Definition feq (a b : float) : bool := SFeqb a b.

(** An integer as an unnormalised significand with exponent 0; the
    operations below round it correctly whatever its size. *)
Definition raw_of_Z (z : Z) : float :=
  match z with
  | Z0 => S754_zero false
  | Zpos p => S754_finite false p 0
  | Zneg p => S754_finite true p 0
  end.

(** [float(z)] for a Python int: the nearest binary64 value. *)
Definition of_int (z : Z) : float := binary_normalize prec emax z 0 false.

(** [a / b] on Python ints (true division): the correctly rounded
    quotient; the caller excludes [b = 0]. *)
Definition int_truediv (a b : Z) : float := fdiv (raw_of_Z a) (raw_of_Z b).

(** [min(a, b)] returns [b] only when [b < a]. *)
Definition fmin (a b : float) : float := if flt b a then b else a.

Definition one : float := of_int 1.
Definition hundred : float := of_int 100.
Definition zero : float := S754_zero false.

End PyFloat.

(** ** Python [Decimal] in the default context *)

Module PyDecimal.

Import PyFloat.

(** Sign, coefficient and exponent: the value is [(-1)^s * c * 10^e]. *)
Inductive decimal :=
  | Dfin (s : bool) (c : N) (e : Z)
  | Dinf (s : bool)
  | Dnan.

Definition ctx_prec : Z := 28.
Definition Emax : Z := 999999.
Definition Emin : Z := -999999.
Definition Etiny : Z := Emin - ctx_prec + 1.
Definition Etop : Z := Emax - ctx_prec + 1.

(** [Decimal('0.00')] and a stored amount of [n] cents
    ([DecimalField(decimal_places=2)]). *)
Definition zero2 : decimal := Dfin false 0 (-2).
Definition of_cents (n : Z) : decimal := Dfin (n <? 0) (Z.abs_N n) (-2).
Definition of_int (n : Z) : decimal := Dfin (n <? 0) (Z.abs_N n) 0.

(** [len(str(n))] for a non-negative integer. *)
Fixpoint ndigits_fuel (fuel : nat) (n : Z) : Z :=
  match fuel with
  | O => 1
  | S f => if n <? 10 then 1 else 1 + ndigits_fuel f (n / 10)
  end.

Definition ndigits (n : Z) : Z := ndigits_fuel (Z.to_nat (Z.log2 n)) n.

(** [bool(d)]: a decimal is falsy exactly when it is a finite zero. *)
Definition truthy (d : decimal) : bool :=
  match d with Dfin _ c _ => negb (c =? 0)%N | _ => true end.

(** [d <= 0]; comparing a NaN raises [InvalidOperation]. *)
Definition le_zero (d : decimal) : res bool :=
  match d with
  | Dfin s c _ => Ok (s || (c =? 0)%N)
  | Dinf s => Ok s
  | Dnan => Raise InvalidOperation
  end.

Definition negate (d : decimal) : decimal :=
  match d with
  | Dfin s c e => Dfin (negb s) c e
  | Dinf s => Dinf (negb s)
  | Dnan => Dnan
  end.

(** [ROUND_HALF_EVEN] on the coefficient [c] when its last [k] digits are
    dropped: the kept digits, incremented when the dropped part is above
    one half, or exactly one half with an odd kept part. *)
Definition round_half_even (c k : Z) : Z * bool :=
  let hi := c / 10 ^ k in
  let lo := c mod 10 ^ k in
  let up := (10 ^ k <? 2 * lo) || ((2 * lo =? 10 ^ k) && Z.odd hi) in
  (hi, up).

(** [Decimal._fix]: round a finite result to the context precision. *)
Definition fix_ (s : bool) (c : Z) (e : Z) : res decimal :=
  if c =? 0 then Ok (Dfin s 0 (Z.min (Z.max e Etiny) Emax))
  else
    let len := ndigits c in
    let exp_min := len + e - ctx_prec in
    if Etop <? exp_min then Raise DecimalOverflow
    else
      let exp_min := Z.max exp_min Etiny in
      if e <? exp_min then
        let digits := len + e - exp_min in
        let '(c1, k) := if digits <? 0 then (1, 1) else (c, exp_min - e) in
        let '(hi, up) := round_half_even c1 k in
        let coeff := if up then hi + 1 else hi in
        let '(coeff, exp_min) :=
          if up && (ctx_prec <? ndigits coeff)
          then (coeff / 10, exp_min + 1) else (coeff, exp_min) in
        if Etop <? exp_min then Raise DecimalOverflow
        else Ok (Dfin s (Z.to_N coeff) exp_min)
      else Ok (Dfin s (Z.to_N c) e).

(** [Decimal._rescale(exp, ROUND_HALF_EVEN)] on a finite value. *)
Definition rescale (s : bool) (c : Z) (e : Z) (exp : Z) : decimal :=
  if c =? 0 then Dfin s 0 exp
  else if exp <=? e then Dfin s (Z.to_N (c * 10 ^ (e - exp))) exp
  else
    let digits := ndigits c + e - exp in
    let '(c1, k) := if digits <? 0 then (1, 1) else (c, exp - e) in
    let '(hi, up) := round_half_even c1 k in
    Dfin s (Z.to_N (if up then hi + 1 else hi)) exp.

(** [_normalize(op1, op2, prec)]: bring two non-zero operands to a common
    exponent; an operand too small to matter is replaced by [10**exp]. *)
Definition normalize (c1 e1 c2 e2 : Z) : (Z * Z) * Z :=
  let '(tc, te, oc, oe, swapped) :=
    if e1 <? e2 then (c2, e2, c1, e1, true) else (c1, e1, c2, e2, false) in
  let exp := te + Z.min (-1) (ndigits tc - ctx_prec - 2) in
  let '(oc, oe) := if ndigits oc + oe - 1 <? exp then (1, exp) else (oc, oe) in
  let tc := tc * 10 ^ (te - oe) in
  if swapped then ((oc, tc), oe) else ((tc, oc), oe).

(** [Decimal.__add__]. *)
Definition add (a b : decimal) : res decimal :=
  match a, b with
  | Dnan, _ | _, Dnan => Ok Dnan
  | Dinf sa, Dinf sb => if Bool.eqb sa sb then Ok a else Raise InvalidOperation
  | Dinf _, _ => Ok a
  | _, Dinf _ => Ok b
  | Dfin sa ca ea, Dfin sb cb eb =>
    let ca := Z.of_N ca in
    let cb := Z.of_N cb in
    let exp := Z.min ea eb in
    if (ca =? 0) && (cb =? 0) then fix_ (sa && sb) 0 exp
    else if ca =? 0 then
      match rescale sb cb eb (Z.max exp (eb - ctx_prec - 1)) with
      | Dfin s c e => fix_ s (Z.of_N c) e
      | d => Ok d
      end
    else if cb =? 0 then
      match rescale sa ca ea (Z.max exp (ea - ctx_prec - 1)) with
      | Dfin s c e => fix_ s (Z.of_N c) e
      | d => Ok d
      end
    else
      let '((i1, i2), e) := normalize ca ea cb eb in
      if Bool.eqb sa sb then fix_ sa (i1 + i2) e
      else if i1 =? i2 then fix_ false 0 exp
      else if i1 <? i2 then fix_ sb (i2 - i1) e
      else fix_ sa (i1 - i2) e
  end.

(** [Decimal.__sub__]: addition of the negated operand. *)
Definition sub (a b : decimal) : res decimal :=
  match b with
  | Dnan => add a b
  | _ => add a (negate b)
  end.

(** [Decimal.__mul__]. *)
Definition mul (a b : decimal) : res decimal :=
  match a, b with
  | Dnan, _ | _, Dnan => Ok Dnan
  | Dinf sa, Dinf sb => Ok (Dinf (xorb sa sb))
  | Dinf sa, Dfin sb cb _ =>
    if (cb =? 0)%N then Raise InvalidOperation else Ok (Dinf (xorb sa sb))
  | Dfin sa ca _, Dinf sb =>
    if (ca =? 0)%N then Raise InvalidOperation else Ok (Dinf (xorb sa sb))
  | Dfin sa ca ea, Dfin sb cb eb =>
    fix_ (xorb sa sb) (Z.of_N ca * Z.of_N cb) (ea + eb)
  end.

(** The loop of [__truediv__] that strips trailing zeros of an exact
    quotient while the exponent is below the ideal one. *)
Fixpoint strip_zeros (fuel : nat) (coeff exp ideal : Z) : Z * Z :=
  match fuel with
  | O => (coeff, exp)
  | S f =>
    if (exp <? ideal) && (coeff mod 10 =? 0)
    then strip_zeros f (coeff / 10) (exp + 1) ideal
    else (coeff, exp)
  end.

(** [Decimal.__truediv__]. *)
Definition div (a b : decimal) : res decimal :=
  match a, b with
  | Dnan, _ | _, Dnan => Ok Dnan
  | Dinf _, Dinf _ => Raise InvalidOperation
  | Dinf sa, Dfin sb _ _ => Ok (Dinf (xorb sa sb))
  | Dfin sa _ _, Dinf sb => Ok (Dfin (xorb sa sb) 0 Etiny)
  | Dfin sa ca ea, Dfin sb cb eb =>
    let sign := xorb sa sb in
    let ca := Z.of_N ca in
    let cb := Z.of_N cb in
    if cb =? 0 then
      if ca =? 0 then Raise InvalidOperation else Raise DivisionByZero
    else if ca =? 0 then fix_ sign 0 (ea - eb)
    else
      let shift := ndigits cb - ndigits ca + ctx_prec + 1 in
      let exp := ea - eb - shift in
      let '(coeff, remainder) :=
        if 0 <=? shift then Z.div_eucl (ca * 10 ^ shift) cb
        else Z.div_eucl ca (cb * 10 ^ (- shift)) in
      if negb (remainder =? 0) then
        fix_ sign (if coeff mod 5 =? 0 then coeff + 1 else coeff) exp
      else
        let '(coeff, exp) :=
          strip_zeros (Z.to_nat (ea - eb - exp)) coeff exp (ea - eb) in
        fix_ sign coeff exp
  end.

(** [float(d)], which is [float(str(d))]: the binary64 value nearest to
    the decimal, that is the correctly rounded quotient of the integers
    [c * 10^e] and [1], or [c] and [10^(-e)]. *)
Definition to_float (d : decimal) : float :=
  match d with
  | Dnan => S754_nan
  | Dinf s => S754_infinity s
  | Dfin s 0%N _ => S754_zero s
  | Dfin s (Npos c) e =>
    fdiv (S754_finite s (Z.to_pos (Zpos c * 10 ^ Z.max e 0)) 0)
         (S754_finite false (Z.to_pos (10 ^ Z.max (- e) 0)) 0)
  end.

End PyDecimal.

(** ** Parsing [Decimal(str)] *)

Module DecimalParse.

Import PyDecimal.

(** A Python [str] is held as the [string] of its UTF-8 bytes (a lone
    surrogate, which a JSON text can carry, as the three bytes of its
    code point). *)

Definition is_continuation (b : N) : bool := ((128 <=? b) && (b <? 192))%N.

(** The code points of the text; [None] when the bytes are not the
    encoding of a text. *)
Fixpoint utf8_decode (l : list N) : option (list N) :=
  match l with
  | [] => Some []
  | b0 :: r0 =>
    if (b0 <? 128)%N then option_map (cons b0) (utf8_decode r0)
    else if (b0 <? 194)%N then None
    else if (b0 <? 224)%N then
      match r0 with
      | b1 :: r1 =>
        if is_continuation b1
        then option_map (cons ((b0 - 192) * 64 + (b1 - 128))%N) (utf8_decode r1)
        else None
      | _ => None
      end
    else if (b0 <? 240)%N then
      match r0 with
      | b1 :: b2 :: r2 =>
        let cp := ((b0 - 224) * 4096 + (b1 - 128) * 64 + (b2 - 128))%N in
        if is_continuation b1 && is_continuation b2 && (2048 <=? cp)%N
        then option_map (cons cp) (utf8_decode r2)
        else None
      | _ => None
      end
    else if (b0 <? 245)%N then
      match r0 with
      | b1 :: b2 :: b3 :: r3 =>
        let cp := ((b0 - 240) * 262144 + (b1 - 128) * 4096
                   + (b2 - 128) * 64 + (b3 - 128))%N in
        if is_continuation b1 && is_continuation b2 && is_continuation b3
           && (65536 <=? cp)%N && (cp <=? 1114111)%N
        then option_map (cons cp) (utf8_decode r3)
        else None
      | _ => None
      end
    else None
  end.

Definition code_points (s : string) : option (list N) :=
  utf8_decode (map N_of_ascii (list_ascii_of_string s)).

(** [str.isspace] of one code point: the whitespace that [str.strip()]
    and the constructor of [Decimal] remove at both ends. *)
Definition is_space (cp : N) : bool :=
  (((9 <=? cp) && (cp <=? 13)) || ((28 <=? cp) && (cp <=? 32))
   || (cp =? 133) || (cp =? 160) || (cp =? 5760)
   || ((8192 <=? cp) && (cp <=? 8202)) || (cp =? 8232) || (cp =? 8233)
   || (cp =? 8239) || (cp =? 8287) || (cp =? 12288))%N.

(** The decimal digits of Unicode come in runs of ten, zero to nine;
    these are the code points of the zeros (Unicode 14.0, the database
    of CPython 3.11). *)
Definition decimal_zeros : list N :=
  [48; 1632; 1776; 1984; 2406; 2534; 2662; 2790; 2918; 3046; 3174; 3302;
   3430; 3558; 3664; 3792; 3872; 4160; 4240; 6112; 6160; 6470; 6608; 6784;
   6800; 6992; 7088; 7232; 7248; 42528; 43216; 43264; 43472; 43504; 43600;
   44016; 65296; 66720; 68912; 69734; 69872; 69942; 70096; 70384; 70736;
   70864; 71248; 71360; 71472; 71904; 72016; 72784; 73040; 73120; 92768;
   92864; 93008; 120782; 120792; 120802; 120812; 120822; 123200; 123632;
   125264; 130032]%N.

(** [Py_UNICODE_TODECIMAL]: the value of a decimal digit. *)
Definition unicode_decimal (cp : N) : option N :=
  match List.find (fun z => ((z <=? cp) && (cp <? z + 10))%N) decimal_zeros with
  | Some z => Some (cp - z)%N
  | None => None
  end.

Fixpoint lstrip (l : list N) : list N :=
  match l with
  | c :: r => if is_space c then lstrip r else l
  | [] => []
  end.

Definition strip (l : list N) : list N :=
  rev (lstrip (rev (lstrip l))).

Definition is_underscore (cp : N) : bool := (cp =? 95)%N.

(** What the constructor of [Decimal] makes of one code point of the
    stripped text: an ASCII character is kept, any other whitespace
    becomes a space and any other decimal digit its ASCII digit; there
    is nothing for the rest. *)
Definition as_ascii_char (cp : N) : option ascii :=
  if ((0 <? cp) && (cp <=? 127))%N then Some (ascii_of_N cp)
  else if is_space cp then Some " "%char
  else option_map (fun d => ascii_of_N (48 + d)) (unicode_decimal cp).

Fixpoint as_ascii (l : list N) : option (list ascii) :=
  match l with
  | [] => Some []
  | cp :: r =>
    match as_ascii_char cp, as_ascii r with
    | Some c, Some t => Some (c :: t)
    | _, _ => None
    end
  end.

(** The ASCII text the number is read from: whitespace stripped at both
    ends, underscores dropped. *)
Definition numeric_as_ascii (l : list N) : option (list ascii) :=
  as_ascii (List.filter (fun cp => negb (is_underscore cp)) (strip l)).

Definition is_digit (c : ascii) : bool :=
  let n := N_of_ascii c in ((48 <=? n) && (n <=? 57))%N.

Definition digit_val (c : ascii) : Z := Z.of_N (N_of_ascii c) - 48.

Definition lower (c : ascii) : ascii :=
  let n := N_of_ascii c in
  if ((65 <=? n) && (n <=? 90))%N then ascii_of_N (n + 32) else c.

(** The longest prefix of digits, and what follows it. *)
Fixpoint span_digits (l : list ascii) : list ascii * list ascii :=
  match l with
  | c :: r =>
    if is_digit c then let '(d, t) := span_digits r in (c :: d, t)
    else ([], l)
  | [] => ([], [])
  end.

Definition digits_value (l : list ascii) : Z :=
  fold_left (fun acc c => 10 * acc + digit_val c) l 0.

Definition take_sign (l : list ascii) : bool * list ascii :=
  match l with
  | "-"%char :: r => (true, r)
  | "+"%char :: r => (false, r)
  | _ => (false, l)
  end.

(** The optional exponent part, which must reach the end of the input. *)
Definition parse_exponent (l : list ascii) : option Z :=
  match l with
  | [] => Some 0
  | "e"%char :: r =>
    let '(s, r1) := take_sign r in
    match span_digits r1 with
    | (c :: d, []) => Some (cond_Zopp s (digits_value (c :: d)))
    | _ => None
    end
  | _ => None
  end.

(** Digits with an optional fraction and exponent: coefficient and
    exponent of the value. *)
Definition parse_number (l : list ascii) : option (N * Z) :=
  let '(ip, r1) := span_digits l in
  let '(has_dot, (fp, r2)) :=
    match r1 with
    | "."%char :: r => (true, span_digits r)
    | _ => (false, ([], r1))
    end in
  match ip, has_dot, fp with
  | [], false, _ | [], true, [] => None
  | _, _, _ =>
    match parse_exponent r2 with
    | Some e =>
      Some (Z.to_N (digits_value (ip ++ fp)), e - Z.of_nat (length fp))
    | None => None
    end
  end.

Definition all_digits (l : list ascii) : bool := forallb is_digit l.

Definition is_inf_word (l : list ascii) : bool :=
  match l with
  | ["i"; "n"; "f"]%char => true
  | ["i"; "n"; "f"; "i"; "n"; "i"; "t"; "y"]%char => true
  | _ => false
  end.

Definition is_nan_word (l : list ascii) : bool :=
  match l with
  | "n"%char :: "a"%char :: "n"%char :: d => all_digits d
  | "s"%char :: "n"%char :: "a"%char :: "n"%char :: d => all_digits d
  | _ => false
  end.

(** The number an ASCII text stands for, whatever the case of its
    letters. *)
Definition parse_ascii (l : list ascii) : option decimal :=
  let l := map lower l in
  let '(sg, body) := take_sign l in
  match parse_number body with
  | Some (c, e) => Some (Dfin sg c e)
  | None =>
    if is_inf_word body then Some (Dinf sg)
    else if is_nan_word body then Some Dnan
    else None
  end.

(** [Decimal(s)] for a string [s]; [None] is [InvalidOperation]
    (the conversion syntax error). *)
Definition parse_decimal (s : string) : option decimal :=
  match code_points s with
  | Some cps =>
    match numeric_as_ascii cps with
    | Some l => parse_ascii l
    | None => None
    end
  | None => None
  end.

End DecimalParse.

(** ** models.py *)

Module Models.

Import PyDate PyFloat PyDecimal.

(** Users are the primary keys of [auth.User]. *)
Definition user_id := Z.

(** Amounts of [Income] and [Expense] rows are stored with two decimal
    places; a row holds the amount in cents. *)
Record Income := mkIncome {
  i_user : user_id;
  i_source : string;
  i_amount : Z;
  i_date : date
}.

Record Expense := mkExpense {
  e_user : user_id;
  e_title : string;
  e_category : string;
  e_amount : Z;
  e_date : date
}.

Definition CATEGORY_CHOICES : list (string * string) :=
  [ ("food", "Food & Dining");
    ("rent", "Rent & Housing");
    ("utilities", "Utilities");
    ("travel", "Travel & Transport");
    ("entertainment", "Entertainment");
    ("health", "Health & Fitness");
    ("shopping", "Shopping");
    ("education", "Education");
    ("savings", "Savings Transfer");
    ("other", "Other") ].

(** A goal as the Python object holds it: the two amounts are [Decimal]
    values, [created_at] is kept as its [.date()]. *)
Record SavingsGoal := mkGoal {
  g_id : Z;
  g_user : user_id;
  g_name : string;
  target_amount : decimal;
  current_amount : decimal;
  deadline : date;
  created_at : date
}.

(** A Python number: [int] or [float]. *)
Inductive pynum :=
  | PyInt (z : Z)
  | PyFloat (f : float).

(** The float a number compares as. *)
Definition pynum_float (n : pynum) : float :=
  match n with PyInt z => PyFloat.of_int z | PyFloat f => f end.

(** [SavingsGoal.progress_percentage]. *)
Definition progress_percentage (g : SavingsGoal) : res pynum :=
  let* nonpos := le_zero (target_amount g) in
  if nonpos then Ok (PyInt 0)
  else
    let* q := div (current_amount g) (target_amount g) in
    let* p := mul q (PyDecimal.of_int 100) in
    let f := to_float p in
    Ok (if flt hundred f then PyInt 100 else PyFloat f).

End Models.

(** ** serializers.py *)

Module Serializers.

Import PyDate PyFloat PyDecimal Models.

(** [SavingsGoalSerializer.get_days_remaining]. *)
Definition get_days_remaining (today : date) (obj : SavingsGoal) : Z :=
  days_between (deadline obj) today.

(** [SavingsGoalSerializer.get_is_on_track]. *)
Definition get_is_on_track (today : date) (obj : SavingsGoal) : bool :=
  let created := created_at obj in
  let total_days := days_between (deadline obj) created in
  let elapsed_days := days_between today created in
  if total_days <=? 0 then
    fge (to_float (current_amount obj)) (to_float (target_amount obj))
  else
    let expected_progress := fmin (int_truediv elapsed_days total_days) one in
    let expected_amount := fmul (to_float (target_amount obj)) expected_progress in
    fge (to_float (current_amount obj)) expected_amount.

(** [SavingsGoalSerializer(goal).data]. *)
Record goal_view := mkGoalView {
  v_id : Z;
  v_name : string;
  v_target_amount : decimal;
  v_current_amount : decimal;
  v_deadline : date;
  v_progress_percentage : pynum;
  v_is_on_track : bool;
  v_days_remaining : Z
}.

Definition serialize_goal (today : date) (g : SavingsGoal) : res goal_view :=
  let* p := progress_percentage g in
  Ok (mkGoalView (g_id g) (g_name g) (target_amount g) (current_amount g)
        (deadline g) p (get_is_on_track today g) (get_days_remaining today g)).

End Serializers.

(** ** views.py *)

Module Views.

Import PyDate PyFloat PyDecimal DecimalParse Models Serializers.

(** The data store: one list of rows per table. *)
Record store := mkStore {
  incomes : list Income;
  expenses : list Expense;
  goals : list SavingsGoal
}.

(** *** Querysets *)

(** [IncomeViewSet.get_queryset], [ExpenseViewSet.get_queryset] and
    [SavingsGoalViewSet.get_queryset]: [objects.filter(user=request.user)]. *)
Definition income_queryset (db : store) (u : user_id) : list Income :=
  filter (fun r => i_user r = u) (incomes db).

Definition expense_queryset (db : store) (u : user_id) : list Expense :=
  filter (fun r => e_user r = u) (expenses db).

Definition goal_queryset (db : store) (u : user_id) : list SavingsGoal :=
  filter (fun r => g_user r = u) (goals db).

(** [.filter(date__year=y, date__month=m)]. *)
Definition income_in_month (y m : Z) (l : list Income) : list Income :=
  filter (fun r => year (i_date r) = y /\ month (i_date r) = m) l.

Definition expense_in_month (y m : Z) (l : list Expense) : list Expense :=
  filter (fun r => year (e_date r) = y /\ month (e_date r) = m) l.

(** [.aggregate(total=Sum('amount'))['total']]: SQL [SUM] is [NULL] on
    no rows. The addition is the database's, not the view's: it is taken
    here as a backend with decimal arithmetic performs it, exactly and
    at the two places of the column, so a total is a number of cents. *)
Definition sum_cents (l : list Z) : Z := foldr Z.add 0 l.

Definition Sum (l : list Z) : option Z :=
  match l with [] => None | _ => Some (sum_cents l) end.

(** [total or Decimal('0.00')]. *)
Definition or_zero (total : option Z) : decimal :=
  match total with
  | None => zero2
  | Some n => if truthy (of_cents n) then of_cents n else zero2
  end.

(** *** Monthly totals *)

Record monthly_total_response := mkMonthlyTotal {
  mt_month : string;
  mt_total : decimal
}.

(** [IncomeViewSet.monthly_total]. *)
Definition income_monthly_total (db : store) (u : user_id) (today : date)
  : monthly_total_response :=
  let total :=
    or_zero (Sum (i_amount <$>
      income_in_month (year today) (month today) (income_queryset db u))) in
  mkMonthlyTotal (strftime_B_Y today) total.

(** [ExpenseViewSet.monthly_total]. *)
Definition expense_monthly_total (db : store) (u : user_id) (today : date)
  : monthly_total_response :=
  let total :=
    or_zero (Sum (e_amount <$>
      expense_in_month (year today) (month today) (expense_queryset db u))) in
  mkMonthlyTotal (strftime_B_Y today) total.

(** *** Category breakdown *)

(** [.values('category').annotate(total=Sum('amount'))]: one group per
    category that occurs, with the sum of its amounts. *)
Definition add_to_group (e : Expense) (m : gmap string Z) : gmap string Z :=
  <[e_category e := default 0 (m !! e_category e) + e_amount e]> m.

Definition group_totals (l : list Expense) : gmap string Z :=
  foldr add_to_group ∅ l.

(** [.order_by('-total')]. *)
Definition total_desc (a b : string * Z) : Prop := b.2 <= a.2.

#[export] Instance total_desc_dec : RelDecision total_desc :=
  fun a b => Z_le_dec (b.2) (a.2).

Definition category_totals (l : list Expense) : list (string * Z) :=
  merge_sort total_desc (map_to_list (group_totals l)).

(** [dict(pairs).get(k, dflt)]: the last binding of a key wins. *)
Definition dict_get (pairs : list (string * string)) (k dflt : string) : string :=
  fold_left (fun acc p => if String.eqb p.1 k then p.2 else acc) pairs dflt.

Definition category_label (c : string) : string :=
  dict_get CATEGORY_CHOICES c c.

Record category_row := mkCategoryRow {
  cr_category : string;
  cr_label : string;
  cr_total : decimal
}.

(** [ExpenseViewSet.by_category]. *)
Definition by_category (db : store) (u : user_id) : list category_row :=
  (fun item => mkCategoryRow item.1 (category_label item.1) (of_cents item.2))
    <$> category_totals (expense_queryset db u).

(** *** Dashboard *)

Record category_slice := mkSlice {
  cs_name : string;
  cs_value : float;
  cs_category : string
}.

Record month_point := mkMonthPoint {
  mp_month : string;
  mp_income : float;
  mp_expenses : float
}.

Record dashboard := mkDashboard {
  total_income : float;
  total_expenses : float;
  balance : float;
  month_income : float;
  month_expenses : float;
  expenses_by_category : list category_slice;
  monthly_data : list month_point;
  savings_summary : list goal_view
}.

(** The inner loop of the monthly chart: [i] times
    [month_date = (month_date - timedelta(days=1)).replace(day=1)]. *)
Fixpoint months_back (i : nat) (month_date : date) : res date :=
  match i with
  | O => Ok month_date
  | S i' =>
    let* prev := of_option OverflowError (sub_one_day month_date) in
    months_back i' (replace_day1 prev)
  end.

Definition month_point_for (db : store) (u : user_id) (today : date) (i : nat)
  : res month_point :=
  let* month_date := months_back i (replace_day1 today) in
  let m_income :=
    or_zero (Sum (i_amount <$>
      filter (fun r => i_user r = u /\ year (i_date r) = year month_date
                       /\ month (i_date r) = month month_date) (incomes db))) in
  let m_expenses :=
    or_zero (Sum (e_amount <$>
      filter (fun r => e_user r = u /\ year (e_date r) = year month_date
                       /\ month (e_date r) = month month_date) (expenses db))) in
  Ok (mkMonthPoint (strftime_b_Y month_date)
        (to_float m_income) (to_float m_expenses)).

(** [range(5, -1, -1)]. *)
Definition range_5_down : list nat := [5; 4; 3; 2; 1; 0]%nat.

(** The monthly bar chart of [DashboardView.get]: the loop over
    [range(5, -1, -1)] appending one point per month. *)
Definition monthly_series (db : store) (u : user_id) (today : date)
  : res (list month_point) :=
  mapM (month_point_for db u today) range_5_down.

(** [DashboardView.get]. *)
Definition dashboard_get (db : store) (u : user_id) (today : date)
  : res dashboard :=
  let total_income :=
    or_zero (Sum (i_amount <$> filter (fun r => i_user r = u) (incomes db))) in
  let total_expenses :=
    or_zero (Sum (e_amount <$> filter (fun r => e_user r = u) (expenses db))) in
  let* balance := sub total_income total_expenses in
  let month_income :=
    or_zero (Sum (i_amount <$>
      filter (fun r => i_user r = u /\ year (i_date r) = year today
                       /\ month (i_date r) = month today) (incomes db))) in
  let month_expenses :=
    or_zero (Sum (e_amount <$>
      filter (fun r => e_user r = u /\ year (e_date r) = year today
                       /\ month (e_date r) = month today) (expenses db))) in
  let category_totals :=
    category_totals (filter (fun r => e_user r = u) (expenses db)) in
  let expenses_by_category :=
    (fun item => mkSlice (category_label item.1)
                   (to_float (of_cents item.2)) item.1) <$> category_totals in
  let* monthly_data := monthly_series db u today in
  let goals := filter (fun r => g_user r = u) (goals db) in
  let* savings_summary := mapM (serialize_goal today) goals in
  Ok (mkDashboard (to_float total_income) (to_float total_expenses)
        (to_float balance) (to_float month_income) (to_float month_expenses)
        expenses_by_category monthly_data savings_summary).

(** *** Adding funds to a goal *)

(** The value of [request.data.get('amount')]: [None] when the key is
    missing or null, otherwise what the JSON body or the form holds
    there. A float [f] is held as the decimal [Decimal(str(f))], the one
    its shortest representation reads as ([Dnan] and [Dinf] for [nan]
    and the infinities), which is all the view uses of it. Of a list or
    an object only its emptiness matters: its text is no number. *)
Inductive pyval :=
  | PyNone
  | PyBoolV (b : bool)
  | PyIntV (z : Z)
  | PyFloatV (repr : decimal)
  | PyStr (s : string)
  | PyContainer (empty : bool).

(** [bool(v)]: a float is falsy when it is [0.0] or [-0.0], a list or
    an object when it is empty. *)
Definition py_truthy (v : pyval) : bool :=
  match v with
  | PyNone => false
  | PyBoolV b => b
  | PyIntV z => negb (z =? 0)
  | PyFloatV repr => truthy repr
  | PyStr s => negb (String.eqb s "")
  | PyContainer empty => negb empty
  end.

(** [str(z)] for an integer. *)
Definition str_of_int (z : Z) : string :=
  let digits := NilZero.string_of_uint (N.to_uint (Z.abs_N z)) in
  if z <? 0 then String "-" digits else digits.

(** [Decimal(str(v))]; [None] is the [InvalidOperation] of a text that
    is no number. The text of a list or an object starts with a
    bracket. *)
Definition decimal_of_str (v : pyval) : option decimal :=
  match v with
  | PyNone => parse_decimal "None"
  | PyBoolV true => parse_decimal "True"
  | PyBoolV false => parse_decimal "False"
  | PyIntV z => parse_decimal (str_of_int z)
  | PyFloatV repr => Some repr
  | PyStr s => parse_decimal s
  | PyContainer _ => None
  end.

Inductive response :=
  | Response200 (data : goal_view)
  | Response400 (error : string)
  | Response404.

(** The body of the [try] block: [Decimal(str(amount))], then
    [ValueError] unless the value is above zero. *)
Definition positive_amount (amount : pyval) : res decimal :=
  let* d := of_option InvalidOperation (decimal_of_str amount) in
  let* nonpos := le_zero d in
  if nonpos then Raise ValueError else Ok d.

(** [self.get_object()]: the row of the user's queryset with this key. *)
Definition get_object (db : store) (u : user_id) (pk : Z) : option SavingsGoal :=
  head (filter (fun g => g_id g = pk) (goal_queryset db u)).

Definition set_current_amount (g : SavingsGoal) (c : decimal) : SavingsGoal :=
  mkGoal (g_id g) (g_user g) (g_name g) (target_amount g) c
         (deadline g) (created_at g).

(** What a [DecimalField(max_digits=12, decimal_places=2)] column takes
    for a value ([DecimalField.get_db_prep_save], that is
    [value.quantize(Decimal('0.01'), context=Context(prec=12))]): the
    value rounded half-even to two places, [InvalidOperation] when that
    needs more than twelve digits or the value is infinite. *)
Definition max_digits : Z := 12.
Definition decimal_places : Z := 2.

Definition quantize_column (d : decimal) : res decimal :=
  match d with
  | Dnan => Ok Dnan
  | Dinf _ => Raise InvalidOperation
  | Dfin s c e =>
    let c := Z.of_N c in
    if c =? 0 then Ok (Dfin s 0 (- decimal_places))
    else if max_digits <? ndigits c + e - 1 + decimal_places + 1
    then Raise InvalidOperation
    else
      match rescale s c e (- decimal_places) with
      | Dfin s' c' e' =>
        if max_digits <? ndigits (Z.of_N c') then Raise InvalidOperation
        else Ok (Dfin s' c' e')
      | d' => Ok d'
      end
  end.

(** The [UPDATE] of the row with the key of [g]: every column is
    overwritten. *)
Definition update_row (g : SavingsGoal) (db : store) : store :=
  mkStore (incomes db) (expenses db)
          ((fun r => if g_id r =? g_id g then g else r) <$> goals db).

(** [goal.save()]: every column of the row with this key is overwritten
    by the fields of the Python object, [current_amount] as its column
    takes it. The other fields of the object are those read from the
    row, which the row holds as they are. *)
Definition save (g : SavingsGoal) (db : store) : res store :=
  let* c := quantize_column (current_amount g) in
  Ok (update_row (set_current_amount g c) db).

(** [SavingsGoalViewSet.add_funds]: the store after the request, and the
    response or the exception that escapes the view. *)
Definition add_funds (db : store) (u : user_id) (today : date) (pk : Z)
    (amount : pyval) : store * res response :=
  match get_object db u pk with
  | None => (db, Ok Response404)
  | Some goal =>
    if negb (py_truthy amount) then
      (db, Ok (Response400 "Amount is required."))
    else
      match positive_amount amount with
      | Raise _ => (db, Ok (Response400 "Amount must be a positive number."))
      | Ok amount =>
        match add (current_amount goal) amount with
        | Raise e => (db, Raise e)
        | Ok c =>
          let goal := set_current_amount goal c in
          match save goal db with
          | Raise e => (db, Raise e)
          | Ok db' =>
            (db', let* data := serialize_goal today goal in
                  Ok (Response200 data))
          end
        end
      end
  end.

(** *** Two overlapping add-funds requests

    A request touches the store twice: [get_object] reads the row into a
    Python object, and [save] writes the object back. Nothing in the view
    joins the two (no transaction, no row lock, no [F()] update), so the
    steps of two requests may interleave. *)
Inductive request :=
  | Pending (pk : Z) (amount : decimal)
  | Loaded (goal : SavingsGoal) (amount : decimal)
  | Finished.

Definition request_step (u : user_id) (db : store) (r : request)
  : store * request :=
  match r with
  | Pending pk amount =>
    match get_object db u pk with
    | Some goal => (db, Loaded goal amount)
    | None => (db, Finished)
    end
  | Loaded goal amount =>
    match add (current_amount goal) amount with
    | Ok c =>
      match save (set_current_amount goal c) db with
      | Ok db' => (db', Finished)
      | Raise _ => (db, Finished)
      end
    | Raise _ => (db, Finished)
    end
  | Finished => (db, Finished)
  end.

(** A schedule names, step by step, the request that moves next
    ([false] the first, [true] the second). *)
Fixpoint run_schedule (u : user_id) (sched : list bool)
    (db : store) (r1 r2 : request) : store * request * request :=
  match sched with
  | [] => (db, r1, r2)
  | false :: sched' =>
    let '(db', r1') := request_step u db r1 in run_schedule u sched' db' r1' r2
  | true :: sched' =>
    let '(db', r2') := request_step u db r2 in run_schedule u sched' db' r1 r2'
  end.

End Views.

(** ** Reference definitions used to state the properties *)

Module Reference.

Import PyDate PyFloat PyDecimal DecimalParse Models Serializers Views.

(** The month [k] months before month [m] of year [y], by arithmetic on
    the month index [12 * y + (m - 1)]. *)
Definition month_shift (y m k : Z) : Z * Z :=
  let idx := 12 * y + (m - 1) - k in (idx / 12, idx mod 12 + 1).

(** The point of the monthly chart for the month [k] months before the
    month of [today]: its label and the exact totals of the user's rows
    dated in that month, converted to floats. *)
Definition chart_point (db : store) (u : user_id) (today : date) (k : Z)
  : month_point :=
  let ym := month_shift (year today) (month today) k in
  mkMonthPoint
    (month_abbr ym.2 ++ " " ++ year_digits ym.1)%string
    (to_float (of_cents (sum_cents
       (i_amount <$> income_in_month ym.1 ym.2 (income_queryset db u)))))
    (to_float (of_cents (sum_cents
       (e_amount <$> expense_in_month ym.1 ym.2 (expense_queryset db u))))).

(** The rows of one category. *)
Definition of_category (c : string) (l : list Expense) : list Expense :=
  filter (fun e => e_category e = c) l.

(** Two stores that hold the same rows of user [u], whatever the rows of
    the other users are. *)
Definition same_rows_of (u : user_id) (db1 db2 : store) : Prop :=
  income_queryset db1 u = income_queryset db2 u /\
  expense_queryset db1 u = expense_queryset db2 u /\
  goal_queryset db1 u = goal_queryset db2 u.

(** The coefficient of the exact sum of two non-negative decimals, at
    the smaller of the two exponents. *)
Definition sum_coefficient (c0 : N) (e0 : Z) (c : N) (e : Z) : Z :=
  let m := Z.min e0 e in
  Z.of_N c0 * 10 ^ (e0 - m) + Z.of_N c * 10 ^ (e - m).

(** *** Binary64 rounding *)

(** Powers of two with integer exponents, as rationals. *)
Definition pow2 (z : Z) : Q := Qpower 2 z.

(** The position of the remainder [r] of a division by [d]. *)
Definition loc_describes (l : location) (r d : Z) : Prop :=
  match l with
  | loc_Exact => r = 0
  | loc_Inexact Lt => 0 < r /\ 2 * r < d
  | loc_Inexact Eq => 0 < r /\ 2 * r = d
  | loc_Inexact Gt => 0 < r /\ d < 2 * r
  end.

(** [2^52] and [2^53]: the 53-bit significands are those in between. *)
Definition two52 : positive := 4503599627370496.
Definition two53 : positive := 9007199254740992.

(** [m * 2^e], with a 53-bit [m], is a binary64 value nearest to the
    positive rational [x]: [x] lies in the binade of exponent [e1], the
    value is within half a unit in the last place of [x], and it is in
    the same binade or is the power of two that ends it. *)
Definition rounds_to (x : Q) (m : positive) (e : Z) : Prop :=
  Zpos (digits2_pos m) = 53 /\
  exists e1,
    -1074 <= e1 <= 969
    /\ (e = e1 \/ (e = e1 + 1 /\ m = two52))
    /\ (pow2 (52 + e1) <= x)%Q /\ (x < pow2 (53 + e1))%Q
    /\ (x - pow2 (e1 - 1) <= inject_Z (Zpos m) * pow2 e)%Q
    /\ (inject_Z (Zpos m) * pow2 e <= x + pow2 (e1 - 1))%Q.

(** The value of a positive float with a 53-bit significand. *)
Definition mant (m : positive) (e : Z) : Q := inject_Z (Zpos m) * pow2 e.

(** A float that is not negative: [+0.0], a positive number or [+inf]. *)
Definition nonneg_float (f : float) : Prop :=
  f = S754_zero false \/ f = S754_infinity false
  \/ exists m e, f = S754_finite false m e.

(** A float that is not positive and not a NaN. *)
Definition nonpos_float (f : float) : Prop :=
  f = S754_zero true \/ f = S754_infinity true
  \/ exists m e, f = S754_finite true m e.

(** *** Decimals *)

(** The rational number a finite decimal stands for. *)
Definition dec_value (d : decimal) : Q :=
  match d with
  | Dfin s c e => inject_Z (cond_Zopp s (Z.of_N c)) * Qpower (inject_Z 10) e
  | _ => 0
  end.

(** The on-track rule in exact arithmetic: the expected fraction is
    [min(elapsed / total, 1)], the expected amount is the target times
    that fraction, and the goal is on track when the current amount is
    at least the expected amount; with [total <= 0], when it is at least
    the target. *)
Definition expected_fraction (elapsed total : Z) : Q :=
  let r := (inject_Z elapsed / inject_Z total)%Q in
  if Qle_bool 1 r then 1%Q else r.

Definition exact_on_track (current target : decimal) (elapsed total : Z) : bool :=
  if total <=? 0 then Qle_bool (dec_value target) (dec_value current)
  else Qle_bool (dec_value target * expected_fraction elapsed total)%Q
                (dec_value current).

(** The input of add-funds is accepted with the decimal [d]. *)
Definition accepted (amount : pyval) (d : decimal) : Prop :=
  py_truthy amount = true /\ positive_amount amount = Ok d.

(** The amount of a goal as the store holds it. *)
Definition stored_amount (db : store) (u : user_id) (pk : Z) : option decimal :=
  current_amount <$> get_object db u pk.

(** The states two overlapping add-funds requests can be in, with the
    amount [x] the store holds for the goal: [c0] is the amount before
    both, [a] and [b] are the two contributions, [ca], [cb], [cab] and
    [cba] the sums. A request that has read the goal holds a copy, which
    is out of date once the other request has written. *)
Inductive overlap_state (pk : Z) (g0 : SavingsGoal) (c0 a b ca cb cab cba : decimal)
  : decimal -> request -> request -> Prop :=
  | os_pending : overlap_state pk g0 c0 a b ca cb cab cba c0
      (Pending pk a) (Pending pk b)
  | os_read_1 : overlap_state pk g0 c0 a b ca cb cab cba c0
      (Loaded (set_current_amount g0 c0) a) (Pending pk b)
  | os_read_2 : overlap_state pk g0 c0 a b ca cb cab cba c0
      (Pending pk a) (Loaded (set_current_amount g0 c0) b)
  | os_read_both : overlap_state pk g0 c0 a b ca cb cab cba c0
      (Loaded (set_current_amount g0 c0) a) (Loaded (set_current_amount g0 c0) b)
  | os_done_1 : overlap_state pk g0 c0 a b ca cb cab cba ca
      Finished (Pending pk b)
  | os_done_2 : overlap_state pk g0 c0 a b ca cb cab cba cb
      (Pending pk a) Finished
  | os_done_1_stale : overlap_state pk g0 c0 a b ca cb cab cba ca
      Finished (Loaded (set_current_amount g0 c0) b)
  | os_done_1_fresh : overlap_state pk g0 c0 a b ca cb cab cba ca
      Finished (Loaded (set_current_amount g0 ca) b)
  | os_done_2_stale : overlap_state pk g0 c0 a b ca cb cab cba cb
      (Loaded (set_current_amount g0 c0) a) Finished
  | os_done_2_fresh : overlap_state pk g0 c0 a b ca cb cab cba cb
      (Loaded (set_current_amount g0 cb) a) Finished
  | os_finished x : x = ca \/ x = cb \/ x = cab \/ x = cba ->
      overlap_state pk g0 c0 a b ca cb cab cba x Finished Finished.

(** The six chart points, oldest first. *)
Definition chart_points (db : store) (u : user_id) (today : date)
  : list month_point :=
  chart_point db u today <$> [5; 4; 3; 2; 1; 0].

(** A chart point with no income and no expenses. *)
Definition empty_point (today : date) (k : Z) : month_point :=
  let ym := month_shift (year today) (month today) k in
  mkMonthPoint (month_abbr ym.2 ++ " " ++ year_digits ym.1)%string
               (S754_zero false) (S754_zero false).

(** *** Totals, row by row *)

(** The cents of the rows of a table that belong to user [u] and are
    dated in month [m] of year [y], added up one row after the other. *)
Fixpoint income_total_in (u : user_id) (y m : Z) (l : list Income) : Z :=
  match l with
  | [] => 0
  | r :: l' =>
    (if (i_user r =? u) && (year (i_date r) =? y) && (month (i_date r) =? m)
     then i_amount r else 0) + income_total_in u y m l'
  end.

Fixpoint expense_total_in (u : user_id) (y m : Z) (l : list Expense) : Z :=
  match l with
  | [] => 0
  | r :: l' =>
    (if (e_user r =? u) && (year (e_date r) =? y) && (month (e_date r) =? m)
     then e_amount r else 0) + expense_total_in u y m l'
  end.

(** The cents of all expense rows of user [u], and of those of category
    [c]. *)
Fixpoint expense_total (u : user_id) (l : list Expense) : Z :=
  match l with
  | [] => 0
  | r :: l' => (if e_user r =? u then e_amount r else 0) + expense_total u l'
  end.

Fixpoint category_total (u : user_id) (c : string) (l : list Expense) : Z :=
  match l with
  | [] => 0
  | r :: l' =>
    (if (e_user r =? u) && String.eqb (e_category r) c
     then e_amount r else 0) + category_total u c l'
  end.

(** The number a float stands for; zero for the values that are none. *)
Definition float_value (f : float) : Q :=
  match f with
  | S754_finite s m e => if s then (- mant m e)%Q else mant m e
  | _ => 0%Q
  end.

(** The totals of the rows of a category breakdown and the values of
    the slices of a dashboard, added up as numbers. *)
Definition rows_sum (rows : list category_row) : Q :=
  foldr (fun r acc => (dec_value (cr_total r) + acc)%Q) 0%Q rows.

Definition slices_sum (slices : list category_slice) : Q :=
  foldr (fun s acc => (float_value (cs_value s) + acc)%Q) 0%Q slices.

(** An ASCII character that is neither whitespace nor an underscore. *)
Definition plain_char (c : ascii) : bool :=
  let n := N_of_ascii c in
  ((0 <? n) && (n <? 128))%N && negb (is_space n) && negb (is_underscore n).

(** The cents of a non-negative decimal with at most two places. *)
Definition cents_of (c : N) (e : Z) : Z := Z.of_N c * 10 ^ (e + 2).

End Reference.

(** ** Sample data *)

Module Samples.

Import PyDate PyFloat PyDecimal DecimalParse Models Serializers Views.

Definition jan15 : date := mkdate 2024 1 15.

(** [Decimal('10')], [Decimal('10.00')] and [Decimal('20.00')]. *)
Definition ten : decimal := Dfin false 10 0.
Definition ten2 : decimal := Dfin false 1000 (-2).
Definition twenty2 : decimal := Dfin false 2000 (-2).

(** A store with one goal, of user 1, holding 0.00. *)
Definition fresh_goal : SavingsGoal :=
  mkGoal 7 1 "Holiday" (of_cents 100000) zero2 (mkdate 2024 1 11) (mkdate 2024 1 1).
Definition fresh_db : store := mkStore [] [] [fresh_goal].
Definition jan06 : date := mkdate 2024 1 6.

Definition jan02 : date := mkdate 2024 1 2.
Definition jan03 : date := mkdate 2024 1 3.

(** A goal created on 2024-01-01 and due on 2024-01-11, with its target
    and current amounts in cents. *)
Definition goal_of (target current : Z) : SavingsGoal :=
  mkGoal 7 1 "Holiday" (of_cents target) (of_cents current)
         (mkdate 2024 1 11) (mkdate 2024 1 1).

(** The goal of the worked example: target 1000.00. *)
Definition goal_with (current : Z) : SavingsGoal := goal_of 100000 current.

Definition sample_db : store :=
  mkStore
    [ mkIncome 1 "Salary" 300000 (mkdate 2024 1 10);
      mkIncome 2 "Salary" 410000 (mkdate 2024 1 12);
      mkIncome 1 "Freelance" 45050 (mkdate 2023 12 5);
      mkIncome 1 "Salary" 300000 (mkdate 2023 8 31) ]
    [ mkExpense 1 "Groceries" "food" 2500 (mkdate 2024 1 3);
      mkExpense 1 "Flat" "rent" 90000 (mkdate 2024 1 1);
      mkExpense 2 "Train" "travel" 7000 (mkdate 2024 1 2);
      mkExpense 1 "Lunch" "food" 1575 (mkdate 2023 11 20);
      mkExpense 1 "Gift" "presents" 3000 (mkdate 2023 12 24) ]
    [ goal_with 50000;
      mkGoal 8 2 "Car" (of_cents 500000) (of_cents 0)
             (mkdate 2025 1 1) (mkdate 2024 1 1) ].

(** A store with one goal holding 0.01. *)
Definition cent_db : store := mkStore [] [] [goal_with 1].

(** A store with two expenses of user 1: 0.10 and 0.20. *)
Definition dime_db : store :=
  mkStore []
    [ mkExpense 1 "Bread" "food" 10 (mkdate 2024 1 3);
      mkExpense 1 "Stamp" "other" 20 (mkdate 2024 1 4) ]
    [].

(** The same rows of user 1, other rows of the other users. *)
Definition sample_db' : store :=
  mkStore
    [ mkIncome 1 "Salary" 300000 (mkdate 2024 1 10);
      mkIncome 1 "Freelance" 45050 (mkdate 2023 12 5);
      mkIncome 5 "Bonus" 1 (mkdate 2024 1 1);
      mkIncome 1 "Salary" 300000 (mkdate 2023 8 31) ]
    [ mkExpense 5 "Yacht" "travel" 99999999 (mkdate 2024 1 2);
      mkExpense 1 "Groceries" "food" 2500 (mkdate 2024 1 3);
      mkExpense 1 "Flat" "rent" 90000 (mkdate 2024 1 1);
      mkExpense 1 "Lunch" "food" 1575 (mkdate 2023 11 20);
      mkExpense 1 "Gift" "presents" 3000 (mkdate 2023 12 24) ]
    [ goal_with 50000 ].

End Samples.

(** ** serializers.py: the field validators *)

Module Validators.

Import PyDate PyDecimal Models.

(** What a [validate_<field>] method does with a value: it returns it,
    raises [serializers.ValidationError] with a message, or lets another
    exception escape. *)
Inductive validation (A : Type) :=
  | Valid (a : A)
  | Invalid (msg : string)
  | Escapes (e : exn).
Arguments Valid {A} a.
Arguments Invalid {A} msg.
Arguments Escapes {A} e.

(** [date] objects compare as the tuples [(year, month, day)]. *)
Definition date_cmp (a b : date) : comparison :=
  match year a ?= year b with
  | Eq => match month a ?= month b with
          | Eq => day a ?= day b
          | c => c
          end
  | c => c
  end.

Definition date_gt (a b : date) : bool :=
  match date_cmp a b with Gt => true | _ => false end.

Definition date_le (a b : date) : bool :=
  match date_cmp a b with Gt => false | _ => true end.

(** [IncomeSerializer.validate_amount] and
    [ExpenseSerializer.validate_amount]. *)
Definition validate_amount (value : decimal) : validation decimal :=
  match le_zero value with
  | Raise e => Escapes e
  | Ok true => Invalid "Amount must be greater than zero."
  | Ok false => Valid value
  end.

(** [IncomeSerializer.validate_date]. *)
Definition validate_date (today value : date) : validation date :=
  if date_gt value today then Invalid "Date cannot be in the future."
  else Valid value.

(** [SavingsGoalSerializer.validate_target_amount]. *)
Definition validate_target_amount (value : decimal) : validation decimal :=
  match le_zero value with
  | Raise e => Escapes e
  | Ok true => Invalid "Target amount must be greater than zero."
  | Ok false => Valid value
  end.

(** [SavingsGoalSerializer.validate_deadline]. *)
Definition validate_deadline (today value : date) : validation date :=
  if date_le value today then Invalid "Deadline must be a future date."
  else Valid value.

End Validators.

(** ** serializers.py: registration *)

Module Registration.

(** The attributes of a registration, a [dict] from field names to
    strings. *)
Definition attrs := gmap string string.

Inductive outcome (A : Type) :=
  | Done (a : A)
  | Rejected (field msg : string)
  | KeyError (key : string).
Arguments Done {A} a.
Arguments Rejected {A} field msg.
Arguments KeyError {A} key.

(** [RegisterSerializer.validate]: [attrs['password']] is read first. *)
Definition validate (a : attrs) : outcome attrs :=
  match a !! "password" with
  | None => KeyError "password"
  | Some p =>
    match a !! "password2" with
    | None => KeyError "password2"
    | Some p2 =>
      if String.eqb p p2 then Done a
      else Rejected "password" "Passwords do not match."
    end
  end.

(** [RegisterSerializer.create], up to the call of
    [User.objects.create_user]: the result is the keyword arguments of
    that call, [validated_data] after [pop('password2')]. *)
Definition create (validated_data : attrs) : outcome attrs :=
  match validated_data !! "password2" with
  | None => KeyError "password2"
  | Some _ => Done (delete "password2" validated_data)
  end.

End Registration.

(** ** views.py: creating rows *)

Module Creation.

Import PyDate Models Views.

(** [IncomeViewSet.perform_create]: [serializer.save(user=request.user)]
    inserts the validated row with the requesting user as its owner. *)
Definition perform_create_income (db : store) (u : user_id)
    (source : string) (amount : Z) (d : date) : store :=
  mkStore (incomes db ++ [mkIncome u source amount d]) (expenses db) (goals db).

(** [ExpenseViewSet.perform_create]; a row sent without a category gets
    the [default='other'] of the model field. *)
Definition perform_create_expense (db : store) (u : user_id)
    (title : string) (category : option string) (amount : Z) (d : date)
  : store :=
  mkStore (incomes db)
          (expenses db ++ [mkExpense u title (default "other" category) amount d])
          (goals db).

End Creation.

(** ** Ranges of the stored values *)

Module Ranges.

Import PyDecimal Models.

(** A goal as a row holds it: both amounts are
    [DecimalField(max_digits=12, decimal_places=2)] values, and the
    current amount is not negative. *)
Definition stored_goal (g : SavingsGoal) : Prop :=
  exists a b,
    current_amount g = of_cents a /\ target_amount g = of_cents b
    /\ 0 <= a < 10 ^ 12 /\ - 10 ^ 12 < b < 10 ^ 12.

End Ranges.

(** * Properties *)

Import PyDate PyFloat PyDecimal DecimalParse Models Serializers Views Reference.
Import Samples.

(** ** Calendar arithmetic *)

Section Calendar.

Lemma valid_validb d : valid d <-> validb d = true.
Proof.
  unfold valid, validb. rewrite !andb_true_iff, !Z.leb_le. tauto.
Qed.

Lemma days_in_month_pos y m : 1 <= m <= 12 -> 28 <= days_in_month y m <= 31.
Proof.
  intros Hm.
  assert (Hc : m = 1 \/ m = 2 \/ m = 3 \/ m = 4 \/ m = 5 \/ m = 6 \/ m = 7 \/
               m = 8 \/ m = 9 \/ m = 10 \/ m = 11 \/ m = 12) by lia.
  unfold days_in_month.
  destruct Hc as [->|[->|[->|[->|[->|[->|[->|[->|[->|[->|[->| ->]]]]]]]]]]];
    try destruct (is_leap y); lia.
Qed.

(** One step back from the first of a month lands on the first of the
    previous month, in the previous year when the month is January. *)
Lemma month_step y m :
  1 <= m <= 12 -> 1 < y \/ 1 < m ->
  (let* prev := of_option OverflowError (sub_one_day (mkdate y m 1)) in
   Ok (replace_day1 prev))
  = Ok (mkdate (month_shift y m 1).1 (month_shift y m 1).2 1).
Proof.
  intros Hm Hy. unfold sub_one_day, month_shift, MINYEAR.
  cbn [year month day fst snd].
  replace (1 <? 1) with false by reflexivity.
  destruct (1 <? m) eqn:E1.
  - apply Z.ltb_lt in E1. cbn. unfold replace_day1; cbn. f_equal. f_equal.
    + Z.div_mod_to_equations; lia.
    + Z.div_mod_to_equations; lia.
  - apply Z.ltb_ge in E1. assert (m = 1) by lia. subst m.
    assert (Hy1 : 1 < y) by lia. apply Z.ltb_lt in Hy1. rewrite Hy1. cbn.
    unfold replace_day1; cbn. f_equal. f_equal.
    + Z.div_mod_to_equations; lia.
    + Z.div_mod_to_equations; lia.
Qed.

Lemma month_shift_range y m k :
  1 <= (month_shift y m k).2 <= 12.
Proof.
  unfold month_shift; cbn. Z.div_mod_to_equations; lia.
Qed.

Lemma month_shift_0 y m : 1 <= m <= 12 -> month_shift y m 0 = (y, m).
Proof.
  intros Hm. unfold month_shift. f_equal; Z.div_mod_to_equations; lia.
Qed.

Lemma month_shift_index y m k :
  12 * (month_shift y m k).1 + ((month_shift y m k).2 - 1)
  = 12 * y + (m - 1) - k.
Proof.
  unfold month_shift; cbn [fst snd]. Z.div_mod_to_equations; lia.
Qed.

(** The inner loop of the chart reaches the first day of the month
    [i] months earlier, as long as that month is not before year 1. *)
Lemma months_back_spec (i : nat) y m :
  1 <= m <= 12 -> 12 <= 12 * y + (m - 1) - Z.of_nat i ->
  months_back i (mkdate y m 1)
  = Ok (mkdate (month_shift y m (Z.of_nat i)).1 (month_shift y m (Z.of_nat i)).2 1).
Proof.
  revert y m. induction i as [|i IH]; intros y m Hm Hi.
  - cbn [months_back]. change (Z.of_nat 0) with 0. now rewrite month_shift_0.
  - cbn [months_back].
    assert (Hy : 1 < y \/ 1 < m) by lia.
    pose proof (month_step y m Hm Hy) as Hs.
    destruct (of_option OverflowError (sub_one_day (mkdate y m 1))) as [prev|e];
      cbn [bind] in Hs |- *; [|discriminate].
    apply (f_equal (fun r => match r with Ok a => a | Raise _ => prev end)) in Hs.
    cbv beta iota in Hs. rewrite Hs.
    pose proof (month_shift_index y m 1) as Hidx.
    rewrite IH; [| apply month_shift_range | lia].
    set (y1 := (month_shift y m 1).1) in *. set (m1 := (month_shift y m 1).2) in *.
    unfold month_shift. cbn [fst snd]. rewrite Hidx.
    replace (12 * y + (m - 1) - 1 - Z.of_nat i)
      with (12 * y + (m - 1) - Z.of_nat (S i)) by lia.
    reflexivity.
Qed.

(** Stepping back one day from the first of a month agrees with the
    ordinal arithmetic of [date - timedelta(days=1)]. *)
Lemma sub_one_day_ordinal d d' :
  valid d -> sub_one_day d = Some d' ->
  toordinal d' = toordinal d - 1 /\ valid d'.
Proof.
  intros (Hy & Hm & Hd). destruct d as [y m dd]. cbn [year month day] in *.
  unfold sub_one_day; cbn [year month day].
  destruct (1 <? dd) eqn:E1.
  - apply Z.ltb_lt in E1. intros [= <-]. split.
    + unfold toordinal; cbn [year month day]. lia.
    + unfold valid; cbn [year month day]. lia.
  - apply Z.ltb_ge in E1. assert (dd = 1) by lia; subst dd.
    destruct (1 <? m) eqn:E2.
    + apply Z.ltb_lt in E2. intros [= <-]. split.
      * unfold toordinal; cbn [year month day]. unfold days_before_month, days_in_month.
        assert (Hc : m = 2 \/ m = 3 \/ m = 4 \/ m = 5 \/ m = 6 \/ m = 7 \/
               m = 8 \/ m = 9 \/ m = 10 \/ m = 11 \/ m = 12) by lia.
        destruct Hc as [->|[->|[->|[->|[->|[->|[->|[->|[->|[->| ->]]]]]]]]]];
          match goal with
          | |- context [Zpos ?a - 1] =>
            let v := eval compute in (Zpos a - 1) in change (Zpos a - 1) with v
          end;
          cbn; destruct (is_leap y); cbn; lia.
      * unfold valid; cbn [year month day].
        pose proof (days_in_month_pos y (m - 1)). lia.
    + apply Z.ltb_ge in E2. assert (m = 1) by lia; subst m.
      unfold MINYEAR in *. destruct (1 <? y) eqn:E3; [|discriminate].
      apply Z.ltb_lt in E3. intros [= <-]. split.
      * unfold toordinal, days_before_year, days_before_month;
          cbn [year month day]. cbn.
        replace (y - 1 - 1) with (y - 2) by lia.
        unfold is_leap.
        destruct ((y - 1) mod 4 =? 0) eqn:L4;
          destruct ((y - 1) mod 100 =? 0) eqn:L100;
          destruct ((y - 1) mod 400 =? 0) eqn:L400; cbn;
          rewrite ?Z.eqb_eq, ?Z.eqb_neq in *;
          Z.div_mod_to_equations; lia.
      * unfold valid, MINYEAR, MAXYEAR in *; cbn [year month day]. cbn. lia.
Qed.

Lemma year_digits_length y :
  1000 <= y <= 9999 -> String.length (year_digits y) = 4%nat.
Proof.
  intros Hy.
  assert (H : forallb (fun n => Nat.eqb (String.length (year_digits (Z.of_nat n))) 4)
                (seq (Z.to_nat 1000) (Z.to_nat 9000)) = true)
    by (vm_compute; reflexivity).
  rewrite forallb_forall in H.
  specialize (H (Z.to_nat y)). rewrite Z2Nat.id in H by lia.
  apply Nat.eqb_eq, H, in_seq. lia.
Qed.

Lemma month_abbr_length m : 1 <= m <= 12 -> String.length (month_abbr m) = 3%nat.
Proof.
  intros Hm.
  assert (Hc : m = 1 \/ m = 2 \/ m = 3 \/ m = 4 \/ m = 5 \/ m = 6 \/ m = 7 \/
               m = 8 \/ m = 9 \/ m = 10 \/ m = 11 \/ m = 12) by lia.
  destruct Hc as [->|[->|[->|[->|[->|[->|[->|[->|[->|[->|[->| ->]]]]]]]]]]];
    reflexivity.
Qed.

End Calendar.

(** ** Binary64 arithmetic *)

Section FloatFacts.

Lemma pow2_pos z : (0 < pow2 z)%Q.
Proof. unfold pow2. apply Qpower_0_lt. reflexivity. Qed.

Lemma pow2_add a b : (pow2 (a + b) == pow2 a * pow2 b)%Q.
Proof. unfold pow2. apply Qpower_plus. discriminate. Qed.

Lemma pow2_nonneg_Z a : 0 <= a -> (pow2 a == inject_Z (2 ^ a))%Q.
Proof. intros Ha. unfold pow2. symmetry. now apply (Zpower_Qpower 2 a). Qed.

Lemma pow2_succ a : (pow2 (a + 1) == 2 * pow2 a)%Q.
Proof. rewrite pow2_add. change (pow2 1) with 2%Q. ring. Qed.

Lemma pow2_le a b : a <= b -> (pow2 a <= pow2 b)%Q.
Proof.
  intros Hab. replace b with (a + (b - a)) by lia. rewrite pow2_add.
  rewrite pow2_nonneg_Z with (a := b - a) by lia.
  assert (H1 : 1 <= 2 ^ (b - a)) by (pose proof (Z.pow_pos_nonneg 2 (b - a)); lia).
  assert (H1q : (1 <= inject_Z (2 ^ (b - a)))%Q).
  { rewrite Zle_Qle in H1. exact H1. }
  apply Qle_trans with (pow2 a * 1)%Q; [rewrite Qmult_1_r; apply Qle_refl|].
  apply Qmult_le_l; [apply pow2_pos | exact H1q].
Qed.

Lemma pow2_lt a b : a < b -> (pow2 a < pow2 b)%Q.
Proof.
  intros Hab. apply Qlt_le_trans with (pow2 (a + 1)); [|apply pow2_le; lia].
  rewrite pow2_succ. pose proof (pow2_pos a). lra.
Qed.

Lemma digits2_pos_spec p :
  2 ^ (Zpos (digits2_pos p) - 1) <= Zpos p < 2 ^ Zpos (digits2_pos p).
Proof.
  induction p as [p IH|p IH|]; cbn [digits2_pos].
  - rewrite Pos2Z.inj_succ.
    replace (Z.succ (Zpos (digits2_pos p)) - 1) with (Z.succ (Zpos (digits2_pos p) - 1)) by lia.
    rewrite !Z.pow_succ_r by lia. lia.
  - rewrite Pos2Z.inj_succ.
    replace (Z.succ (Zpos (digits2_pos p)) - 1) with (Z.succ (Zpos (digits2_pos p) - 1)) by lia.
    rewrite !Z.pow_succ_r by lia. lia.
  - cbn. lia.
Qed.

Lemma digits2_pos_unique p k :
  2 ^ (k - 1) <= Zpos p < 2 ^ k -> Zpos (digits2_pos p) = k.
Proof.
  intros [Hlo Hhi]. pose proof (digits2_pos_spec p) as [Hl Hh].
  set (d := Zpos (digits2_pos p)) in *.
  assert (Hk : 0 < k).
  { destruct (Z_lt_le_dec 0 k); [assumption|].
    assert (2 ^ k <= 2 ^ 0) by (apply Z.pow_le_mono_r; lia). cbn in *. lia. }
  destruct (Z.lt_trichotomy d k) as [Hlt|[Heq|Hgt]]; [|assumption|].
  - assert (2 ^ d <= 2 ^ (k - 1)) by (apply Z.pow_le_mono_r; lia). lia.
  - assert (2 ^ k <= 2 ^ (d - 1)) by (apply Z.pow_le_mono_r; lia). lia.
Qed.

Lemma new_location_describes d r :
  0 < d -> 0 <= r < d -> loc_describes (new_location d r) r d.
Proof.
  intros Hd Hr. unfold new_location, new_location_even, new_location_odd.
  destruct (Z.even d) eqn:Ev.
  - destruct (r =? 0) eqn:E0; [apply Z.eqb_eq in E0; exact E0|].
    apply Z.eqb_neq in E0. cbn.
    destruct (Z.compare_spec (2 * r) d); lia.
  - destruct (r =? 0) eqn:E0; [apply Z.eqb_eq in E0; exact E0|].
    apply Z.eqb_neq in E0. cbn.
    rewrite <- Z.negb_odd in Ev. apply negb_false_iff in Ev.
    apply Z.odd_spec in Ev as [k Hk].
    destruct (Z.compare_spec (2 * r + 1) d); lia.
Qed.

Lemma round_nearest_even_describes q l r d :
  0 < d -> 0 <= r < d -> loc_describes l r d ->
  let m := round_nearest_even q l in
  (m = q \/ m = q + 1) /\ 2 * Z.abs (m * d - (q * d + r)) <= d
  /\ (r = 0 -> m = q).
Proof.
  intros Hd Hr Hl. unfold round_nearest_even.
  destruct l as [|[| |]]; cbn in Hl; cbn zeta.
  - subst r. split; [auto|]. split; [|auto]. lia.
  - destruct (Z.even q); (split; [auto|]); (split; [|lia]); lia.
  - split; [auto|]. split; [|lia]. lia.
  - split; [auto|]. split; [|lia]. lia.
Qed.

Lemma shr_1_describes p l r d :
  0 < d -> 0 <= r < d -> loc_describes l r d ->
  exists l',
    shr_1 (shr_record_of_loc (Zpos p) l) = shr_record_of_loc (Zpos p / 2) l'
    /\ loc_describes l' (r + (Zpos p mod 2) * d) (2 * d).
Proof.
  intros Hd Hr Hl.
  assert (Hdiv : forall p', Zpos p'~0 / 2 = Zpos p' /\ Zpos p'~0 mod 2 = 0
                          /\ Zpos p'~1 / 2 = Zpos p' /\ Zpos p'~1 mod 2 = 1).
  { intros p'. rewrite Pos2Z.inj_xO, Pos2Z.inj_xI.
    repeat split; Z.div_mod_to_equations; lia. }
  destruct p as [p|p|]; [destruct (Hdiv p) as (_ & _ & -> & ->)
                        |destruct (Hdiv p) as (-> & -> & _)
                        |change (1 / 2) with 0; change (1 mod 2) with 1];
    destruct l as [|[| |]]; cbn in Hl |- *;
    first [ exists loc_Exact; split; [reflexivity|cbn; lia]
          | exists (loc_Inexact Lt); split; [reflexivity|cbn; lia]
          | exists (loc_Inexact Eq); split; [reflexivity|cbn; lia]
          | exists (loc_Inexact Gt); split; [reflexivity|cbn; lia] ].
Qed.

Lemma fexp_binary64 z : fexp prec emax z = Z.max (z - 53) (-1074).
Proof. reflexivity. Qed.

Lemma loc_of_shr_record_of_loc m l :
  loc_of_shr_record (shr_record_of_loc m l) = l.
Proof. now destruct l as [|[| |]]. Qed.

Lemma shr_m_of_loc m l : shr_m (shr_record_of_loc m l) = m.
Proof. now destruct l as [|[| |]]. Qed.

(** A significand of 53 bits is already at its exponent. *)
Lemma shr_fexp_53 p e l :
  Zpos (digits2_pos p) = 53 -> -1074 <= e ->
  shr_fexp prec emax (Zpos p) e l = (shr_record_of_loc (Zpos p) l, e).
Proof.
  intros Hd He. unfold shr_fexp. cbn [Zdigits2]. rewrite Hd, fexp_binary64.
  replace (Z.max (53 + e - 53) (-1074) - e) with 0 by lia. reflexivity.
Qed.

(** A significand of 54 bits loses its last bit. *)
Lemma shr_fexp_54 p e l :
  Zpos (digits2_pos p) = 54 -> -1075 <= e ->
  shr_fexp prec emax (Zpos p) e l
  = (shr_1 (shr_record_of_loc (Zpos p) l), e + 1).
Proof.
  intros Hd He. unfold shr_fexp. cbn [Zdigits2]. rewrite Hd, fexp_binary64.
  replace (Z.max (54 + e - 53) (-1074) - e) with 1 by lia. reflexivity.
Qed.

Lemma digits_53_range p :
  Zpos (digits2_pos p) = 53 <-> Zpos two52 <= Zpos p < Zpos two53.
Proof.
  split.
  - intros H. pose proof (digits2_pos_spec p) as Hs. rewrite H in Hs.
    exact Hs.
  - intros H. apply digits2_pos_unique. exact H.
Qed.

Lemma digits_54_range p :
  Zpos (digits2_pos p) = 54 <-> Zpos two53 <= Zpos p < 2 * Zpos two53.
Proof.
  split.
  - intros H. pose proof (digits2_pos_spec p) as Hs. rewrite H in Hs.
    exact Hs.
  - intros H. apply digits2_pos_unique. exact H.
Qed.

(** Rounding a 53-bit significand: the neighbour chosen by the location,
    renormalised when it reaches [2^53]. *)
Lemma binary_round_aux_53 s p e l :
  Zpos (digits2_pos p) = 53 -> -1074 <= e <= 970 ->
  let m2 := round_nearest_even (Zpos p) l in
  (m2 = Zpos p \/ m2 = Zpos p + 1) ->
  binary_round_aux prec emax s (Zpos p) e l
  = if m2 =? Zpos two53 then S754_finite s two52 (e + 1)
    else S754_finite s (Z.to_pos m2) e.
Proof.
  intros Hd He m2 Hm2. unfold binary_round_aux.
  rewrite shr_fexp_53 by (try assumption; lia).
  rewrite shr_m_of_loc, loc_of_shr_record_of_loc. fold m2.
  apply digits_53_range in Hd.
  destruct (m2 =? Zpos two53) eqn:E.
  - apply Z.eqb_eq in E. rewrite E.
    rewrite shr_fexp_54 by (try reflexivity; lia). cbn [shr_record_of_loc shr_1 shr_m].
    replace (e + 1 <=? emax - prec) with true
      by (symmetry; apply Z.leb_le; unfold emax, prec; lia).
    reflexivity.
  - apply Z.eqb_neq in E.
    assert (Hr : Zpos two52 <= m2 < Zpos two53) by lia.
    destruct m2 as [|m2p|m2p]; try lia.
    rewrite shr_fexp_53 by (try apply digits_53_range; try assumption; lia).
    cbn [shr_record_of_loc shr_m].
    replace (e <=? emax - prec) with true
      by (symmetry; apply Z.leb_le; unfold emax, prec; lia).
    reflexivity.
Qed.

Lemma div_eucl_div_mod a b : Z.div_eucl a b = (a / b, a mod b).
Proof. unfold Z.div, Z.modulo. now destruct (Z.div_eucl a b). Qed.

(** The quotient the division feeds to the rounding, with 53 or 54 bits. *)
Lemma SFdiv_core_binary_raw (N D : positive) :
  let sh := 53 + Zpos (digits2_pos D) - Zpos (digits2_pos N) in
  -1021 <= Zpos (digits2_pos N) - Zpos (digits2_pos D) <= 53 ->
  SFdiv_core_binary prec emax (Zpos N) 0 (Zpos D) 0
  = ((Zpos N * 2 ^ sh) / Zpos D, - sh,
     new_location (Zpos D) ((Zpos N * 2 ^ sh) mod Zpos D)).
Proof.
  intros sh Hd. unfold SFdiv_core_binary. cbn [Zdigits2].
  rewrite fexp_binary64.
  set (d1 := Zpos (digits2_pos N)) in *. set (d2 := Zpos (digits2_pos D)) in *.
  replace (Z.min (Z.max (d1 + 0 - (d2 + 0) - 53) (-1074)) (0 - 0)) with (- sh)
    by (unfold sh; lia).
  replace (0 - 0 - - sh) with sh by lia.
  assert (Hm : match sh with
               | 0 => Zpos N
               | Zpos _ => Z.shiftl (Zpos N) sh
               | Zneg _ => 0
               end = Zpos N * 2 ^ sh).
  { assert (Hsh : 0 <= sh) by (unfold sh; lia).
    destruct sh as [|p|p] eqn:E; [cbn; lia | | lia].
    rewrite Z.shiftl_mul_pow2 by lia. reflexivity. }
  rewrite Hm, div_eucl_div_mod. reflexivity.
Qed.

(** The correctly rounded quotient of two positive integers whose ratio
    is below [2^54] and not in the subnormal range: the result has a
    53-bit significand [m] at exponent [e]; the quotient lies in the
    binade of exponent [e1], [n] bits were dropped, and [m2] is the
    rounded 53-bit quotient before renormalisation. *)
Lemma fdiv_raw_rounds s (N D : positive) :
  let sh := 53 + Zpos (digits2_pos D) - Zpos (digits2_pos N) in
  -1021 <= Zpos (digits2_pos N) - Zpos (digits2_pos D) <= 53 ->
  exists (m : positive) (e n m2 : Z),
    fdiv (S754_finite s N 0) (S754_finite false D 0) = S754_finite s m e
    /\ Zpos (digits2_pos m) = 53
    /\ 0 <= n <= 1
    /\ ((e = n - sh /\ Zpos m = m2) \/
        (e = n - sh + 1 /\ m = two52 /\ m2 = Zpos two53))
    /\ Zpos two52 * (Zpos D * 2 ^ n) <= Zpos N * 2 ^ sh
    /\ Zpos N * 2 ^ sh < Zpos two53 * (Zpos D * 2 ^ n)
    /\ 2 * Z.abs (m2 * (Zpos D * 2 ^ n) - Zpos N * 2 ^ sh) <= Zpos D * 2 ^ n
    /\ ((Zpos N * 2 ^ sh) mod (Zpos D * 2 ^ n) = 0 ->
        m2 * (Zpos D * 2 ^ n) = Zpos N * 2 ^ sh).
Proof.
  intros sh Hd. unfold fdiv, SFdiv.
  rewrite SFdiv_core_binary_raw by assumption. fold sh.
  replace (xorb s false) with s by now destruct s.
  pose proof (digits2_pos_spec N) as HN. pose proof (digits2_pos_spec D) as HD.
  set (d1 := Zpos (digits2_pos N)) in *. set (d2 := Zpos (digits2_pos D)) in *.
  assert (Hsh : 0 <= sh) by (unfold sh; lia).
  set (N' := Zpos N * 2 ^ sh).
  assert (Hd1 : 0 < d1) by (unfold d1; lia).
  assert (Hd2 : 0 < d2) by (unfold d2; lia).
  (* the scaled numerator lies in [2^(52+d2), 2^(53+d2)) *)
  assert (HN' : 2 ^ (52 + d2) <= N' < 2 ^ (53 + d2)).
  { unfold N'. replace (52 + d2) with (d1 - 1 + sh) by (unfold sh; lia).
    replace (53 + d2) with (d1 + sh) by (unfold sh; lia).
    rewrite !Z.pow_add_r by lia.
    pose proof (Z.pow_pos_nonneg 2 sh ltac:(lia) Hsh). nia. }
  assert (Hp52 : 2 ^ (52 + d2) = Zpos two52 * (2 * 2 ^ (d2 - 1))).
  { rewrite <- Z.pow_succ_r by lia. replace (Z.succ (d2 - 1)) with d2 by lia.
    rewrite Z.pow_add_r by lia. reflexivity. }
  assert (Hp53 : 2 ^ (53 + d2) = 2 * Zpos two53 * 2 ^ (d2 - 1)).
  { replace (53 + d2) with (54 + (d2 - 1)) by lia.
    rewrite Z.pow_add_r by lia. reflexivity. }
  assert (Hp2 : 2 ^ d2 = 2 * 2 ^ (d2 - 1)).
  { rewrite <- Z.pow_succ_r by lia. f_equal. lia. }
  set (P := 2 ^ (d2 - 1)) in *.
  assert (HP : 0 < P) by (apply Z.pow_pos_nonneg; lia).
  set (q := N' / Zpos D). set (r := N' mod Zpos D).
  assert (Hqr : N' = Zpos D * q + r /\ 0 <= r < Zpos D).
  { unfold q, r. split; [apply Z.div_mod; lia | apply Z.mod_pos_bound; lia]. }
  destruct Hqr as [Hqr Hr].
  assert (H2 : Zpos two53 = 2 * Zpos two52) by reflexivity.
  assert (Hq : Zpos two52 <= q < 2 * Zpos two53) by nia.
  pose proof (new_location_describes (Zpos D) r ltac:(lia) Hr) as Hloc.
  destruct q as [|qp|qp] eqn:Eq; try lia.
  destruct (Z_lt_le_dec (Zpos qp) (Zpos two53)) as [Hlt|Hge].
  - (* 53 bits: no bit is dropped *)
    assert (Hdq : Zpos (digits2_pos qp) = 53) by (apply digits_53_range; lia).
    destruct (round_nearest_even_describes (Zpos qp) _ r (Zpos D) ltac:(lia) Hr Hloc)
      as (Hm2 & Herr & Hex).
    rewrite (binary_round_aux_53 s qp (- sh) _ Hdq ltac:(unfold sh; lia) Hm2).
    set (m2 := round_nearest_even (Zpos qp) (new_location (Zpos D) r)) in *.
    destruct (m2 =? Zpos two53) eqn:E.
    + apply Z.eqb_eq in E.
      exists two52, (- sh + 1), 0, m2.
      split; [reflexivity|]. split; [reflexivity|]. split; [lia|].
      split; [right; split; [lia|auto]|].
      rewrite Z.pow_0_r, Z.mul_1_r. fold N'.
      split; [nia|]. split; [nia|]. split; [rewrite Hqr; nia|].
      intros H0. fold r in H0. rewrite Hex by assumption. lia.
    + apply Z.eqb_neq in E.
      assert (Hr2 : Zpos two52 <= m2 < Zpos two53) by lia.
      exists (Z.to_pos m2), (- sh), 0, m2.
      split; [reflexivity|].
      split; [apply digits_53_range; rewrite Z2Pos.id by lia; exact Hr2|].
      split; [lia|].
      split; [left; split; [lia|rewrite Z2Pos.id by lia; reflexivity]|].
      rewrite Z.pow_0_r, Z.mul_1_r. fold N'.
      split; [nia|]. split; [nia|]. split; [rewrite Hqr; nia|].
      intros H0. fold r in H0. rewrite Hex by assumption. lia.
  - (* 54 bits: the last bit is dropped *)
    assert (Hdq : Zpos (digits2_pos qp) = 54) by (apply digits_54_range; lia).
    destruct (shr_1_describes qp _ r (Zpos D) ltac:(lia) Hr Hloc)
      as (l' & Hshr & Hl').
    set (q1 := Zpos qp / 2) in *. set (b := Zpos qp mod 2) in *.
    assert (Hq1 : Zpos qp = 2 * q1 + b /\ 0 <= b < 2).
    { unfold q1, b. split; [apply Z.div_mod; lia | apply Z.mod_pos_bound; lia]. }
    destruct Hq1 as [Hq1 Hb].
    assert (Hq1r : Zpos two52 <= q1 < Zpos two53) by lia.
    destruct q1 as [|q1p|q1p] eqn:Eq1; try lia.
    assert (Hdq1 : Zpos (digits2_pos q1p) = 53) by (apply digits_53_range; lia).
    assert (Hr' : 0 <= r + b * Zpos D < 2 * Zpos D) by nia.
    destruct (round_nearest_even_describes (Zpos q1p) l' (r + b * Zpos D)
                (2 * Zpos D) ltac:(lia) Hr' Hl') as (Hm2 & Herr & Hex).
    assert (Hbra : binary_round_aux prec emax s (Zpos qp) (- sh)
                     (new_location (Zpos D) r)
                   = binary_round_aux prec emax s (Zpos q1p) (- sh + 1) l').
    { unfold binary_round_aux.
      rewrite shr_fexp_54 by (try assumption; unfold sh; lia).
      rewrite Hshr.
      rewrite (shr_fexp_53 q1p (- sh + 1) l') by (try assumption; unfold sh; lia).
      reflexivity. }
    rewrite Hbra.
    rewrite (binary_round_aux_53 s q1p (- sh + 1) _ Hdq1 ltac:(unfold sh; lia) Hm2).
    set (m2 := round_nearest_even (Zpos q1p) l') in *.
    assert (HNq : N' = Zpos q1p * (2 * Zpos D) + (r + b * Zpos D)) by nia.
    destruct (m2 =? Zpos two53) eqn:E.
    + apply Z.eqb_eq in E.
      exists two52, (- sh + 1 + 1), 1, m2.
      split; [reflexivity|]. split; [reflexivity|]. split; [lia|].
      split; [right; split; [lia|auto]|].
      rewrite Z.pow_1_r. fold N'.
      split; [nia|]. split; [nia|]. split; [rewrite HNq; nia|].
      intros H0. apply Z.mod_divide in H0; [|lia]. destruct H0 as [k Hk].
      assert (Hk1 : k = Zpos q1p) by nia.
      rewrite Hex by nia. lia.
    + apply Z.eqb_neq in E.
      assert (Hr2 : Zpos two52 <= m2 < Zpos two53) by lia.
      exists (Z.to_pos m2), (- sh + 1), 1, m2.
      split; [reflexivity|].
      split; [apply digits_53_range; rewrite Z2Pos.id by lia; exact Hr2|].
      split; [lia|].
      split; [left; split; [lia|rewrite Z2Pos.id by lia; reflexivity]|].
      rewrite Z.pow_1_r. fold N'.
      split; [nia|]. split; [nia|]. split; [rewrite HNq; nia|].
      intros H0. apply Z.mod_divide in H0; [|lia]. destruct H0 as [k Hk].
      assert (Hk1 : k = Zpos q1p) by nia.
      rewrite Hex by nia. lia.
Qed.

Lemma inject_Z_pos z : 0 < z -> (0 < inject_Z z)%Q.
Proof. intros H. unfold Qlt. cbn. lia. Qed.

Lemma fdiv_raw_nearest s (N D : positive) :
  -1021 <= Zpos (digits2_pos N) - Zpos (digits2_pos D) <= 53 ->
  exists m e,
    fdiv (S754_finite s N 0) (S754_finite false D 0) = S754_finite s m e
    /\ rounds_to (inject_Z (Zpos N) / inject_Z (Zpos D)) m e.
Proof.
  intros Hd.
  destruct (fdiv_raw_rounds s N D Hd)
    as (m & e & n & m2 & Heq & Hdig & Hn & Hcase & Hlo & Hhi & Herr & _).
  set (sh := 53 + Zpos (digits2_pos D) - Zpos (digits2_pos N)) in *.
  assert (Hsh : 0 <= sh <= 1074) by (unfold sh; lia).
  exists m, e. split; [exact Heq|]. split; [exact Hdig|].
  exists (n - sh). split; [lia|]. split; [tauto|].
  (* pass to the rationals *)
  assert (HA : (pow2 (n - sh) * inject_Z (2 ^ sh) == inject_Z (2 ^ n))%Q).
  { rewrite <- !pow2_nonneg_Z by lia. rewrite <- pow2_add. now replace (n - sh + sh) with n by lia. }
  assert (HA0 : (0 < inject_Z (2 ^ sh))%Q).
  { rewrite <- pow2_nonneg_Z by lia. apply pow2_pos. }
  assert (HB0 : (0 < inject_Z (2 ^ n))%Q).
  { rewrite <- pow2_nonneg_Z by lia. apply pow2_pos. }
  assert (Hd0 : (0 < inject_Z (Zpos D))%Q) by (apply inject_Z_pos; lia).
  assert (Hx : (inject_Z (Zpos N) / inject_Z (Zpos D) * inject_Z (Zpos D)
                == inject_Z (Zpos N))%Q) by (field; lra).
  assert (Hval : (inject_Z (Zpos m) * pow2 e * inject_Z (2 ^ sh)
                  == inject_Z m2 * inject_Z (2 ^ n))%Q).
  { destruct Hcase as [[-> <-]|(-> & -> & ->)].
    - rewrite <- HA. ring.
    - rewrite pow2_succ, <- HA. change (inject_Z (Zpos two53)) with (2 * inject_Z (Zpos two52))%Q. ring. }
  assert (Hh1 : (pow2 (52 + (n - sh)) == inject_Z (Zpos two52) * pow2 (n - sh))%Q).
  { rewrite pow2_add. rewrite (pow2_nonneg_Z 52) by lia. reflexivity. }
  assert (Hh2 : (pow2 (53 + (n - sh)) == inject_Z (Zpos two53) * pow2 (n - sh))%Q).
  { rewrite pow2_add. rewrite (pow2_nonneg_Z 53) by lia. reflexivity. }
  assert (Hh3 : (2 * pow2 (n - sh - 1) == pow2 (n - sh))%Q).
  { rewrite <- pow2_succ. now replace (n - sh - 1 + 1) with (n - sh) by lia. }
  rewrite Hh1, Hh2.
  set (x := (inject_Z (Zpos N) / inject_Z (Zpos D))%Q) in *.
  set (P := pow2 (n - sh)) in *. set (P' := pow2 (n - sh - 1)) in *.
  set (V := (inject_Z (Zpos m) * pow2 e)%Q) in *.
  set (A := inject_Z (2 ^ sh)) in *. set (B := inject_Z (2 ^ n)) in *.
  set (d := inject_Z (Zpos D)) in *. set (nn := inject_Z (Zpos N)) in *.
  set (M2 := inject_Z m2) in *.
  set (T52 := inject_Z (Zpos two52)) in *. set (T53 := inject_Z (Zpos two53)) in *.
  assert (Hlo' : (T52 * (d * B) <= nn * A)%Q).
  { unfold T52, d, B, nn, A. rewrite <- !inject_Z_mult, <- Zle_Qle. exact Hlo. }
  assert (Hhi' : (nn * A < T53 * (d * B))%Q).
  { unfold T53, d, B, nn, A. rewrite <- !inject_Z_mult, <- Zlt_Qlt. exact Hhi. }
  assert (Herr1 : (2 * (nn * A) <= 2 * (M2 * (d * B)) + d * B)%Q).
  { unfold M2, d, B, nn, A. change 2%Q with (inject_Z 2).
    rewrite <- ?inject_Z_mult, <- ?inject_Z_plus, <- Zle_Qle. lia. }
  assert (Herr2 : (2 * (M2 * (d * B)) <= 2 * (nn * A) + d * B)%Q).
  { unfold M2, d, B, nn, A. change 2%Q with (inject_Z 2).
    rewrite <- ?inject_Z_mult, <- ?inject_Z_plus, <- Zle_Qle. lia. }
  assert (HdA : (0 < d * A)%Q) by nra.
  assert (HdA2 : (0 < 2 * (d * A))%Q) by lra.
  repeat split.
  - apply (Qmult_le_r _ _ (d * A) HdA).
    assert (E1 : (T52 * P * (d * A) == T52 * (d * (P * A)))%Q) by ring.
    assert (E2 : (x * (d * A) == (x * d) * A)%Q) by ring.
    rewrite E1, E2, HA, Hx. exact Hlo'.
  - apply (Qmult_lt_r _ _ (d * A) HdA).
    assert (E1 : (T53 * P * (d * A) == T53 * (d * (P * A)))%Q) by ring.
    assert (E2 : (x * (d * A) == (x * d) * A)%Q) by ring.
    rewrite E1, E2, HA, Hx. exact Hhi'.
  - apply (Qmult_le_r _ _ (2 * (d * A))%Q HdA2).
    assert (E1 : ((x - P') * (2 * (d * A))
                  == 2 * ((x * d) * A) - d * ((2 * P') * A))%Q) by ring.
    assert (E2 : (V * (2 * (d * A)) == 2 * ((V * A) * d))%Q) by ring.
    rewrite E1, E2, Hh3, HA, Hx, Hval. lra.
  - apply (Qmult_le_r _ _ (2 * (d * A))%Q HdA2).
    assert (E1 : ((x + P') * (2 * (d * A))
                  == 2 * ((x * d) * A) + d * ((2 * P') * A))%Q) by ring.
    assert (E2 : (V * (2 * (d * A)) == 2 * ((V * A) * d))%Q) by ring.
    rewrite E1, E2, Hh3, HA, Hx, Hval. lra.
Qed.

Lemma mant_bounds m e :
  Zpos (digits2_pos m) = 53 ->
  (pow2 (52 + e) <= mant m e)%Q /\ (mant m e < pow2 (53 + e))%Q.
Proof.
  intros Hd. apply digits_53_range in Hd as [Hlo Hhi]. unfold mant.
  rewrite !pow2_add, (pow2_nonneg_Z 52), (pow2_nonneg_Z 53) by lia.
  pose proof (pow2_pos e) as Hp.
  rewrite Zle_Qle in Hlo. rewrite Zlt_Qlt in Hhi.
  change (2 ^ 52) with (Zpos two52). change (2 ^ 53) with (Zpos two53).
  split.
  - apply Qmult_le_r; assumption.
  - apply Qmult_lt_r; assumption.
Qed.

(** A float with a smaller exponent is smaller. *)
Lemma mant_lt_exp m1 e1 m2 e2 :
  Zpos (digits2_pos m1) = 53 -> Zpos (digits2_pos m2) = 53 ->
  e1 < e2 -> (mant m1 e1 < mant m2 e2)%Q.
Proof.
  intros H1 H2 He.
  destruct (mant_bounds m1 e1 H1) as [_ Hhi].
  destruct (mant_bounds m2 e2 H2) as [Hlo _].
  eapply Qlt_le_trans; [exact Hhi|]. eapply Qle_trans; [|exact Hlo].
  apply pow2_le. lia.
Qed.

Lemma mant_same_exp m1 m2 e :
  (mant m1 e ?= mant m2 e)%Q = (m1 ?= m2)%positive.
Proof.
  unfold mant. pose proof (pow2_pos e) as Hp.
  destruct (Pos.compare_spec m1 m2) as [->|Hlt|Hgt].
  - apply Qeq_alt. reflexivity.
  - apply Qlt_alt. apply Qmult_lt_r; [assumption|]. rewrite <- Zlt_Qlt. lia.
  - apply Qgt_alt. apply Qmult_lt_r; [assumption|]. rewrite <- Zlt_Qlt. lia.
Qed.

(** On positive floats with 53-bit significands the comparison of
    [SpecFloat] is the comparison of the values. *)
Lemma SFcompare_mant m1 e1 m2 e2 :
  Zpos (digits2_pos m1) = 53 -> Zpos (digits2_pos m2) = 53 ->
  SFcompare (S754_finite false m1 e1) (S754_finite false m2 e2)
  = Some (mant m1 e1 ?= mant m2 e2)%Q.
Proof.
  intros H1 H2. cbn [SFcompare]. f_equal.
  destruct (Z.compare_spec e1 e2) as [->|Hlt|Hgt].
  - rewrite mant_same_exp. reflexivity.
  - symmetry. apply Qlt_alt. now apply mant_lt_exp.
  - symmetry. apply Qgt_alt. now apply mant_lt_exp.
Qed.

Lemma fle_mant m1 e1 m2 e2 :
  Zpos (digits2_pos m1) = 53 -> Zpos (digits2_pos m2) = 53 ->
  fle (S754_finite false m1 e1) (S754_finite false m2 e2) = true
  <-> (mant m1 e1 <= mant m2 e2)%Q.
Proof.
  intros H1 H2. unfold fle, SFleb. rewrite SFcompare_mant by assumption.
  rewrite Qle_alt. destruct (mant m1 e1 ?= mant m2 e2)%Q; split; congruence.
Qed.

Lemma flt_mant m1 e1 m2 e2 :
  Zpos (digits2_pos m1) = 53 -> Zpos (digits2_pos m2) = 53 ->
  flt (S754_finite false m1 e1) (S754_finite false m2 e2) = true
  <-> (mant m1 e1 < mant m2 e2)%Q.
Proof.
  intros H1 H2. unfold flt, SFltb. rewrite SFcompare_mant by assumption.
  rewrite Qlt_alt. destruct (mant m1 e1 ?= mant m2 e2)%Q; split; congruence.
Qed.

(** Two floats with 53-bit significands and the same value are equal. *)
Lemma mant_inj m1 e1 m2 e2 :
  Zpos (digits2_pos m1) = 53 -> Zpos (digits2_pos m2) = 53 ->
  (mant m1 e1 == mant m2 e2)%Q -> m1 = m2 /\ e1 = e2.
Proof.
  intros H1 H2 Heq.
  destruct (Z.lt_trichotomy e1 e2) as [Hlt|[->|Hgt]].
  - pose proof (mant_lt_exp m1 e1 m2 e2 H1 H2 Hlt). lra.
  - split; [|reflexivity]. apply Qeq_alt in Heq. rewrite mant_same_exp in Heq.
    now apply Pos.compare_eq.
  - pose proof (mant_lt_exp m2 e2 m1 e1 H2 H1 Hgt). lra.
Qed.

(** Between two floats lies at least one unit in the last place of the
    smaller. *)
Lemma mant_gap m1 e1 m2 e2 :
  Zpos (digits2_pos m1) = 53 -> Zpos (digits2_pos m2) = 53 ->
  (mant m1 e1 < mant m2 e2)%Q -> (mant m1 e1 + pow2 e1 <= mant m2 e2)%Q.
Proof.
  intros H1 H2 Hlt.
  destruct (Z_lt_le_dec e2 e1) as [Hgt|Hle].
  - pose proof (mant_lt_exp m2 e2 m1 e1 H2 H1 Hgt). lra.
  - unfold mant in *. pose proof (pow2_pos e1) as Hp.
    assert (He2 : (pow2 e2 == inject_Z (2 ^ (e2 - e1)) * pow2 e1)%Q).
    { rewrite <- pow2_nonneg_Z by lia. rewrite <- pow2_add.
      now replace (e2 - e1 + e1) with e2 by lia. }
    rewrite He2 in Hlt |- *.
    assert (Hk : (inject_Z (Zpos m1) < inject_Z (Zpos m2 * 2 ^ (e2 - e1)))%Q).
    { rewrite inject_Z_mult. apply (Qmult_lt_r _ _ (pow2 e1) Hp). lra. }
    rewrite <- Zlt_Qlt in Hk.
    assert (Hk' : Zpos m1 + 1 <= Zpos m2 * 2 ^ (e2 - e1)) by lia.
    rewrite Zle_Qle, inject_Z_plus, inject_Z_mult in Hk'.
    change (inject_Z 1) with 1%Q in Hk'.
    assert (E : (inject_Z (Zpos m1) * pow2 e1 + pow2 e1
                 == (inject_Z (Zpos m1) + 1) * pow2 e1)%Q) by ring.
    assert (E2 : (inject_Z (Zpos m2) * (inject_Z (2 ^ (e2 - e1)) * pow2 e1)
                  == (inject_Z (Zpos m2) * inject_Z (2 ^ (e2 - e1))) * pow2 e1)%Q) by ring.
    rewrite E, E2. apply Qmult_le_r; assumption.
Qed.

(** A nearest float is not below a float that is not above [x], and not
    above a float that is not below [x]. *)
Lemma rounds_to_ge x m e my ey :
  rounds_to x m e -> Zpos (digits2_pos my) = 53 ->
  (mant my ey <= x)%Q -> (mant my ey <= mant m e)%Q.
Proof.
  intros (Hd & e1 & He1 & Hcase & Hlo & Hhi & Hdn & Hup) Hy Hle.
  fold (mant m e) in *.
  destruct (Qlt_le_dec (mant m e) (mant my ey)) as [Hlt|]; [|assumption].
  exfalso. pose proof (mant_gap m e my ey Hd Hy Hlt) as Hgap.
  assert (Hp : (pow2 (e1 - 1) < pow2 e)%Q) by (apply pow2_lt; lia).
  lra.
Qed.

Lemma rounds_to_le x m e my ey :
  rounds_to x m e -> Zpos (digits2_pos my) = 53 ->
  (x <= mant my ey)%Q -> (mant m e <= mant my ey)%Q.
Proof.
  intros (Hd & e1 & He1 & Hcase & Hlo & Hhi & Hdn & Hup) Hy Hle.
  fold (mant m e) in *.
  destruct (Qlt_le_dec (mant my ey) (mant m e)) as [Hlt|]; [|assumption].
  exfalso.
  destruct (Z_lt_le_dec ey e1) as [Hey|Hey].
  - destruct (mant_bounds my ey Hy) as [_ Hyhi].
    assert (Hp : (pow2 (53 + ey) <= pow2 (52 + e1))%Q) by (apply pow2_le; lia).
    lra.
  - pose proof (mant_gap my ey m e Hy Hd Hlt) as Hgap.
    assert (Hp : (pow2 (e1 - 1) < pow2 e1)%Q) by (apply pow2_lt; lia).
    assert (Hp' : (pow2 e1 <= pow2 ey)%Q) by (apply pow2_le; lia).
    lra.
Qed.

(** A float is its own nearest float. *)
Lemma rounds_to_exact x m e my ey :
  rounds_to x m e -> Zpos (digits2_pos my) = 53 ->
  (x == mant my ey)%Q -> m = my /\ e = ey.
Proof.
  intros Hr Hy Hx. pose proof Hr as (Hd & _).
  apply mant_inj; try assumption.
  apply Qle_antisym.
  - apply (rounds_to_le x); [assumption..|]. lra.
  - apply (rounds_to_ge x); [assumption..|]. lra.
Qed.

Lemma digits2_pos_le p k : 0 <= k -> Zpos p < 2 ^ k -> Zpos (digits2_pos p) <= k.
Proof.
  intros Hk Hp. pose proof (digits2_pos_spec p) as [Hlo _].
  destruct (Z_lt_le_dec k (Zpos (digits2_pos p))) as [Hlt|]; [|assumption].
  assert (2 ^ k <= 2 ^ (Zpos (digits2_pos p) - 1)) by (apply Z.pow_le_mono_r; lia).
  lia.
Qed.

(** The float of a stored positive amount is a nearest float of the
    amount. *)
Lemma to_float_cents a :
  0 < a < 10 ^ 12 ->
  exists m e,
    PyDecimal.to_float (PyDecimal.of_cents a) = S754_finite false m e
    /\ rounds_to (inject_Z a / 100) m e.
Proof.
  intros Ha. destruct a as [|p|p]; try lia.
  assert (Hdp : Zpos (digits2_pos p) <= 40).
  { apply digits2_pos_le; [lia|]. eapply Z.lt_le_trans; [apply Ha|]. now vm_compute. }
  pose proof (Pos2Z.is_pos (digits2_pos p)).
  destruct (fdiv_raw_nearest false p 100) as (m & e & Heq & Hr).
  { change (Zpos (digits2_pos 100)) with 7. lia. }
  exists m, e. split; [|exact Hr].
  unfold PyDecimal.to_float, PyDecimal.of_cents. cbn [Z.ltb Z.compare Z.abs_N Z.abs N.of_nat].
  change (Z.abs_N (Zpos p)) with (Npos p).
  change (Z.max (-2) 0) with 0. change (Z.max (- -2) 0) with 2.
  rewrite Z.pow_0_r, Z.mul_1_r. exact Heq.
Qed.

Lemma to_float_cents_zero :
  PyDecimal.to_float (PyDecimal.of_cents 0) = S754_zero false.
Proof. reflexivity. Qed.

(** The conversion of stored amounts to floats keeps their order, and
    keeps different amounts apart. *)
Lemma to_float_cents_order a b :
  0 <= a < 10 ^ 12 -> 0 <= b < 10 ^ 12 ->
  fle (PyDecimal.to_float (PyDecimal.of_cents a))
      (PyDecimal.to_float (PyDecimal.of_cents b)) = (a <=? b).
Proof.
  intros Ha Hb.
  destruct (Z.eq_dec a 0) as [->|Ha0]; destruct (Z.eq_dec b 0) as [->|Hb0].
  - reflexivity.
  - destruct (to_float_cents b ltac:(lia)) as (mb & eb & -> & _).
    rewrite to_float_cents_zero. cbn. symmetry. apply Z.leb_le. lia.
  - destruct (to_float_cents a ltac:(lia)) as (ma & ea & -> & _).
    rewrite to_float_cents_zero. cbn. symmetry. apply Z.leb_gt. lia.
  - destruct (Z.eq_dec a b) as [<-|Hne].
    { destruct (to_float_cents a ltac:(lia)) as (ma & ea & -> & (Hda & _)).
      rewrite Z.leb_refl. apply fle_mant; try assumption. apply Qle_refl. }
    destruct (to_float_cents a ltac:(lia)) as (ma & ea & -> & Hra).
    destruct (to_float_cents b ltac:(lia)) as (mb & eb & -> & Hrb).
    pose proof Hra as (Hda & e1a & _ & _ & Hloa & _ & Hdna & Hupa).
    pose proof Hrb as (Hdb & e1b & _ & _ & Hlob & _ & Hdnb & Hupb).
    fold (mant ma ea) in *. fold (mant mb eb) in *.
    assert (Hxa : (inject_Z a / 100 * 100 == inject_Z a)%Q) by (field; lra).
    assert (Hxb : (inject_Z b / 100 * 100 == inject_Z b)%Q) by (field; lra).
    set (xa := (inject_Z a / 100)%Q) in *. set (xb := (inject_Z b / 100)%Q) in *.
    assert (Hea : (inject_Z (2 ^ 53) * pow2 (e1a - 1) == pow2 (52 + e1a))%Q).
    { rewrite <- pow2_nonneg_Z by lia. rewrite <- pow2_add. now replace (53 + (e1a - 1)) with (52 + e1a) by lia. }
    assert (Heb : (inject_Z (2 ^ 53) * pow2 (e1b - 1) == pow2 (52 + e1b))%Q).
    { rewrite <- pow2_nonneg_Z by lia. rewrite <- pow2_add. now replace (53 + (e1b - 1)) with (52 + e1b) by lia. }
    change (inject_Z (2 ^ 53)) with 9007199254740992%Q in *.
    assert (Hamax : (inject_Z a <= 999999999999)%Q).
    { change 999999999999%Q with (inject_Z 999999999999). rewrite <- Zle_Qle. lia. }
    assert (Hbmax : (inject_Z b <= 999999999999)%Q).
    { change 999999999999%Q with (inject_Z 999999999999). rewrite <- Zle_Qle. lia. }
    assert (Ha1 : (1 <= inject_Z a)%Q).
    { change 1%Q with (inject_Z 1). rewrite <- Zle_Qle. lia. }
    assert (Hb1 : (1 <= inject_Z b)%Q).
    { change 1%Q with (inject_Z 1). rewrite <- Zle_Qle. lia. }
    destruct (a <=? b) eqn:E.
    + apply Z.leb_le in E. apply fle_mant; try assumption.
      assert (Hab : (inject_Z a + 1 <= inject_Z b)%Q).
      { change 1%Q with (inject_Z 1). rewrite <- inject_Z_plus, <- Zle_Qle. lia. }
      lra.
    + apply Z.leb_gt in E. apply not_true_iff_false. rewrite fle_mant by assumption.
      assert (Hab : (inject_Z b + 1 <= inject_Z a)%Q).
      { change 1%Q with (inject_Z 1). rewrite <- inject_Z_plus, <- Zle_Qle. lia. }
      lra.
Qed.

(** *** Signs *)

Lemma iter_pos_invariant {A} (P : A -> Prop) (f : A -> A) :
  (forall x, P x -> P (f x)) -> forall n x, P x -> P (SpecFloat.iter_pos f n x).
Proof.
  intros Hf. induction n as [n IH|n IH|]; intros x Hx; cbn [SpecFloat.iter_pos]; auto.
Qed.

Lemma shr_1_nonneg mrs : 0 <= shr_m mrs -> 0 <= shr_m (shr_1 mrs).
Proof.
  destruct mrs as [m r s]. cbn [shr_m]. intros Hm.
  destruct m as [|[p|p|]|p]; cbn; lia.
Qed.

Lemma shr_nonneg mrs e n : 0 <= shr_m mrs -> 0 <= shr_m (shr mrs e n).1.
Proof.
  intros Hm. unfold shr. destruct n as [|p|p]; cbn [fst]; try assumption.
  now apply iter_pos_invariant; [apply shr_1_nonneg|].
Qed.

(** Rounding keeps the sign: the result is a zero, a finite number or an
    infinity of the sign given. *)
Lemma binary_round_aux_sign s p e l :
  let f := binary_round_aux prec emax s (Zpos p) e l in
  f = S754_zero s \/ f = S754_infinity s \/ exists m e', f = S754_finite s m e'.
Proof.
  unfold binary_round_aux.
  destruct (shr_fexp prec emax (Zpos p) e l) as [mrs' e'] eqn:E1.
  assert (H1 : 0 <= shr_m mrs').
  { replace mrs' with (shr_fexp prec emax (Zpos p) e l).1 by now rewrite E1.
    unfold shr_fexp. apply shr_nonneg. rewrite shr_m_of_loc. lia. }
  assert (H2 : 0 <= round_nearest_even (shr_m mrs') (loc_of_shr_record mrs')).
  { unfold round_nearest_even.
    destruct (loc_of_shr_record mrs') as [|[| |]]; try destruct (Z.even _); lia. }
  destruct (shr_fexp prec emax (round_nearest_even _ _) e' loc_Exact)
    as [mrs'' e''] eqn:E2.
  assert (H3 : 0 <= shr_m mrs'').
  { replace mrs'' with (shr_fexp prec emax
      (round_nearest_even (shr_m mrs') (loc_of_shr_record mrs')) e' loc_Exact).1
      by now rewrite E2.
    unfold shr_fexp. apply shr_nonneg. now rewrite shr_m_of_loc. }
  destruct (shr_m mrs'') as [|m|m]; [auto| |lia].
  destruct (e'' <=? emax - prec); eauto.
Qed.

Lemma fge_nonneg_nonpos a b : nonneg_float a -> nonpos_float b -> fge a b = true.
Proof.
  intros [->|[->|(m & e & ->)]] [->|[->|(m' & e' & ->)]]; reflexivity.
Qed.

Lemma fmul_pos_neg mt et m e :
  nonpos_float (fmul (S754_finite false mt et) (S754_finite true m e)).
Proof.
  unfold fmul, SFmul. cbn [xorb].
  destruct (binary_round_aux_sign true (mt * m) (et + e) loc_Exact)
    as [H|[H|H]]; unfold nonpos_float; auto.
Qed.

(** *** True division of integers *)

Lemma int_truediv_nearest a b :
  0 < Z.abs a < 2 ^ 22 -> 0 < b < 2 ^ 22 ->
  exists m e,
    int_truediv a b = S754_finite (a <? 0) m e
    /\ rounds_to (inject_Z (Z.abs a) / inject_Z b) m e.
Proof.
  intros Ha Hb. destruct b as [|q|q]; try lia.
  assert (Hdq : 0 < Zpos (digits2_pos q) <= 22)
    by (split; [lia | apply digits2_pos_le; lia]).
  destruct a as [|p|p]; try lia.
  - assert (Hdp : 0 < Zpos (digits2_pos p) <= 22)
      by (split; [lia | apply digits2_pos_le; lia]).
    destruct (fdiv_raw_nearest false p q ltac:(lia)) as (m & e & Heq & Hr).
    exists m, e. split; [exact Heq | exact Hr].
  - assert (Hdp : 0 < Zpos (digits2_pos p) <= 22)
      by (split; [lia | apply digits2_pos_le; cbn in Ha; lia]).
    destruct (fdiv_raw_nearest true p q ltac:(lia)) as (m & e & Heq & Hr).
    exists m, e. split; [exact Heq | exact Hr].
Qed.

(** *** Multiplication by 1.0 *)

Lemma one_eq : one = S754_finite false two52 (-52).
Proof. reflexivity. Qed.

Lemma mant_one : (mant two52 (-52) == 1)%Q.
Proof. reflexivity. Qed.

Lemma shr_52_exact m :
  SpecFloat.iter_pos shr_1 52
    {| shr_m := Zpos (two52 * m); shr_r := false; shr_s := false |}
  = {| shr_m := Zpos m; shr_r := false; shr_s := false |}.
Proof. vm_compute. reflexivity. Qed.

Lemma fmul_one s m e :
  Zpos (digits2_pos m) = 53 -> -1074 <= e <= 971 ->
  fmul (S754_finite s m e) one = S754_finite s m e.
Proof.
  intros Hd He. rewrite one_eq. unfold fmul, SFmul.
  replace (xorb s false) with s by now destruct s.
  rewrite Pos.mul_comm.
  assert (Hdm : digits2_pos m = 53%positive) by (injection Hd; auto).
  unfold binary_round_aux.
  assert (Hs : shr_fexp prec emax (Zpos (two52 * m)) (e + -52) loc_Exact
               = ({| shr_m := Zpos m; shr_r := false; shr_s := false |}, e)).
  { unfold shr_fexp. rewrite fexp_binary64.
    assert (Hdd : Zdigits2 (Zpos (two52 * m)) = 105).
    { cbn [Zdigits2]. apply digits2_pos_unique. rewrite Pos2Z.inj_mul.
      apply digits_53_range in Hd.
      change (2 ^ (105 - 1)) with (Zpos two52 * Zpos two52).
      change (2 ^ 105) with (Zpos two52 * Zpos two53). nia. }
    rewrite Hdd.
    replace (Z.max (105 + (e + -52) - 53) (-1074) - (e + -52)) with 52 by lia.
    cbn [shr_record_of_loc shr]. rewrite shr_52_exact. f_equal. lia. }
  rewrite Hs. cbn [shr_m loc_of_shr_record round_nearest_even].
  rewrite shr_fexp_53 by (try assumption; lia).
  cbn [shr_record_of_loc shr_m].
  replace (e <=? emax - prec) with true
    by (symmetry; apply Z.leb_le; unfold emax, prec; lia).
  reflexivity.
Qed.

(** The floats of positive ratios of at least one, capped at 1.0, are
    1.0. *)
Lemma fmin_one_of_ge m e :
  Zpos (digits2_pos m) = 53 -> (1 <= mant m e)%Q ->
  fmin (S754_finite false m e) one = one.
Proof.
  intros Hd Hge. unfold fmin. rewrite one_eq.
  destruct (flt (S754_finite false two52 (-52)) (S754_finite false m e)) eqn:E;
    [reflexivity|].
  apply not_true_iff_false in E. rewrite flt_mant in E by (try assumption; reflexivity).
  rewrite mant_one in E.
  assert (Heq : (mant m e == mant two52 (-52))%Q) by (rewrite mant_one; lra).
  apply mant_inj in Heq as [-> ->]; [reflexivity | assumption | reflexivity].
Qed.

End FloatFacts.

(** ** The on-track flag *)

Section OnTrack.

Lemma days_before_month_range y m :
  1 <= m <= 12 -> 0 <= days_before_month y m <= 335.
Proof.
  intros Hm. unfold days_before_month.
  assert (Hc : m = 1 \/ m = 2 \/ m = 3 \/ m = 4 \/ m = 5 \/ m = 6 \/ m = 7 \/
               m = 8 \/ m = 9 \/ m = 10 \/ m = 11 \/ m = 12) by lia.
  destruct Hc as [->|[->|[->|[->|[->|[->|[->|[->|[->|[->|[->| ->]]]]]]]]]]];
    cbn [Z.ltb Z.compare Pos.compare Pos.compare_cont andb];
    destruct (is_leap y); lia.
Qed.

Lemma toordinal_range d : valid d -> 1 <= toordinal d < 2 ^ 22.
Proof.
  intros (Hy & Hm & Hd). unfold toordinal, days_before_year.
  unfold MINYEAR, MAXYEAR in Hy.
  pose proof (days_in_month_pos (year d) (month d) Hm) as Hdim.
  pose proof (days_before_month_range (year d) (month d) Hm) as Hdbm.
  change (2 ^ 22) with 4194304.
  Z.div_mod_to_equations. lia.
Qed.

Lemma days_between_range a b :
  valid a -> valid b -> - 2 ^ 22 < days_between a b < 2 ^ 22.
Proof.
  intros Ha Hb. unfold days_between.
  pose proof (toordinal_range a Ha). pose proof (toordinal_range b Hb). lia.
Qed.

Lemma to_float_cents_nonneg a :
  0 <= a < 10 ^ 12 -> nonneg_float (to_float (of_cents a)).
Proof.
  intros Ha. destruct (Z.eq_dec a 0) as [->|Hne].
  - left. reflexivity.
  - destruct (to_float_cents a ltac:(lia)) as (m & e & -> & _).
    right. right. eauto.
Qed.

(** Before the creation date the expected amount is not positive. *)
Lemma expected_nonpos b elapsed total :
  0 <= b < 10 ^ 12 -> 0 < total < 2 ^ 22 -> - 2 ^ 22 < elapsed <= 0 ->
  exists x, fmul (to_float (of_cents b)) (fmin (int_truediv elapsed total) one) = x
            /\ (nonpos_float x \/ x = S754_zero false).
Proof.
  intros Hb Ht He. eexists. split; [reflexivity|].
  destruct (Z.eq_dec elapsed 0) as [->|Hne].
  - right. destruct total as [|t|t]; try lia.
    unfold int_truediv, raw_of_Z, fdiv. cbn [SFdiv xorb].
    change (fmin (S754_zero false) one) with (S754_zero false).
    destruct (to_float_cents_nonneg b Hb) as [->|[H|(m & e & ->)]]; try reflexivity.
    exfalso. destruct (Z.eq_dec b 0) as [->|Hb0]; [discriminate|].
    destruct (to_float_cents b ltac:(lia)) as (m & e & H' & _). congruence.
  - left.
    destruct (int_truediv_nearest elapsed total ltac:(lia) ltac:(lia))
      as (m & e & Heq & _).
    rewrite Heq. replace (elapsed <? 0) with true by (symmetry; apply Z.ltb_lt; lia).
    change (fmin (S754_finite true m e) one) with (S754_finite true m e).
    destruct (Z.eq_dec b 0) as [->|Hb0].
    + left. reflexivity.
    + destruct (to_float_cents b ltac:(lia)) as (mb & eb & -> & _).
      apply fmul_pos_neg.
Qed.

(** From the deadline on the expected amount is the target. *)
Lemma expected_capped b elapsed total :
  0 <= b < 10 ^ 12 -> 0 < total -> total <= elapsed < 2 ^ 22 ->
  fmul (to_float (of_cents b)) (fmin (int_truediv elapsed total) one)
  = to_float (of_cents b).
Proof.
  intros Hb Ht He.
  destruct (int_truediv_nearest elapsed total ltac:(lia) ltac:(lia))
    as (m & e & Heq & Hr).
  rewrite Heq. replace (elapsed <? 0) with false by (symmetry; apply Z.ltb_ge; lia).
  pose proof Hr as (Hd & _).
  assert (Hone : (1 <= mant m e)%Q).
  { rewrite <- mant_one. apply (rounds_to_ge _ m e two52 (-52) Hr); [reflexivity|].
    rewrite mant_one. rewrite Z.abs_eq by lia.
    assert (Hq : (inject_Z total <= inject_Z elapsed)%Q) by (rewrite <- Zle_Qle; lia).
    assert (Ht0 : (0 < inject_Z total)%Q) by (apply inject_Z_pos; lia).
    apply Qle_shift_div_l; [assumption|]. lra. }
  rewrite (fmin_one_of_ge m e Hd Hone).
  destruct (Z.eq_dec b 0) as [->|Hb0]; [reflexivity|].
  destruct (to_float_cents b ltac:(lia)) as (mb & eb & -> & (Hdb & e1 & He1 & Hc & _)).
  apply fmul_one; [assumption | lia].
Qed.

(** C1 (amended). The on-track flag of a goal with stored amounts is
    computed on binary64 values. With [total <= 0] it holds exactly when
    the current amount is at least the target. Otherwise it is the
    comparison of the float of the current amount with the float of the
    target times [min(elapsed / total, 1.0)], the quotient, the product
    and the comparison being binary64 operations: when today is not
    after the creation date the goal is on track; from the deadline on
    it is on track exactly when the current amount is at least the
    target; in between, the result is that of the rounded operations.
    For target 1000.00, created 2024-01-01, due 2024-01-11 and today
    2024-01-06, 500.00 is on track and 499.99 is not. *)
Theorem on_track_binary64 g today a b :
  current_amount g = of_cents a -> target_amount g = of_cents b ->
  0 <= a < 10 ^ 12 -> 0 <= b < 10 ^ 12 ->
  valid today -> valid (created_at g) -> valid (deadline g) ->
  let total := days_between (deadline g) (created_at g) in
  let elapsed := days_between today (created_at g) in
  (total <= 0 -> (get_is_on_track today g = true <-> b <= a))
  /\ (0 < total ->
      get_is_on_track today g
      = fge (to_float (of_cents a))
            (fmul (to_float (of_cents b)) (fmin (int_truediv elapsed total) one)))
  /\ (0 < total -> elapsed <= 0 -> get_is_on_track today g = true)
  /\ (0 < total <= elapsed -> (get_is_on_track today g = true <-> b <= a))
  /\ get_is_on_track jan06 (goal_with 50000) = true
  /\ get_is_on_track jan06 (goal_with 49999) = false.
Proof.
  intros Hc Ht Ha Hb Hv Hvc Hvd total elapsed.
  pose proof (days_between_range _ _ Hvd Hvc) as Htot.
  pose proof (days_between_range _ _ Hv Hvc) as Hel.
  fold total in Htot. fold elapsed in Hel.
  assert (Hdeg : fge (to_float (of_cents a)) (to_float (of_cents b)) = true
                 <-> b <= a).
  { unfold fge. fold (fle (to_float (of_cents b)) (to_float (of_cents a))).
    rewrite to_float_cents_order by assumption. apply Z.leb_le. }
  assert (Hpos : 0 < total ->
      get_is_on_track today g
      = fge (to_float (of_cents a))
            (fmul (to_float (of_cents b)) (fmin (int_truediv elapsed total) one))).
  { intros H0. unfold get_is_on_track. fold total elapsed. rewrite Hc, Ht.
    now replace (total <=? 0) with false by (symmetry; apply Z.leb_gt; lia). }
  split.
  { intros H0. unfold get_is_on_track. fold total. rewrite Hc, Ht.
    replace (total <=? 0) with true by (symmetry; apply Z.leb_le; lia).
    exact Hdeg. }
  split; [exact Hpos|].
  split.
  { intros H0 He. rewrite (Hpos H0).
    destruct (expected_nonpos b elapsed total Hb ltac:(lia) ltac:(lia))
      as (x & -> & [Hx| ->]).
    - apply fge_nonneg_nonpos; [now apply to_float_cents_nonneg | exact Hx].
    - destruct (to_float_cents_nonneg a Ha) as [->|[->|(m & e & ->)]]; reflexivity. }
  split.
  { intros [H0 He]. rewrite (Hpos H0).
    rewrite expected_capped by (try assumption; lia). exact Hdeg. }
  split; vm_compute; reflexivity.
Qed.

Lemma on_track_binary64_witness :
  get_is_on_track jan06 (goal_with 50000) = true
  /\ get_is_on_track jan06 (goal_with 49999) = false
  /\ get_is_on_track jan15 (goal_with 99999) = false.
Proof.
  assert (Hv : forall d, validb d = true -> valid d)
    by (intros d; apply valid_validb).
  destruct (on_track_binary64 (goal_with 99999) jan15 99999 100000)
    as (_ & _ & _ & H4 & H5 & H6);
    try reflexivity; try (apply Hv; reflexivity); try (vm_compute; split; congruence).
  split; [exact H5|]. split; [exact H6|].
  assert (Hdays : 0 < days_between (deadline (goal_with 99999))
                         (created_at (goal_with 99999))
                  <= days_between jan15 (created_at (goal_with 99999)))
    by (vm_compute; split; congruence).
  apply not_true_iff_false. intros H. apply (H4 Hdays) in H. lia.
Defined.

(** C1, as stated, fails: for target 3.00, created 2024-01-01, due
    2024-01-11, today 2024-01-02 and current 0.30, the expected amount
    is 3.00 * (1/10) = 0.30 and 0.30 >= 0.30, yet the flag is false: in
    binary64, 3.0 * 0.1 is above 0.3. *)
Lemma on_track_differs_from_exact :
  let g := goal_of 300 30 in
  let total := days_between (deadline g) (created_at g) in
  let elapsed := days_between jan02 (created_at g) in
  total = 10 /\ elapsed = 1
  /\ exact_on_track (current_amount g) (target_amount g) elapsed total = true
  /\ get_is_on_track jan02 g = false.
Proof. vm_compute. repeat split; reflexivity. Qed.

End OnTrack.

(** ** Sums and totals *)

Section Totals.

(** [total or Decimal('0.00')] is the exact sum, and zero on no rows. *)
Lemma or_zero_Sum (l : list Z) : or_zero (Sum l) = of_cents (sum_cents l).
Proof.
  unfold or_zero, Sum. destruct l as [|a l]; [reflexivity|].
  destruct (truthy (of_cents (sum_cents (a :: l)))) eqn:E; [reflexivity|].
  unfold truthy, of_cents in E. apply negb_false_iff, N.eqb_eq in E.
  assert (H0 : sum_cents (a :: l) = 0) by lia. rewrite H0. reflexivity.
Qed.

Lemma to_float_zero_cents : to_float (of_cents 0) = S754_zero false.
Proof. reflexivity. Qed.

(** A single [filter(user=, date__year=, date__month=)] selects the rows
    that [get_queryset().filter(date__year=, date__month=)] selects. *)
Lemma income_filter_month db u y m :
  filter (fun r => i_user r = u /\ year (i_date r) = y /\ month (i_date r) = m)
         (incomes db)
  = income_in_month y m (income_queryset db u).
Proof.
  unfold income_in_month, income_queryset. rewrite list_filter_filter.
  apply list_filter_iff. tauto.
Qed.

Lemma expense_filter_month db u y m :
  filter (fun r => e_user r = u /\ year (e_date r) = y /\ month (e_date r) = m)
         (expenses db)
  = expense_in_month y m (expense_queryset db u).
Proof.
  unfold expense_in_month, expense_queryset. rewrite list_filter_filter.
  apply list_filter_iff. tauto.
Qed.

Lemma month_point_for_spec db u today (i : nat) :
  valid today -> 12 <= 12 * year today + (month today - 1) - Z.of_nat i ->
  month_point_for db u today i = Ok (chart_point db u today (Z.of_nat i)).
Proof.
  intros (Hy & Hm & Hd) Hi. unfold month_point_for, chart_point, replace_day1.
  rewrite months_back_spec by assumption. cbn [bind year month].
  rewrite !or_zero_Sum, income_filter_month, expense_filter_month.
  reflexivity.
Qed.

End Totals.

(** ** Grouping expenses by category *)

Section Breakdown.

Implicit Types (l : list Expense) (c : string).

#[local] Instance total_desc_total : Total total_desc.
Proof. intros a b. unfold total_desc. lia. Qed.

#[local] Instance total_desc_trans : Transitive total_desc.
Proof. intros a b c'. unfold total_desc. lia. Qed.

Lemma sum_cents_app (a b : list Z) : sum_cents (a ++ b) = sum_cents a + sum_cents b.
Proof. unfold sum_cents. induction a as [|x a IH]; cbn; lia. Qed.

Lemma sum_cents_perm (a b : list Z) : a ≡ₚ b -> sum_cents a = sum_cents b.
Proof.
  unfold sum_cents. induction 1; cbn; lia.
Qed.

(** A group exists exactly for a category that occurs, and holds the sum
    of the amounts of its rows: the group of [c] is SQL's [SUM] over the
    rows of [c]. *)
Lemma group_totals_lookup l c :
  group_totals l !! c = Sum (e_amount <$> of_category c l).
Proof.
  induction l as [|e l IH]; [reflexivity|].
  cbn [group_totals foldr]. fold (group_totals l). unfold add_to_group, of_category.
  rewrite filter_cons. destruct (decide (e_category e = c)) as [->|Hne].
  - rewrite lookup_insert_eq, IH. unfold Sum, of_category. cbn [fmap list_fmap].
    destruct (filter _ l) as [|e' l'] eqn:Ef; cbn; f_equal; unfold sum_cents; cbn; lia.
  - rewrite lookup_insert_ne by assumption. exact IH.
Qed.

Lemma group_totals_sum l :
  sum_cents ((map_to_list (group_totals l)).*2) = sum_cents (e_amount <$> l).
Proof.
  induction l as [|e l IH]; [reflexivity|].
  cbn [group_totals foldr]. fold (group_totals l). unfold add_to_group.
  set (m := group_totals l) in *. set (c := e_category e).
  destruct (m !! c) as [v|] eqn:Hm; cbn [default].
  - rewrite <- insert_delete_eq.
    rewrite (sum_cents_perm _ _
      (fmap_Permutation snd _ _
         (map_to_list_insert (delete c m) c (v + e_amount e) (lookup_delete_eq m c)))).
    rewrite <- (sum_cents_perm _ _
      (fmap_Permutation snd _ _ (map_to_list_delete m c v Hm))) in IH.
    cbn [fmap list_fmap snd] in IH |- *. unfold sum_cents in IH |- *.
    cbn [foldr] in IH |- *. lia.
  - rewrite (sum_cents_perm _ _
      (fmap_Permutation snd _ _ (map_to_list_insert m c (0 + e_amount e) Hm))).
    cbn [fmap list_fmap snd]. unfold sum_cents in IH |- *.
    cbn [foldr]. lia.
Qed.

Lemma category_totals_perm l :
  category_totals l ≡ₚ map_to_list (group_totals l).
Proof. apply merge_sort_Permutation. Qed.

Lemma elem_of_category_totals l c t :
  (c, t) ∈ category_totals l <->
  of_category c l <> [] /\ t = sum_cents (e_amount <$> of_category c l).
Proof.
  rewrite category_totals_perm, elem_of_map_to_list, group_totals_lookup.
  unfold Sum. destruct (of_category c l) as [|e l'] eqn:E; cbn [fmap list_fmap].
  - split; [discriminate | intros [H _]; congruence].
  - split.
    + intros [= <-]. split; [discriminate | reflexivity].
    + intros [_ ->]. reflexivity.
Qed.

Lemma of_category_nonempty l c :
  of_category c l <> [] <-> exists e, e ∈ l /\ e_category e = c.
Proof.
  unfold of_category. split.
  - destruct (filter _ l) as [|e l'] eqn:E; [congruence|]. intros _.
    exists e.
    assert (He : e ∈ filter (fun e => e_category e = c) l) by (rewrite E; left).
    apply list_elem_of_filter in He. tauto.
  - intros (e & Hin & Hc) E.
    assert (He : e ∈ filter (fun e => e_category e = c) l)
      by (apply list_elem_of_filter; auto).
    rewrite E in He. inversion He.
Qed.

Lemma category_totals_nodup l : NoDup (category_totals l).*1.
Proof.
  rewrite category_totals_perm. apply NoDup_fst_map_to_list.
Qed.

Lemma category_totals_sorted l : StronglySorted total_desc (category_totals l).
Proof. apply StronglySorted_merge_sort; apply _. Qed.

Lemma category_totals_sum l :
  sum_cents (category_totals l).*2 = sum_cents (e_amount <$> l).
Proof.
  rewrite (sum_cents_perm _ _ (fmap_Permutation snd _ _ (category_totals_perm l))).
  apply group_totals_sum.
Qed.

Lemma dict_get_absent pairs k dflt :
  k ∉ pairs.*1 -> dict_get pairs k dflt = dflt.
Proof.
  unfold dict_get. revert dflt. induction pairs as [|[k' v] pairs IH]; intros dflt Hk.
  - reflexivity.
  - cbn [fold_left fst snd]. cbn in Hk. apply not_elem_of_cons in Hk as [Hne Hk].
    destruct (String.eqb k' k) eqn:E.
    + apply String.eqb_eq in E. congruence.
    + apply IH, Hk.
Qed.

Lemma category_label_known c lab :
  (c, lab) ∈ CATEGORY_CHOICES -> category_label c = lab.
Proof.
  unfold CATEGORY_CHOICES. intros H.
  repeat (apply elem_of_cons in H as [[= -> ->]|H]; [reflexivity|]).
  inversion H.
Qed.

Lemma category_label_unknown c :
  c ∉ CATEGORY_CHOICES.*1 -> category_label c = c.
Proof. apply dict_get_absent. Qed.

End Breakdown.

(** ** The dashboard *)

Section Dashboard.

Lemma monthly_series_spec db u today :
  valid today -> 18 <= 12 * year today + month today ->
  monthly_series db u today = Ok (chart_points db u today).
Proof.
  intros Hv Hy. unfold monthly_series, range_5_down, chart_points.
  cbn [mapM].
  rewrite !month_point_for_spec by (try assumption; lia).
  reflexivity.
Qed.

(** What a successful [dashboard_get] returns, field by field. *)
Lemma dashboard_get_inv db u today d :
  dashboard_get db u today = Ok d ->
  let ti := sum_cents (i_amount <$> income_queryset db u) in
  let te := sum_cents (e_amount <$> expense_queryset db u) in
  exists bal ms gs,
    sub (of_cents ti) (of_cents te) = Ok bal /\
    monthly_series db u today = Ok ms /\
    mapM (serialize_goal today) (goal_queryset db u) = Ok gs /\
    d = mkDashboard (to_float (of_cents ti)) (to_float (of_cents te))
          (to_float bal)
          (to_float (of_cents (sum_cents (i_amount <$>
             income_in_month (year today) (month today) (income_queryset db u)))))
          (to_float (of_cents (sum_cents (e_amount <$>
             expense_in_month (year today) (month today) (expense_queryset db u)))))
          ((fun item => mkSlice (category_label item.1)
                          (to_float (of_cents item.2)) item.1)
             <$> category_totals (expense_queryset db u))
          ms gs.
Proof.
  unfold dashboard_get.
  rewrite !or_zero_Sum, income_filter_month, expense_filter_month.
  fold (income_queryset db u) (expense_queryset db u) (goal_queryset db u).
  intros H.
  destruct (sub _ _) as [bal|] eqn:Eb; cbn [bind] in H; [|discriminate].
  destruct (monthly_series db u today) as [ms|] eqn:Em; cbn [bind] in H; [|discriminate].
  destruct (mapM _ _) as [gs|] eqn:Eg; cbn [bind] in H; [|discriminate].
  exists bal, ms, gs. repeat split; try assumption.
  injection H as <-. reflexivity.
Qed.

Lemma chart_point_empty db u today k :
  income_queryset db u = [] -> expense_queryset db u = [] ->
  chart_point db u today k = empty_point today k.
Proof.
  intros Hi He. unfold chart_point, empty_point, income_in_month, expense_in_month.
  rewrite Hi, He. reflexivity.
Qed.

Lemma category_totals_nil : category_totals [] = [].
Proof. reflexivity. Qed.

(** Each query of the dashboard reads one user's rows only. *)
Lemma dashboard_get_same_rows u db1 db2 today :
  same_rows_of u db1 db2 -> dashboard_get db1 u today = dashboard_get db2 u today.
Proof.
  intros (Hi & He & Hg). unfold dashboard_get, monthly_series, month_point_for.
  rewrite !income_filter_month, !expense_filter_month.
  fold (income_queryset db1 u) (expense_queryset db1 u) (goal_queryset db1 u).
  fold (income_queryset db2 u) (expense_queryset db2 u) (goal_queryset db2 u).
  rewrite Hi, He, Hg.
  destruct (sub _ _); cbn [bind]; [|reflexivity].
  f_equal.
  assert (Hm : forall l, mapM (fun i : nat =>
      let* month_date := months_back i (replace_day1 today) in
      Ok (mkMonthPoint (strftime_b_Y month_date)
        (to_float (or_zero (Sum (i_amount <$>
           filter (fun r => i_user r = u /\ year (i_date r) = year month_date
                       /\ month (i_date r) = month month_date) (incomes db1)))))
        (to_float (or_zero (Sum (e_amount <$>
           filter (fun r => e_user r = u /\ year (e_date r) = year month_date
                       /\ month (e_date r) = month month_date) (expenses db1))))))) l
    = mapM (fun i : nat =>
      let* month_date := months_back i (replace_day1 today) in
      Ok (mkMonthPoint (strftime_b_Y month_date)
        (to_float (or_zero (Sum (i_amount <$>
           filter (fun r => i_user r = u /\ year (i_date r) = year month_date
                       /\ month (i_date r) = month month_date) (incomes db2)))))
        (to_float (or_zero (Sum (e_amount <$>
           filter (fun r => e_user r = u /\ year (e_date r) = year month_date
                       /\ month (e_date r) = month month_date) (expenses db2))))))) l).
  { induction l as [|i l IH]; [reflexivity|]. cbn [mapM]. rewrite IH.
    destruct (months_back i (replace_day1 today)); cbn [bind]; [|reflexivity].
    rewrite !income_filter_month, !expense_filter_month, Hi, He. reflexivity. }
  rewrite Hm. reflexivity.
Qed.

End Dashboard.

(** ** The claims about the read side *)

(** The totals of the views are the totals of the rows, added up one
    after the other. *)
Lemma income_total_in_spec db u y m :
  sum_cents (i_amount <$> income_in_month y m (income_queryset db u))
  = income_total_in u y m (incomes db).
Proof.
  rewrite <- income_filter_month.
  induction (incomes db) as [|r l IH]; [reflexivity|].
  rewrite filter_cons. cbn [income_total_in].
  destruct (Z.eqb_spec (i_user r) u) as [Hu|Hu];
    destruct (Z.eqb_spec (year (i_date r)) y) as [Hy|Hy];
    destruct (Z.eqb_spec (month (i_date r)) m) as [Hm|Hm];
    cbn [andb]; case_decide as H; try tauto;
    cbn [fmap list_fmap sum_cents foldr]; fold (sum_cents (i_amount <$>
      filter (fun r => i_user r = u /\ year (i_date r) = y
                       /\ month (i_date r) = m) l));
    rewrite IH; reflexivity.
Qed.

Lemma expense_total_in_spec db u y m :
  sum_cents (e_amount <$> expense_in_month y m (expense_queryset db u))
  = expense_total_in u y m (expenses db).
Proof.
  rewrite <- expense_filter_month.
  induction (expenses db) as [|r l IH]; [reflexivity|].
  rewrite filter_cons. cbn [expense_total_in].
  destruct (Z.eqb_spec (e_user r) u) as [Hu|Hu];
    destruct (Z.eqb_spec (year (e_date r)) y) as [Hy|Hy];
    destruct (Z.eqb_spec (month (e_date r)) m) as [Hm|Hm];
    cbn [andb]; case_decide as H; try tauto;
    cbn [fmap list_fmap sum_cents foldr]; fold (sum_cents (e_amount <$>
      filter (fun r => e_user r = u /\ year (e_date r) = y
                       /\ month (e_date r) = m) l));
    rewrite IH; reflexivity.
Qed.

Lemma expense_total_spec db u :
  sum_cents (e_amount <$> expense_queryset db u) = expense_total u (expenses db).
Proof.
  unfold expense_queryset.
  induction (expenses db) as [|r l IH]; [reflexivity|].
  rewrite filter_cons. cbn [expense_total].
  destruct (Z.eqb_spec (e_user r) u) as [Hu|Hu]; case_decide as H; try tauto;
    cbn [fmap list_fmap sum_cents foldr];
    fold (sum_cents (e_amount <$> filter (fun r => e_user r = u) l));
    rewrite IH; reflexivity.
Qed.

Lemma category_total_spec db u c :
  sum_cents (e_amount <$> of_category c (expense_queryset db u))
  = category_total u c (expenses db).
Proof.
  unfold of_category, expense_queryset.
  induction (expenses db) as [|r l IH]; [reflexivity|].
  rewrite filter_cons. cbn [category_total].
  destruct (Z.eqb_spec (e_user r) u) as [Hu|Hu]; case_decide as H; try tauto;
    cbn [andb]; try exact IH.
  rewrite filter_cons.
  destruct (String.eqb_spec (e_category r) c) as [Hc|Hc];
    case_decide as H'; try tauto; try exact IH.
  cbn [fmap list_fmap sum_cents foldr].
  fold (sum_cents (e_amount <$> filter (fun e => e_category e = c)
                                  (filter (fun r => e_user r = u) l))).
  now rewrite IH.
Qed.

(** A chart point, with the totals added up row by row. *)
Lemma chart_point_totals db u today k :
  chart_point db u today k
  = let ym := month_shift (year today) (month today) k in
    mkMonthPoint (month_abbr ym.2 ++ " " ++ year_digits ym.1)%string
      (to_float (of_cents (income_total_in u ym.1 ym.2 (incomes db))))
      (to_float (of_cents (expense_total_in u ym.1 ym.2 (expenses db)))).
Proof.
  unfold chart_point. cbv zeta.
  now rewrite income_total_in_spec, expense_total_in_spec.
Qed.

Lemma income_total_in_none u y m l :
  (forall r, r ∈ l -> ~ (i_user r = u /\ year (i_date r) = y
                         /\ month (i_date r) = m)) ->
  income_total_in u y m l = 0.
Proof.
  induction l as [|r l IH]; intros H; [reflexivity|].
  cbn [income_total_in]. rewrite IH by (intros r' Hr'; apply H; now right).
  specialize (H r ltac:(left)).
  destruct (Z.eqb_spec (i_user r) u); destruct (Z.eqb_spec (year (i_date r)) y);
    destruct (Z.eqb_spec (month (i_date r)) m); cbn [andb]; try reflexivity.
  tauto.
Qed.

Lemma expense_total_in_none u y m l :
  (forall r, r ∈ l -> ~ (e_user r = u /\ year (e_date r) = y
                         /\ month (e_date r) = m)) ->
  expense_total_in u y m l = 0.
Proof.
  induction l as [|r l IH]; intros H; [reflexivity|].
  cbn [expense_total_in]. rewrite IH by (intros r' Hr'; apply H; now right).
  specialize (H r ltac:(left)).
  destruct (Z.eqb_spec (e_user r) u); destruct (Z.eqb_spec (year (e_date r)) y);
    destruct (Z.eqb_spec (month (e_date r)) m); cbn [andb]; try reflexivity.
  tauto.
Qed.

(** C2. The monthly chart of the dashboard has six points, one per
    calendar month, oldest first, the last one for the month of the
    reference date; the month [k] months back is found by arithmetic on
    the month index, so it crosses year boundaries; the point of that
    month carries the label (three-letter month, a space, the year, four
    digits from year 1000 on), the total of the user's income rows dated
    in that month and the total of the user's expense rows dated in that
    month, as floats, which are 0.0 when the month has no such rows. For
    the reference date 2024-01-15 the labels run from Aug 2023 to Jan
    2024. The reference date is any date from June of year 1 on: before
    that Python's date arithmetic leaves its range. *)
Theorem monthly_data_six_months db u today :
  valid today -> 18 <= 12 * year today + month today ->
  monthly_series db u today = Ok (chart_points db u today)
  /\ length (chart_points db u today) = 6%nat
  /\ (forall d, dashboard_get db u today = Ok d ->
       monthly_data d = chart_points db u today)
  /\ month_shift (year today) (month today) 0 = (year today, month today)
  /\ (forall k, 0 <= k <= 5 ->
       let ym := month_shift (year today) (month today) k in
       1 <= ym.2 <= 12
       /\ 12 * ym.1 + (ym.2 - 1) = 12 * year today + (month today - 1) - k
       /\ mp_month (chart_point db u today k)
          = (month_abbr ym.2 ++ " " ++ year_digits ym.1)%string
       /\ String.length (month_abbr ym.2) = 3%nat
       /\ (1000 <= ym.1 -> String.length (year_digits ym.1) = 4%nat)
       /\ (income_in_month ym.1 ym.2 (income_queryset db u) = [] ->
           mp_income (chart_point db u today k) = S754_zero false)
       /\ (expense_in_month ym.1 ym.2 (expense_queryset db u) = [] ->
           mp_expenses (chart_point db u today k) = S754_zero false)
       /\ mp_income (chart_point db u today k)
          = to_float (of_cents (income_total_in u ym.1 ym.2 (incomes db)))
       /\ mp_expenses (chart_point db u today k)
          = to_float (of_cents (expense_total_in u ym.1 ym.2 (expenses db)))
       /\ ((forall r, r ∈ incomes db ->
              ~ (i_user r = u /\ year (i_date r) = ym.1
                 /\ month (i_date r) = ym.2)) ->
           mp_income (chart_point db u today k) = S754_zero false)
       /\ ((forall r, r ∈ expenses db ->
              ~ (e_user r = u /\ year (e_date r) = ym.1
                 /\ month (e_date r) = ym.2)) ->
           mp_expenses (chart_point db u today k) = S754_zero false)
       /\ (forall d, dashboard_get db u today = Ok d ->
             monthly_data d !! Z.to_nat (5 - k)
             = Some (mkMonthPoint
                 (month_abbr ym.2 ++ " " ++ year_digits ym.1)%string
                 (to_float (of_cents (income_total_in u ym.1 ym.2 (incomes db))))
                 (to_float (of_cents
                    (expense_total_in u ym.1 ym.2 (expenses db)))))))
  /\ mp_month <$> chart_points db u (mkdate 2024 1 15)
     = ["Aug 2023"; "Sep 2023"; "Oct 2023"; "Nov 2023"; "Dec 2023"; "Jan 2024"].
Proof.
  intros Hv Hy. pose proof Hv as (Hyr & Hm & Hd).
  assert (Hdash : forall d, dashboard_get db u today = Ok d ->
       monthly_data d = chart_points db u today).
  { intros d Hd'. apply dashboard_get_inv in Hd' as (bal & ms & gs & _ & Hms & _ & ->).
    rewrite monthly_series_spec in Hms by assumption.
    cbn [monthly_data]. now injection Hms. }
  split; [now apply monthly_series_spec|].
  split; [reflexivity|].
  split; [exact Hdash|].
  split; [now apply month_shift_0|].
  split; [|reflexivity].
  intros k Hk. cbv zeta.
  assert (Hpt : forall d, dashboard_get db u today = Ok d ->
            monthly_data d !! Z.to_nat (5 - k) = Some (chart_point db u today k)).
  { intros d Hd'. rewrite (Hdash d Hd'). unfold chart_points.
    assert (Hc : k = 0 \/ k = 1 \/ k = 2 \/ k = 3 \/ k = 4 \/ k = 5) by lia.
    destruct Hc as [->|[->|[->|[->|[->| ->]]]]]; reflexivity. }
  rewrite chart_point_totals in Hpt |- *. cbv zeta in Hpt |- *.
  pose proof (month_shift_range (year today) (month today) k) as Hr.
  pose proof (month_shift_index (year today) (month today) k) as Hi.
  pose proof (income_total_in_spec db u
    (month_shift (year today) (month today) k).1
    (month_shift (year today) (month today) k).2) as Hinc.
  pose proof (expense_total_in_spec db u
    (month_shift (year today) (month today) k).1
    (month_shift (year today) (month today) k).2) as Hexp.
  cbn [mp_month mp_income mp_expenses].
  destruct (month_shift (year today) (month today) k) as [y' m'].
  cbn [fst snd] in *.
  split; [exact Hr|]. split; [exact Hi|]. split; [reflexivity|].
  split; [now apply month_abbr_length|].
  split.
  { intros H1000. apply year_digits_length. unfold MAXYEAR in Hyr. lia. }
  split; [intros H0; rewrite H0 in Hinc; now rewrite <- Hinc|].
  split; [intros H0; rewrite H0 in Hexp; now rewrite <- Hexp|].
  split; [reflexivity|]. split; [reflexivity|].
  split; [intros H0; now rewrite income_total_in_none|].
  split; [intros H0; now rewrite expense_total_in_none|].
  exact Hpt.
Qed.

Lemma monthly_data_six_months_witness :
  monthly_series sample_db 1 jan15 = Ok (chart_points sample_db 1 jan15)
  /\ mp_month <$> chart_points sample_db 1 jan15
     = ["Aug 2023"; "Sep 2023"; "Oct 2023"; "Nov 2023"; "Dec 2023"; "Jan 2024"]
  /\ mp_income (chart_point sample_db 1 jan15 1) = to_float (of_cents 45050)
  /\ mp_expenses (chart_point sample_db 1 jan15 0) = to_float (of_cents 92500)
  /\ mp_expenses (chart_point sample_db 1 jan15 5) = S754_zero false.
Proof.
  assert (Hv : valid jan15) by (apply valid_validb; reflexivity).
  assert (Hy : 18 <= 12 * year jan15 + month jan15) by (vm_compute; discriminate).
  destruct (monthly_data_six_months sample_db 1 jan15 Hv Hy)
    as (H1 & _ & _ & _ & Hk & H6).
  assert (Hk0 : 0 <= 0 <= 5) by lia.
  assert (Hk1 : 0 <= 1 <= 5) by lia.
  assert (Hk5 : 0 <= 5 <= 5) by lia.
  destruct (Hk 1 Hk1) as (_ & _ & _ & _ & _ & _ & _ & Hinc & _).
  destruct (Hk 0 Hk0) as (_ & _ & _ & _ & _ & _ & _ & _ & Hexp & _).
  destruct (Hk 5 Hk5) as (_ & _ & _ & _ & _ & _ & _ & _ & Hexp5 & _).
  exact (conj H1 (conj H6 (conj Hinc (conj Hexp Hexp5)))).
Defined.

(** C5. The category breakdown lists, for the expenses of one user, one
    row per category that occurs, with the sum of the amounts of that
    category, in descending order of the sums; the label of a row is the
    one of the fixed category table, or the category code itself when the
    table does not have the code; a category without expenses has no
    row. *)
Theorem by_category_breakdown db u :
  let l := expense_queryset db u in
  let groups := category_totals l in
  by_category db u
  = (fun g => mkCategoryRow g.1 (category_label g.1) (of_cents g.2)) <$> groups
  /\ StronglySorted (fun a b : string * Z => b.2 <= a.2) groups
  /\ NoDup groups.*1
  /\ (forall c t, (c, t) ∈ groups <->
        (exists e, e ∈ l /\ e_category e = c)
        /\ t = sum_cents (e_amount <$> of_category c l))
  /\ (forall c, ~ (exists e, e ∈ l /\ e_category e = c) ->
        c ∉ cr_category <$> by_category db u)
  /\ (forall r, r ∈ by_category db u ->
        (forall lab, (cr_category r, lab) ∈ CATEGORY_CHOICES -> cr_label r = lab)
        /\ (cr_category r ∉ CATEGORY_CHOICES.*1 -> cr_label r = cr_category r)).
Proof.
  intros l groups.
  assert (Hmem : forall c t, (c, t) ∈ groups <->
        (exists e, e ∈ l /\ e_category e = c)
        /\ t = sum_cents (e_amount <$> of_category c l)).
  { intros c t. unfold groups. rewrite elem_of_category_totals, of_category_nonempty.
    reflexivity. }
  split; [reflexivity|].
  split; [apply category_totals_sorted|].
  split; [apply category_totals_nodup|].
  split; [exact Hmem|].
  split.
  - intros c Hno Hin. unfold by_category in Hin. fold l groups in Hin.
    rewrite <- list_fmap_compose in Hin.
    apply list_elem_of_fmap in Hin as ([c' t] & Hc & Hg). cbn in Hc. subst c'.
    apply Hmem in Hg as [Hex _]. contradiction.
  - intros r Hr. unfold by_category in Hr.
    apply list_elem_of_fmap in Hr as ([c t] & -> & _). cbn [cr_category cr_label fst].
    split; [apply category_label_known | apply category_label_unknown].
Qed.

Lemma dec_value_cents n : (dec_value (of_cents n) == inject_Z n / 100)%Q.
Proof.
  unfold dec_value, of_cents.
  assert (H : cond_Zopp (n <? 0) (Z.of_N (Z.abs_N n)) = n).
  { rewrite N2Z.inj_abs_N. destruct (n <? 0) eqn:E; cbn [cond_Zopp].
    - apply Z.ltb_lt in E. lia.
    - apply Z.ltb_ge in E. lia. }
  rewrite H. reflexivity.
Qed.

(** The totals of the returned rows add up to the cents of the groups. *)
Lemma rows_sum_groups (groups : list (string * Z)) :
  (rows_sum ((fun g => mkCategoryRow g.1 (category_label g.1) (of_cents g.2))
               <$> groups)
   == inject_Z (sum_cents groups.*2) / 100)%Q.
Proof.
  induction groups as [|[c t] groups IH]; [reflexivity|].
  cbn [fmap list_fmap rows_sum foldr cr_total fst snd sum_cents].
  fold (rows_sum ((fun g => mkCategoryRow g.1 (category_label g.1) (of_cents g.2))
                    <$> groups)).
  fold (sum_cents groups.*2).
  rewrite IH, dec_value_cents, inject_Z_plus. field.
Qed.

(** C6, as stated, fails on the dashboard: with one expense of 0.10 and
    one of 0.20 the two category values are the floats nearest to 0.1
    and 0.2, which are not these amounts, and their sum is not the float
    reported as [total_expenses]. *)
Lemma category_floats_do_not_add_up :
  exists d,
    dashboard_get dime_db 1 jan15 = Ok d
    /\ cs_category <$> expenses_by_category d = ["other"; "food"]
    /\ (forall s, s ∈ expenses_by_category d ->
          ~ (float_value (cs_value s)
             == inject_Z (category_total 1%Z (cs_category s) (expenses dime_db))
                / 100)%Q)
    /\ ~ (slices_sum (expenses_by_category d)
          == float_value (total_expenses d))%Q.
Proof.
  eexists. split; [vm_compute; reflexivity|].
  split; [reflexivity|].
  split.
  - intros s Hs. cbn [expenses_by_category] in Hs.
    apply elem_of_cons in Hs as [->|Hs];
      [|apply elem_of_cons in Hs as [->|Hs]; [|inversion Hs]];
      vm_compute; discriminate.
  - vm_compute. discriminate.
Qed.

(** C6 (amended). With the totals as an exact database sum returns
    them: each total of the category breakdown is exactly the sum of
    the amounts of the user's expenses of that category, and the totals
    of the returned rows add up exactly to the total of the user's
    expenses. The dashboard reports the floats nearest to these sums:
    each category value and [total_expenses] are the conversions of the
    exact totals, for the same categories in the same order. *)
Theorem category_totals_add_up db u :
  (forall r, r ∈ by_category db u ->
     cr_total r = of_cents (category_total u (cr_category r) (expenses db))
     /\ (dec_value (cr_total r)
         == inject_Z (category_total u (cr_category r) (expenses db)) / 100)%Q)
  /\ (rows_sum (by_category db u)
      == inject_Z (expense_total u (expenses db)) / 100)%Q
  /\ or_zero (Sum (e_amount <$> expense_queryset db u))
     = of_cents (expense_total u (expenses db))
  /\ (rows_sum (by_category db u)
      == dec_value (or_zero (Sum (e_amount <$> expense_queryset db u))))%Q
  /\ (forall today d, dashboard_get db u today = Ok d ->
       total_expenses d = to_float (of_cents (expense_total u (expenses db)))
       /\ cs_category <$> expenses_by_category d
          = cr_category <$> by_category db u
       /\ (forall s, s ∈ expenses_by_category d ->
             let t := category_total u (cs_category s) (expenses db) in
             cs_value s = to_float (of_cents t)
             /\ (0 < t < 10 ^ 12 ->
                 exists m e, cs_value s = S754_finite false m e
                             /\ rounds_to (inject_Z t / 100) m e))).
Proof.
  set (l := expense_queryset db u).
  assert (H1 : forall c t, (c, t) ∈ category_totals l ->
     t = category_total u c (expenses db)).
  { intros c t H. apply elem_of_category_totals in H as [_ ->].
    apply category_total_spec. }
  assert (Hsum : (rows_sum (by_category db u)
                  == inject_Z (expense_total u (expenses db)) / 100)%Q).
  { unfold by_category. fold l.
    rewrite rows_sum_groups, category_totals_sum. unfold l.
    now rewrite expense_total_spec. }
  assert (Htot : or_zero (Sum (e_amount <$> l))
                 = of_cents (expense_total u (expenses db))).
  { unfold l. now rewrite or_zero_Sum, expense_total_spec. }
  split.
  { intros r Hr. unfold by_category in Hr. fold l in Hr.
    apply list_elem_of_fmap in Hr as ([c t] & -> & Hg).
    cbn [cr_total cr_category fst snd]. rewrite (H1 c t Hg).
    split; [reflexivity | apply dec_value_cents]. }
  split; [exact Hsum|].
  split; [exact Htot|].
  split; [rewrite Htot, dec_value_cents; exact Hsum|].
  intros today d Hd.
  apply dashboard_get_inv in Hd as (bal & ms & gs & _ & _ & _ & ->).
  cbn [total_expenses expenses_by_category]. fold l.
  split; [unfold l; now rewrite expense_total_spec|].
  split.
  { unfold by_category. fold l. rewrite <- !list_fmap_compose.
    now apply list_fmap_ext. }
  intros s Hs. apply list_elem_of_fmap in Hs as ([c t] & -> & Hg).
  cbn [cs_value cs_category fst snd]. cbv zeta. rewrite (H1 c t Hg).
  split; [reflexivity|]. intros Ht. now apply to_float_cents.
Qed.

(** C7. For a user without any income, expense or goal row, whatever the
    other users have stored, every aggregation returns a result: the
    monthly totals are 0.00, the category breakdown is empty, and the
    dashboard reports 0.0 for both all-time totals, the balance and both
    current-month totals, no category, six chart points without income or
    expenses, and no goal. *)
Theorem empty_user_aggregates db u today :
  income_queryset db u = [] -> expense_queryset db u = [] ->
  goal_queryset db u = [] ->
  valid today -> 18 <= 12 * year today + month today ->
  income_monthly_total db u today = mkMonthlyTotal (strftime_B_Y today) zero2
  /\ expense_monthly_total db u today = mkMonthlyTotal (strftime_B_Y today) zero2
  /\ by_category db u = []
  /\ monthly_series db u today = Ok (empty_point today <$> [5; 4; 3; 2; 1; 0])
  /\ dashboard_get db u today
     = Ok (mkDashboard (S754_zero false) (S754_zero false) (S754_zero false)
             (S754_zero false) (S754_zero false) []
             (empty_point today <$> [5; 4; 3; 2; 1; 0]) []).
Proof.
  intros Hi He Hg Hv Hy.
  assert (Hms : monthly_series db u today
                = Ok (empty_point today <$> [5; 4; 3; 2; 1; 0])).
  { rewrite monthly_series_spec by assumption. unfold chart_points.
    cbn [fmap list_fmap]. now rewrite !chart_point_empty. }
  split; [unfold income_monthly_total; now rewrite Hi|].
  split; [unfold expense_monthly_total; now rewrite He|].
  split; [unfold by_category; now rewrite He|].
  split; [exact Hms|].
  unfold dashboard_get.
  fold (income_queryset db u) (expense_queryset db u) (goal_queryset db u).
  rewrite !income_filter_month, !expense_filter_month, Hms, Hi, He, Hg.
  reflexivity.
Qed.

Lemma empty_user_aggregates_witness :
  dashboard_get sample_db 3 jan15
  = Ok (mkDashboard (S754_zero false) (S754_zero false) (S754_zero false)
          (S754_zero false) (S754_zero false) []
          (empty_point jan15 <$> [5; 4; 3; 2; 1; 0]) []).
Proof.
  refine (proj2 (proj2 (proj2 (proj2
    (empty_user_aggregates sample_db 3 jan15 _ _ _ _ _))))).
  - reflexivity.
  - reflexivity.
  - reflexivity.
  - apply valid_validb; reflexivity.
  - vm_compute; discriminate.
Defined.

(** C10. Every read of the views is computed from the rows of the
    requesting user alone: on two stores that hold the same rows of that
    user and differ in any way in the rows of the other users, the income
    and expense lists, both monthly totals, the category breakdown, the
    goal list, the lookup of one goal and the dashboard are the same. *)
Theorem reads_scoped_to_user u db1 db2 today :
  same_rows_of u db1 db2 ->
  income_queryset db1 u = income_queryset db2 u
  /\ expense_queryset db1 u = expense_queryset db2 u
  /\ goal_queryset db1 u = goal_queryset db2 u
  /\ income_monthly_total db1 u today = income_monthly_total db2 u today
  /\ expense_monthly_total db1 u today = expense_monthly_total db2 u today
  /\ by_category db1 u = by_category db2 u
  /\ mapM (serialize_goal today) (goal_queryset db1 u)
     = mapM (serialize_goal today) (goal_queryset db2 u)
  /\ (forall pk, get_object db1 u pk = get_object db2 u pk)
  /\ dashboard_get db1 u today = dashboard_get db2 u today.
Proof.
  intros Hs. pose proof Hs as (Hi & He & Hg).
  repeat split; try assumption.
  - unfold income_monthly_total. now rewrite Hi.
  - unfold expense_monthly_total. now rewrite He.
  - unfold by_category. now rewrite He.
  - now rewrite Hg.
  - intros pk. unfold get_object. now rewrite Hg.
  - now apply dashboard_get_same_rows.
Qed.

Lemma reads_scoped_to_user_witness :
  dashboard_get sample_db 1 jan15 = dashboard_get sample_db' 1 jan15.
Proof.
  refine (proj2 (proj2 (proj2 (proj2 (proj2 (proj2 (proj2 (proj2
    (reads_scoped_to_user 1 sample_db sample_db' jan15 _))))))))).
  repeat split; reflexivity.
Defined.

(** ** Decimal arithmetic *)

Section DecimalFacts.

Lemma ndigits_fuel_spec fuel : forall n,
  1 <= n -> n < 10 ^ (Z.of_nat fuel + 1) ->
  10 ^ (ndigits_fuel fuel n - 1) <= n < 10 ^ ndigits_fuel fuel n
  /\ 1 <= ndigits_fuel fuel n.
Proof.
  induction fuel as [|f IH]; intros n Hn Hlt.
  - cbn in *. lia.
  - cbn [ndigits_fuel]. destruct (n <? 10) eqn:E.
    + apply Z.ltb_lt in E. cbn. lia.
    + apply Z.ltb_ge in E.
      assert (Hq : 1 <= n / 10) by (Z.div_mod_to_equations; lia).
      assert (Hq' : n / 10 < 10 ^ (Z.of_nat f + 1)).
      { replace (Z.of_nat (S f) + 1) with (Z.succ (Z.of_nat f + 1)) in Hlt by lia.
        rewrite Z.pow_succ_r in Hlt by lia. Z.div_mod_to_equations; lia. }
      destruct (IH (n / 10) Hq Hq') as [[Hlo Hhi] Hk].
      set (k := ndigits_fuel f (n / 10)) in *.
      replace (1 + k - 1) with (Z.succ (k - 1)) by lia.
      replace (1 + k) with (Z.succ k) by lia.
      rewrite !Z.pow_succ_r by lia.
      split; [|lia]. Z.div_mod_to_equations; lia.
Qed.

(** [ndigits n] is the number of decimal digits of [n]. *)
Lemma ndigits_spec n :
  1 <= n -> 10 ^ (ndigits n - 1) <= n < 10 ^ ndigits n /\ 1 <= ndigits n.
Proof.
  intros Hn. unfold ndigits. apply ndigits_fuel_spec; [assumption|].
  rewrite Z2Nat.id by apply Z.log2_nonneg.
  pose proof (Z.log2_spec n ltac:(lia)) as [_ H2].
  replace (Z.succ (Z.log2 n)) with (Z.log2 n + 1) in H2 by lia.
  eapply Z.lt_le_trans; [exact H2|].
  apply Z.pow_le_mono_l. pose proof (Z.log2_nonneg n). lia.
Qed.

Lemma ndigits_ge_pow n k :
  1 <= n -> 0 <= k -> 10 ^ k <= n -> k + 1 <= ndigits n.
Proof.
  intros Hn Hk Hle. destruct (ndigits_spec n Hn) as [[_ Hhi] H1].
  destruct (Z_lt_le_dec (ndigits n) (k + 1)) as [Hlt|]; [|assumption].
  assert (10 ^ ndigits n <= 10 ^ k) by (apply Z.pow_le_mono_r; lia). lia.
Qed.

(** A result that fits the precision and the exponent range passes
    [_fix] unchanged. *)
Lemma fix_exact s c e :
  1 <= c -> ndigits c <= ctx_prec -> Etiny <= e <= Etop ->
  fix_ s c e = Ok (Dfin s (Z.to_N c) e).
Proof.
  intros Hc Hn He. unfold fix_.
  replace (c =? 0) with false by (symmetry; apply Z.eqb_neq; lia).
  replace (Etop <? ndigits c + e - ctx_prec) with false
    by (symmetry; apply Z.ltb_ge; lia).
  replace (e <? Z.max (ndigits c + e - ctx_prec) Etiny) with false
    by (symmetry; apply Z.ltb_ge; lia).
  reflexivity.
Qed.

Lemma shifted_digits c j total :
  1 <= c -> 0 <= j -> c * 10 ^ j <= total -> ndigits c + j <= ndigits total.
Proof.
  intros Hc Hj Hle. destruct (ndigits_spec c Hc) as [[Hlo _] H1].
  assert (Hp : 10 ^ (ndigits c - 1 + j) <= total).
  { rewrite Z.pow_add_r by lia.
    eapply Z.le_trans; [|exact Hle]. apply Z.mul_le_mono_nonneg_r; [|assumption].
    apply Z.pow_nonneg. lia. }
  assert (Ht : 1 <= total).
  { eapply Z.le_trans; [|exact Hp]. pose proof (Z.pow_pos_nonneg 10 (ndigits c - 1 + j)). lia. }
  pose proof (ndigits_ge_pow total (ndigits c - 1 + j) Ht ltac:(lia) Hp). lia.
Qed.

(** Adding a positive decimal to a non-negative one is exact when the
    exact sum fits the 28 digits of the context. *)
Lemma add_exact c0 e0 c e :
  c <> 0%N ->
  ndigits (sum_coefficient c0 e0 c e) <= ctx_prec ->
  Etiny <= Z.min e0 e <= Etop ->
  add (Dfin false c0 e0) (Dfin false c e)
  = Ok (Dfin false (Z.to_N (sum_coefficient c0 e0 c e)) (Z.min e0 e)).
Proof.
  intros Hc Hfit Hexp. unfold sum_coefficient in *.
  set (m := Z.min e0 e) in *.
  assert (Hcz : 1 <= Z.of_N c) by lia.
  assert (Hm0 : 0 <= e0 - m) by lia. assert (Hm1 : 0 <= e - m) by lia.
  pose proof (Z.pow_pos_nonneg 10 (e0 - m) ltac:(lia) Hm0) as Hp0.
  pose proof (Z.pow_pos_nonneg 10 (e - m) ltac:(lia) Hm1) as Hp1.
  assert (Hb : Z.of_N c * 10 ^ (e - m)
               <= Z.of_N c0 * 10 ^ (e0 - m) + Z.of_N c * 10 ^ (e - m)) by nia.
  pose proof (shifted_digits _ _ _ Hcz Hm1 Hb) as Hdb.
  pose proof (ndigits_spec _ Hcz) as [_ Hnc].
  unfold add. fold m.
  destruct (Z.of_N c0 =? 0) eqn:E0.
  - apply Z.eqb_eq in E0. rewrite E0 in *.
    replace (Z.of_N c =? 0) with false by (symmetry; apply Z.eqb_neq; lia).
    cbn [andb]. unfold rescale.
    replace (Z.of_N c =? 0) with false by (symmetry; apply Z.eqb_neq; lia).
    replace (Z.max m (e - ctx_prec - 1)) with m by (unfold ctx_prec in *; lia).
    replace (m <=? e) with true by (symmetry; apply Z.leb_le; lia).
    rewrite Z2N.id by nia.
    replace (0 * 10 ^ (e0 - m) + Z.of_N c * 10 ^ (e - m))
      with (Z.of_N c * 10 ^ (e - m)) in * by lia.
    apply fix_exact; [nia | assumption | assumption].
  - apply Z.eqb_neq in E0. assert (Hc0 : 1 <= Z.of_N c0) by lia.
    replace (Z.of_N c =? 0) with false by (symmetry; apply Z.eqb_neq; lia).
    cbn [andb].
    assert (Ha : Z.of_N c0 * 10 ^ (e0 - m)
               <= Z.of_N c0 * 10 ^ (e0 - m) + Z.of_N c * 10 ^ (e - m)) by nia.
    pose proof (shifted_digits _ _ _ Hc0 Hm0 Ha) as Hda.
    pose proof (ndigits_spec _ Hc0) as [_ Hnc0].
    unfold normalize. destruct (e0 <? e) eqn:El.
    + apply Z.ltb_lt in El. assert (Hme : m = e0) by lia.
      clearbody m. subst m.
      replace (ndigits (Z.of_N c0) + e0 - 1
                 <? e + Z.min (-1) (ndigits (Z.of_N c) - ctx_prec - 2))
        with false by (symmetry; apply Z.ltb_ge; unfold ctx_prec in *; lia).
      cbn [Bool.eqb]. replace (e0 - e0) with 0 in * by lia.
      rewrite Z.pow_0_r, Z.mul_1_r in *.
      apply fix_exact; [nia | assumption | assumption].
    + apply Z.ltb_ge in El. assert (Hme : m = e) by lia.
      clearbody m. subst m.
      replace (ndigits (Z.of_N c) + e - 1
                 <? e0 + Z.min (-1) (ndigits (Z.of_N c0) - ctx_prec - 2))
        with false by (symmetry; apply Z.ltb_ge; unfold ctx_prec in *; lia).
      cbn [Bool.eqb]. replace (e - e) with 0 in * by lia.
      rewrite Z.pow_0_r, Z.mul_1_r in *.
      apply fix_exact; [nia | assumption | assumption].
Qed.

Lemma pow10_Q k : 0 <= k -> inject_Z (10 ^ k) == Qpower (inject_Z 10) k.
Proof. intros Hk. now apply Zpower_Qpower. Qed.

Lemma pow10_Q_split e m :
  m <= e -> Qpower (inject_Z 10) e
            == inject_Z (10 ^ (e - m)) * Qpower (inject_Z 10) m.
Proof.
  intros Hle. rewrite pow10_Q by lia. rewrite <- Qpower_plus by discriminate.
  now replace (e - m + m) with e by lia.
Qed.

(** The coefficient of [add_exact] stands for the sum of the values. *)
Lemma dec_value_sum c0 e0 c e :
  dec_value (Dfin false (Z.to_N (sum_coefficient c0 e0 c e)) (Z.min e0 e))
  == dec_value (Dfin false c0 e0) + dec_value (Dfin false c e).
Proof.
  unfold dec_value, sum_coefficient. cbn [cond_Zopp].
  assert (H0 : 0 <= 10 ^ (e0 - Z.min e0 e)) by (apply Z.pow_nonneg; lia).
  assert (H1 : 0 <= 10 ^ (e - Z.min e0 e)) by (apply Z.pow_nonneg; lia).
  rewrite Z2N.id by nia.
  rewrite (pow10_Q_split e0 (Z.min e0 e)) by lia.
  rewrite (pow10_Q_split e (Z.min e0 e)) by lia.
  rewrite inject_Z_plus, !inject_Z_mult. ring.
Qed.

Lemma ndigits_unique n k :
  10 ^ (k - 1) <= n < 10 ^ k -> 1 <= k -> ndigits n = k.
Proof.
  intros [Hlo Hhi] Hk.
  assert (Hn : 1 <= n).
  { pose proof (Z.pow_pos_nonneg 10 (k - 1)). lia. }
  destruct (ndigits_spec n Hn) as [[Hl Hh] H1].
  set (d := ndigits n) in *.
  destruct (Z.lt_trichotomy d k) as [Hlt|[Heq|Hgt]]; [|assumption|].
  - assert (10 ^ d <= 10 ^ (k - 1)) by (apply Z.pow_le_mono_r; lia). lia.
  - assert (10 ^ k <= 10 ^ (d - 1)) by (apply Z.pow_le_mono_r; lia). lia.
Qed.

Lemma ndigits_le n k : 1 <= n -> n < 10 ^ k -> ndigits n <= k.
Proof.
  intros Hn Hk. destruct (ndigits_spec n Hn) as [[Hl _] H1].
  destruct (Z_lt_le_dec k (ndigits n)) as [Hlt|]; [|assumption].
  assert (0 <= k).
  { destruct (Z_lt_le_dec k 0) as [Hneg|]; [|assumption].
    rewrite Z.pow_neg_r in Hk by assumption. lia. }
  assert (10 ^ k <= 10 ^ (ndigits n - 1)) by (apply Z.pow_le_mono_r; lia). lia.
Qed.

Lemma pow10_pos k : 0 <= k -> 0 < 10 ^ k.
Proof. intros. apply Z.pow_pos_nonneg; lia. Qed.

Lemma pow10_split a b : 0 <= a -> 0 <= b -> 10 ^ (a + b) = 10 ^ a * 10 ^ b.
Proof. intros. apply Z.pow_add_r; assumption. Qed.

Lemma of_cents_pos a : 0 < a -> of_cents a = Dfin false (Z.to_N a) (-2).
Proof.
  intros Ha. unfold of_cents.
  replace (a <? 0) with false by (symmetry; apply Z.ltb_ge; lia).
  f_equal. lia.
Qed.

End DecimalFacts.

(** ** Decimal rounding in the context precision *)

Section DecimalRounding.

(** Dropping the last [k] digits with [ROUND_HALF_EVEN]: the kept part
    [hi], or [hi + 1], and [hi] itself when nothing is dropped. *)
Lemma round_half_even_spec c k :
  0 <= c -> 0 <= k ->
  let '(hi, up) := round_half_even c k in
  hi = c / 10 ^ k /\ hi * 10 ^ k <= c < (hi + 1) * 10 ^ k
  /\ (c = hi * 10 ^ k -> up = false).
Proof.
  intros Hc Hk. unfold round_half_even.
  pose proof (pow10_pos k Hk) as Hp.
  pose proof (Z.div_mod c (10 ^ k) ltac:(lia)) as Hdm.
  pose proof (Z.mod_pos_bound c (10 ^ k) Hp) as Hm.
  split; [reflexivity|]. split; [nia|].
  intros Hex. assert (H0 : c mod 10 ^ k = 0) by nia. rewrite H0.
  replace (10 ^ k <? 2 * 0) with false by (symmetry; apply Z.ltb_ge; lia).
  replace (2 * 0 =? 10 ^ k) with false by (symmetry; apply Z.eqb_neq; lia).
  reflexivity.
Qed.

(** [_fix] on a result with moderate exponent: the coefficient [c'] at
    exponent [e + k] has at most 28 digits; the value [c' * 10^k], in
    units of [10^e], is on the same side of every power of ten as [c],
    and differs from [c] by less than one unit of the 27th digit. *)
Lemma fix_rounds s c e :
  1 <= c -> -2000 <= e <= 2000 -> ndigits c <= 2000 ->
  exists c' k,
    fix_ s c e = Ok (Dfin s (Z.to_N c') (e + k))
    /\ 0 <= k <= Z.max 0 (ndigits c - 27) /\ 1 <= c' /\ ndigits c' <= 28
    /\ (ndigits c <= 28 -> c' = c /\ k = 0)
    /\ (forall t, 0 <= t -> 10 ^ t <= c -> 10 ^ t <= c' * 10 ^ k)
    /\ (forall t, 0 <= t -> c <= 10 ^ t -> c' * 10 ^ k <= 10 ^ t)
    /\ Z.abs (c' * 10 ^ k - c) * 10 ^ 27 <= c.
Proof.
  intros Hc He Hn.
  destruct (ndigits_spec c Hc) as [[Hlo Hhi] Hn1].
  set (len := ndigits c) in *.
  unfold fix_. fold len.
  replace (c =? 0) with false by (symmetry; apply Z.eqb_neq; lia).
  replace (Etop <? len + e - ctx_prec) with false
    by (symmetry; apply Z.ltb_ge; unfold Etop, Emax, ctx_prec; lia).
  replace (Z.max (len + e - ctx_prec) Etiny) with (len + e - ctx_prec)
    by (unfold Etiny, Emin, ctx_prec; lia).
  destruct (e <? len + e - ctx_prec) eqn:E.
  - apply Z.ltb_lt in E. unfold ctx_prec in *.
    set (k := len - 28) in *. assert (Hk : 0 < k) by (unfold k; lia).
    replace (len + e - (len + e - 28) <? 0) with false by (symmetry; apply Z.ltb_ge; lia).
    replace (len + e - 28 - e) with k by (unfold k; lia).
    pose proof (round_half_even_spec c k ltac:(lia) ltac:(lia)) as Hr.
    destruct (round_half_even c k) as [hi up]. destruct Hr as (Hhi' & Hb & Hex).
    pose proof (pow10_pos k ltac:(lia)) as Hu.
    set (u := 10 ^ k) in *.
    assert (Hlen : 10 ^ (len - 1) = 10 ^ 27 * u).
    { unfold u. rewrite <- pow10_split by lia. f_equal. unfold k. lia. }
    assert (Hlen' : 10 ^ len = 10 ^ 28 * u).
    { unfold u. rewrite <- pow10_split by lia. f_equal. unfold k. lia. }
    rewrite Hlen in Hlo. rewrite Hlen' in Hhi.
    assert (Hhr : 10 ^ 27 <= hi < 10 ^ 28).
    { split.
      - destruct (Z_lt_le_dec hi (10 ^ 27)) as [Hlt|]; [|assumption]. exfalso.
        assert ((hi + 1) * u <= 10 ^ 27 * u)
          by (apply Z.mul_le_mono_nonneg_r; lia). lia.
      - destruct (Z_lt_le_dec hi (10 ^ 28)) as [|Hge]; [assumption|]. exfalso.
        assert (10 ^ 28 * u <= hi * u)
          by (apply Z.mul_le_mono_nonneg_r; lia). lia. }
    assert (Hmono_lo : forall t V, 0 <= t -> (V = hi * u \/ V = (hi + 1) * u) ->
                         10 ^ t <= c -> 10 ^ t <= V).
    { intros t V Ht HV Htc. destruct (Z_lt_le_dec t k) as [Htk|Htk].
      - assert (10 ^ t <= u) by (apply Z.pow_le_mono_r; lia). nia.
      - assert (Hsp : 10 ^ t = 10 ^ (t - k) * u).
        { unfold u. rewrite <- pow10_split by lia. f_equal. lia. }
        rewrite Hsp in *. set (P := 10 ^ (t - k)) in *.
        assert (HP : P <= hi).
        { apply Z.lt_succ_r. apply (Z.mul_lt_mono_pos_r u); lia. }
        assert (P * u <= hi * u) by (apply Z.mul_le_mono_nonneg_r; lia).
        lia. }
    assert (Hmono_hi : forall t V, 0 <= t ->
                         (V = hi * u \/ (V = (hi + 1) * u /\ c <> hi * u)) ->
                         c <= 10 ^ t -> V <= 10 ^ t).
    { intros t V Ht HV Htc.
      assert (Htk : k + 27 <= t).
      { destruct (Z_lt_le_dec t (k + 27)) as [Hlt|]; [|assumption].
        assert (10 ^ t < 10 ^ (len - 1)) by (apply Z.pow_lt_mono_r; unfold k in *; lia).
        lia. }
      assert (Hsp : 10 ^ t = 10 ^ (t - k) * u).
      { unfold u. rewrite <- pow10_split by lia. f_equal. lia. }
      rewrite Hsp in *. set (P := 10 ^ (t - k)) in *.
      destruct HV as [->|[-> Hne]].
      - assert (HP : hi <= P).
        { apply (Z.mul_le_mono_pos_r _ _ u); lia. }
        apply Z.mul_le_mono_nonneg_r; lia.
      - assert (HP : hi < P).
        { apply (Z.mul_lt_mono_pos_r u); lia. }
        apply Z.mul_le_mono_nonneg_r; lia. }
    destruct up.
    + (* rounded up *)
      assert (Hne : c <> hi * u) by (intros H; specialize (Hex H); discriminate).
      cbn [andb].
      destruct (28 <? ndigits (hi + 1)) eqn:E28.
      * (* the carry reaches a 29th digit *)
        apply Z.ltb_lt in E28.
        assert (Hcarry : hi + 1 = 10 ^ 28).
        { destruct (Z_lt_le_dec (hi + 1) (10 ^ 28)) as [Hlt|]; [|lia].
          assert (ndigits (hi + 1) <= 28) by (apply ndigits_le; lia). lia. }
        replace (Etop <? len + e - 28 + 1) with false
          by (symmetry; apply Z.ltb_ge; unfold Etop, Emax, ctx_prec; lia).
        exists (10 ^ 27), (k + 1).
        replace (e + (k + 1)) with (len + e - 28 + 1) by (unfold k; lia).
        rewrite Hcarry. change (10 ^ 28 / 10) with (10 ^ 27).
        split; [reflexivity|]. split; [unfold k; lia|]. split; [lia|].
        split; [rewrite (ndigits_unique (10 ^ 27) 28); lia|].
        split; [lia|].
        assert (HV : 10 ^ 27 * 10 ^ (k + 1) = (hi + 1) * u).
        { rewrite Hcarry. rewrite Z.pow_add_r by lia. fold u. lia. }
        rewrite HV.
        split; [intros t Ht Htc; apply (Hmono_lo t); auto|].
        split; [intros t Ht Htc; apply (Hmono_hi t); auto|].
        nia.
      * apply Z.ltb_ge in E28.
        replace (Etop <? len + e - 28) with false
          by (symmetry; apply Z.ltb_ge; unfold Etop, Emax, ctx_prec; lia).
        exists (hi + 1), k.
        replace (e + k) with (len + e - 28) by (unfold k; lia).
        split; [reflexivity|]. split; [unfold k; lia|]. split; [lia|].
        split; [assumption|]. split; [lia|]. fold u.
        split; [intros t Ht Htc; apply (Hmono_lo t); auto|].
        split; [intros t Ht Htc; apply (Hmono_hi t); auto|].
        nia.
    + cbn [andb].
      replace (Etop <? len + e - 28) with false
        by (symmetry; apply Z.ltb_ge; unfold Etop, Emax, ctx_prec; lia).
      exists hi, k.
      replace (e + k) with (len + e - 28) by (unfold k; lia).
      split; [reflexivity|]. split; [unfold k; lia|]. split; [lia|].
      split; [apply ndigits_le; lia|]. split; [lia|]. fold u.
      split; [intros t Ht Htc; apply (Hmono_lo t); auto|].
      split; [intros t Ht Htc; apply (Hmono_hi t); auto|].
      nia.
  - apply Z.ltb_ge in E. unfold ctx_prec in *.
    exists c, 0. rewrite Z.add_0_r, Z.pow_0_r, Z.mul_1_r.
    split; [reflexivity|]. split; [lia|]. split; [lia|]. split; [lia|].
    split; [auto|]. split; [auto|]. split; [auto|].
    rewrite Z.sub_diag. cbn. lia.
Qed.

(** The loop that strips trailing zeros keeps the value. *)
Lemma strip_zeros_spec fuel : forall c e ideal,
  1 <= c ->
  exists j, 0 <= j
    /\ strip_zeros fuel c e ideal = ((strip_zeros fuel c e ideal).1, e + j)
    /\ c = (strip_zeros fuel c e ideal).1 * 10 ^ j
    /\ 1 <= (strip_zeros fuel c e ideal).1
    /\ (e <= ideal -> e + j <= ideal).
Proof.
  induction fuel as [|f IH]; intros c e ideal Hc.
  - exists 0. cbn. rewrite Z.add_0_r. repeat split; lia.
  - cbn [strip_zeros].
    destruct ((e <? ideal) && (c mod 10 =? 0)) eqn:E.
    + apply andb_true_iff in E as [E1 E2].
      apply Z.ltb_lt in E1. apply Z.eqb_eq in E2.
      assert (Hc10 : c = c / 10 * 10) by (Z.div_mod_to_equations; lia).
      assert (Hq : 1 <= c / 10) by lia.
      destruct (IH (c / 10) (e + 1) ideal Hq) as (j & Hj & Heq & Hval & H1 & Hid).
      exists (j + 1). split; [lia|].
      split; [rewrite Heq at 1; f_equal; lia|].
      split; [rewrite Z.pow_add_r, Z.pow_1_r by lia; lia|].
      split; [assumption|lia].
    + exists 0. cbn. rewrite Z.add_0_r. repeat split; lia.
Qed.

(** The quotient of two stored positive amounts, in the 28 digits of the
    context: a coefficient [c] at an exponent [e <= 0], on the same side
    of 1 as the exact quotient. *)
Lemma div_cents a b :
  0 < a < 10 ^ 12 -> 0 < b < 10 ^ 12 ->
  exists c e,
    div (of_cents a) (of_cents b) = Ok (Dfin false (Z.to_N c) e)
    /\ 1 <= c /\ ndigits c <= 28 /\ -42 <= e <= 0
    /\ (b <= a -> 10 ^ (- e) <= c)
    /\ (a <= b -> c <= 10 ^ (- e))
    /\ c <= 10 ^ (12 - e)
    /\ Z.abs (c * b - a * 10 ^ (- e)) * 10 ^ 27 <= 2 * (a * 10 ^ (- e)).
Proof.
  intros Ha Hb. rewrite !of_cents_pos by lia. unfold div.
  rewrite !Z2N.id by lia. cbn [xorb].
  replace (b =? 0) with false by (symmetry; apply Z.eqb_neq; lia).
  replace (a =? 0) with false by (symmetry; apply Z.eqb_neq; lia).
  destruct (ndigits_spec a ltac:(lia)) as [[Hal Hah] Ha1].
  destruct (ndigits_spec b ltac:(lia)) as [[Hbl Hbh] Hb1].
  assert (Hna : ndigits a <= 12) by (apply ndigits_le; lia).
  assert (Hnb : ndigits b <= 12) by (apply ndigits_le; lia).
  set (sh := ndigits b - ndigits a + ctx_prec + 1).
  assert (Hsh : 18 <= sh <= 40) by (unfold sh, ctx_prec; lia).
  replace (-2 - -2 - sh) with (- sh) by lia.
  replace (0 <=? sh) with true by (symmetry; apply Z.leb_le; lia).
  rewrite div_eucl_div_mod.
  pose proof (pow10_pos sh ltac:(lia)) as Hps.
  set (X := a * 10 ^ sh).
  pose proof (Z.div_mod X b ltac:(lia)) as Hdm.
  pose proof (Z.mod_pos_bound X b ltac:(lia)) as Hmb.
  set (q := X / b) in *. set (r := X mod b) in *.
  (* the raw quotient has 29 or 30 digits *)
  assert (Hq_ge : b <= a -> 10 ^ sh <= q).
  { intros Hle. apply Z.div_le_lower_bound; [lia|]. unfold X. nia. }
  assert (Hq_le : a <= b -> q <= 10 ^ sh).
  { intros Hle. apply Z.lt_succ_r. apply Z.div_lt_upper_bound; [lia|].
    unfold X. nia. }
  assert (Hq_max : q < 10 ^ (sh + 12)).
  { apply Z.div_lt_upper_bound; [lia|]. rewrite Z.pow_add_r by lia.
    unfold X. nia. }
  assert (Hq1 : 1 <= q).
  { apply Z.div_le_lower_bound; [lia|]. unfold X.
    assert (10 ^ 12 <= 10 ^ sh) by (apply Z.pow_le_mono_r; lia). nia. }
  assert (HX : b * 10 ^ 28 <= X).
  { unfold X.
    assert (H1 : 10 ^ (ndigits b) * 10 ^ 28 = 10 ^ (ndigits a - 1) * 10 ^ sh).
    { rewrite <- !pow10_split by lia. f_equal. unfold sh, ctx_prec. lia. }
    assert (H2 : b * 10 ^ 28 <= 10 ^ (ndigits b) * 10 ^ 28)
      by (apply Z.mul_le_mono_nonneg_r; lia).
    assert (H3 : 10 ^ (ndigits a - 1) * 10 ^ sh <= a * 10 ^ sh)
      by (apply Z.mul_le_mono_nonneg_r; lia).
    lia. }
  (* what [_fix] does to a coefficient [c0] at exponent [e0] *)
  assert (Hfix : forall c0 e0 j,
            e0 = - sh + j -> 0 <= j -> e0 <= 0 -> 1 <= c0 ->
            c0 * 10 ^ j <= 10 ^ (sh + 12) ->
            (b <= a -> 10 ^ sh <= c0 * 10 ^ j) ->
            (a <= b -> c0 * 10 ^ j <= 10 ^ sh) ->
            Z.abs (c0 * 10 ^ j * b - X) <= b ->
            exists c e,
              fix_ false c0 e0 = Ok (Dfin false (Z.to_N c) e)
              /\ 1 <= c /\ ndigits c <= 28 /\ -42 <= e <= 0
              /\ (b <= a -> 10 ^ (- e) <= c)
              /\ (a <= b -> c <= 10 ^ (- e))
              /\ c <= 10 ^ (12 - e)
              /\ Z.abs (c * b - a * 10 ^ (- e)) * 10 ^ 27
                 <= 2 * (a * 10 ^ (- e))).
  { intros c0 e0 j He0 Hj He00 Hc0 Hmax Hge Hle Hv.
    pose proof (pow10_pos j Hj) as Hpj.
    assert (Hsplit : forall t, j <= t -> 10 ^ t = 10 ^ (t - j) * 10 ^ j).
    { intros t Ht. rewrite <- pow10_split by lia. f_equal. lia. }
    assert (Hc0max : c0 <= 10 ^ (sh + 12 - j)).
    { rewrite (Hsplit (sh + 12)) in Hmax by lia.
      apply (Z.mul_le_mono_pos_r _ _ (10 ^ j)); assumption. }
    assert (Hnd0 : ndigits c0 <= sh + 13 - j).
    { apply ndigits_le; [lia|]. eapply Z.le_lt_trans; [exact Hc0max|].
      apply Z.pow_lt_mono_r; lia. }
    destruct (fix_rounds false c0 e0 Hc0 ltac:(lia) ltac:(lia))
      as (c & k & Heq & Hk & Hc & Hnc & Hsame & Hlo & Hhi & Herr).
    assert (Hk' : k <= sh - j) by lia.
    pose proof (pow10_pos k ltac:(lia)) as Hpk.
    exists c, (e0 + k). split; [exact Heq|]. split; [assumption|].
    split; [assumption|]. split; [lia|].
    replace (- (e0 + k)) with (sh - j - k) by lia.
    replace (12 - (e0 + k)) with (sh + 12 - j - k) by lia.
    assert (Hsk : forall t, k <= t -> 10 ^ t = 10 ^ (t - k) * 10 ^ k).
    { intros t Ht. rewrite <- pow10_split by lia. f_equal. lia. }
    split; [|split; [|split]].
    - intros Hba. specialize (Hge Hba). rewrite (Hsplit sh) in Hge by lia.
      apply Z.mul_le_mono_pos_r in Hge; [|assumption].
      specialize (Hlo (sh - j) ltac:(lia) Hge).
      rewrite (Hsk (sh - j)) in Hlo by lia.
      apply Z.mul_le_mono_pos_r in Hlo; assumption.
    - intros Hab. specialize (Hle Hab). rewrite (Hsplit sh) in Hle by lia.
      apply Z.mul_le_mono_pos_r in Hle; [|assumption].
      specialize (Hhi (sh - j) ltac:(lia) Hle).
      rewrite (Hsk (sh - j)) in Hhi by lia.
      apply Z.mul_le_mono_pos_r in Hhi; assumption.
    - specialize (Hhi (sh + 12 - j) ltac:(lia) Hc0max).
      rewrite (Hsk (sh + 12 - j)) in Hhi by lia.
      apply Z.mul_le_mono_pos_r in Hhi; assumption.
    - set (E := 10 ^ (sh - j - k)).
      assert (HE : 10 ^ sh = E * (10 ^ j * 10 ^ k)).
      { unfold E. rewrite <- !pow10_split by lia. f_equal. lia. }
      set (T := 10 ^ j * b).
      set (u := c * 10 ^ k - c0) in *.
      set (v := c0 * 10 ^ j * b - X) in *.
      assert (HT : 0 < T) by (unfold T; apply Z.mul_pos_pos; lia).
      assert (HW : 0 < 10 ^ j * 10 ^ k) by (apply Z.mul_pos_pos; lia).
      assert (Huv : (c * b - a * E) * (10 ^ j * 10 ^ k) = u * T + v).
      { unfold u, v, T, X. rewrite HE. ring. }
      apply (Z.mul_le_mono_pos_r _ _ (10 ^ j * 10 ^ k)); [exact HW|].
      replace (Z.abs (c * b - a * E) * 10 ^ 27 * (10 ^ j * 10 ^ k))
        with (Z.abs ((c * b - a * E) * (10 ^ j * 10 ^ k)) * 10 ^ 27)
        by (rewrite Z.abs_mul, (Z.abs_eq (10 ^ j * 10 ^ k)) by lia; ring).
      rewrite Huv.
      replace (2 * (a * E) * (10 ^ j * 10 ^ k)) with (2 * X)
        by (unfold X; rewrite HE; ring).
      pose proof (Z.abs_triangle (u * T) v) as Htri.
      rewrite Z.abs_mul, (Z.abs_eq T) in Htri by lia.
      assert (Hu : Z.abs u * 10 ^ 27 * T <= c0 * T)
        by (apply Z.mul_le_mono_nonneg_r; lia).
      assert (Hc0T : c0 * T = X + v) by (unfold v, T; ring).
      lia. }
  destruct (negb (r =? 0)) eqn:Er; pose proof Er as Er';
    apply (f_equal negb) in Er'; rewrite negb_involutive in Er'; cbn in Er'.
  - (* inexact: the coefficient is made sticky *)
    apply negb_true_iff, Z.eqb_neq in Er.
    assert (Hqlt : a <= b -> q + 1 <= 10 ^ sh).
    { intros Hle. apply Z.lt_succ_r. apply Z.lt_succ_r.
      replace (Z.succ (Z.succ (10 ^ sh))) with (Z.succ (10 ^ sh) + 1) by lia.
      assert (q < 10 ^ sh); [|lia].
      apply Z.div_lt_upper_bound; [lia|]. unfold X.
      destruct (Z.eq_dec a b) as [->|Hne].
      - exfalso. apply Er. unfold r, X. rewrite Z.mul_comm. apply Z.mod_mul. lia.
      - nia. }
    assert (Hmax1 : q + 1 <= 10 ^ (sh + 12)) by lia.
    destruct (q mod 5 =? 0);
      apply (Hfix _ (- sh) 0); rewrite ?Z.pow_0_r, ?Z.mul_1_r; try lia;
      try (intros H; try specialize (Hq_ge H); try specialize (Hq_le H);
           try specialize (Hqlt H); lia).
  - (* exact: trailing zeros are stripped *)
    destruct (strip_zeros_spec (Z.to_nat (-2 - -2 - - sh)) q (- sh) (-2 - -2) Hq1)
      as (j & Hj & Heq & Hval & H1 & Hid).
    rewrite Heq.
    set (c0 := (strip_zeros (Z.to_nat (-2 - -2 - - sh)) q (- sh) (-2 - -2)).1) in *.
    apply Z.eqb_eq in Er'.
    apply (Hfix c0 (- sh + j) j); try lia; rewrite <- Hval; try lia;
      try (intros H; try specialize (Hq_ge H); try specialize (Hq_le H); lia).
Qed.

(** The decimal the percentage is converted from: the quotient times 100,
    again in 28 digits. *)
Lemma progress_decimal a b :
  0 < a < 10 ^ 12 -> 0 < b < 10 ^ 12 ->
  exists c e,
    (let* q := div (of_cents a) (of_cents b) in mul q (PyDecimal.of_int 100))
    = Ok (Dfin false (Z.to_N c) e)
    /\ 1 <= c /\ -42 <= e <= 0
    /\ (b <= a -> 100 * 10 ^ (- e) <= c)
    /\ (a <= b -> c <= 100 * 10 ^ (- e))
    /\ c <= 10 ^ 14 * 10 ^ (- e)
    /\ Z.abs (c * b - 100 * a * 10 ^ (- e)) * 10 ^ 27
       <= 4 * (100 * a * 10 ^ (- e)).
Proof.
  intros Ha Hb.
  destruct (div_cents a b Ha Hb)
    as (c1 & e1 & Heq & Hc1 & Hn1 & He1 & Hge & Hle & Hmax & Herr).
  rewrite Heq. cbn [bind]. unfold mul, PyDecimal.of_int. cbn [xorb Z.ltb Z.compare].
  rewrite Z2N.id by lia. change (Z.of_N (Z.abs_N 100)) with 100.
  rewrite Z.add_0_r.
  pose proof (pow10_pos (- e1) ltac:(lia)) as HpE.
  assert (HC : c1 * 100 <= 10 ^ (14 - e1)).
  { replace (14 - e1) with ((12 - e1) + 2) by lia.
    rewrite pow10_split by lia. change (10 ^ 2) with 100. lia. }
  assert (HnC : ndigits (c1 * 100) <= 15 - e1).
  { apply ndigits_le; [lia|]. eapply Z.le_lt_trans; [exact HC|].
    apply Z.pow_lt_mono_r; lia. }
  destruct (fix_rounds false (c1 * 100) e1 ltac:(lia) ltac:(lia) ltac:(lia))
    as (c & k & Hfix & Hk & Hc & Hnc & Hsame & Hlo & Hhi & Herr2).
  assert (Hke : k <= - e1).
  { destruct (Z_le_gt_dec (ndigits (c1 * 100)) 28) as [H28|H28].
    - destruct (Hsame H28) as [_ ->]. lia.
    - lia. }
  pose proof (pow10_pos k ltac:(lia)) as Hpk.
  assert (Hsk : forall t, k <= t -> 10 ^ t = 10 ^ (t - k) * 10 ^ k).
  { intros t Ht. rewrite <- pow10_split by lia. f_equal. lia. }
  assert (H100 : forall t, 0 <= t -> 10 ^ (t + 2) = 100 * 10 ^ t).
  { intros t Ht. rewrite pow10_split by lia. change (10 ^ 2) with 100. ring. }
  assert (H14 : forall t, 0 <= t -> 10 ^ (t + 14) = 10 ^ 14 * 10 ^ t).
  { intros t Ht. rewrite pow10_split by lia. ring. }
  exists c, (e1 + k). split; [exact Hfix|]. split; [assumption|].
  split; [lia|].
  replace (- (e1 + k)) with (- e1 - k) by lia.
  split; [|split; [|split]].
  - intros Hba. specialize (Hge Hba).
    rewrite <- H100 by lia.
    assert (H : 10 ^ (- e1 + 2) <= c1 * 100) by (rewrite H100 by lia; lia).
    specialize (Hlo (- e1 + 2) ltac:(lia) H).
    rewrite (Hsk (- e1 + 2)) in Hlo by lia.
    apply Z.mul_le_mono_pos_r in Hlo; [|assumption].
    replace (- e1 - k + 2) with (- e1 + 2 - k) by lia. exact Hlo.
  - intros Hab. specialize (Hle Hab).
    rewrite <- H100 by lia.
    assert (H : c1 * 100 <= 10 ^ (- e1 + 2)) by (rewrite H100 by lia; lia).
    specialize (Hhi (- e1 + 2) ltac:(lia) H).
    rewrite (Hsk (- e1 + 2)) in Hhi by lia.
    apply Z.mul_le_mono_pos_r in Hhi; [|assumption].
    replace (- e1 - k + 2) with (- e1 + 2 - k) by lia. exact Hhi.
  - rewrite <- H14 by lia.
    assert (H : c1 * 100 <= 10 ^ (- e1 + 14))
      by (replace (- e1 + 14) with (14 - e1) by lia; exact HC).
    specialize (Hhi (- e1 + 14) ltac:(lia) H).
    rewrite (Hsk (- e1 + 14)) in Hhi by lia.
    apply Z.mul_le_mono_pos_r in Hhi; [|assumption].
    replace (- e1 - k + 14) with (- e1 + 14 - k) by lia. exact Hhi.
  - set (E3 := 10 ^ (- e1 - k)).
    assert (HE : 10 ^ (- e1) = E3 * 10 ^ k).
    { unfold E3. rewrite <- pow10_split by lia. f_equal. lia. }
    set (E1 := 10 ^ (- e1)) in *.
    set (u := c * 10 ^ k - c1 * 100) in *.
    set (w := c1 * b - a * E1) in *.
    assert (Huw : (c * b - 100 * a * E3) * 10 ^ k = u * b + 100 * w).
    { unfold u, w. rewrite HE. ring. }
    apply (Z.mul_le_mono_pos_r _ _ (10 ^ k)); [assumption|].
    replace (Z.abs (c * b - 100 * a * E3) * 10 ^ 27 * 10 ^ k)
      with (Z.abs ((c * b - 100 * a * E3) * 10 ^ k) * 10 ^ 27)
      by (rewrite Z.abs_mul, (Z.abs_eq (10 ^ k)) by lia; ring).
    rewrite Huw.
    replace (4 * (100 * a * E3) * 10 ^ k) with (400 * (a * E1))
      by (rewrite HE; ring).
    pose proof (Z.abs_triangle (u * b) (100 * w)) as Htri.
    rewrite !Z.abs_mul, (Z.abs_eq b), (Z.abs_eq 100) in Htri by lia.
    assert (Hu : Z.abs u * 10 ^ 27 * b <= c1 * 100 * b)
      by (apply Z.mul_le_mono_nonneg_r; lia).
    assert (Hc1b : c1 * b = a * E1 + w) by (unfold w; ring).
    assert (Hw : Z.abs w <= a * E1) by lia.
    lia.
Qed.

End DecimalRounding.

(** ** Adding funds *)

Section AddFunds.

Lemma set_current_amount_set g c c' :
  set_current_amount (set_current_amount g c) c' = set_current_amount g c'.
Proof. reflexivity. Qed.

Lemma set_current_amount_id g : set_current_amount g (current_amount g) = g.
Proof. now destruct g. Qed.

Lemma get_object_owner db u pk g :
  get_object db u pk = Some g -> g_id g = pk /\ g_user g = u.
Proof.
  unfold get_object, goal_queryset. intros H.
  apply head_Some_elem_of in H.
  apply list_elem_of_filter in H as [Hid H].
  apply list_elem_of_filter in H as [Hu _]. auto.
Qed.

(** After the update, the lookup of the goal returns the written row. *)
Lemma get_object_update db u pk g g' :
  get_object db u pk = Some g -> g_id g' = pk -> g_user g' = u ->
  get_object (update_row g' db) u pk = Some g'.
Proof.
  unfold get_object, goal_queryset, update_row. cbn [goals].
  intros H Hid Hu. induction (goals db) as [|r l IH]; [discriminate|].
  cbn [fmap list_fmap]. rewrite !filter_cons in H |- *.
  destruct (g_id r =? g_id g') eqn:E.
  - destruct (decide (g_user g' = u)) as [_|n]; [|contradiction].
    rewrite filter_cons. destruct (decide (g_id g' = pk)) as [_|n]; [|contradiction].
    reflexivity.
  - apply Z.eqb_neq in E.
    destruct (decide (g_user r = u)).
    + rewrite filter_cons in H |- *.
      destruct (decide (g_id r = pk)); [congruence|]. now apply IH.
    + now apply IH.
Qed.

Lemma get_object_update_amount db u pk g c :
  get_object db u pk = Some g ->
  get_object (update_row (set_current_amount g c) db) u pk
  = Some (set_current_amount g c).
Proof.
  intros H. pose proof (get_object_owner _ _ _ _ H) as [Hid Hu].
  now apply (get_object_update db u pk g).
Qed.

(** [save] writes the amount the column takes for the one of the
    object. *)
Lemma save_amount g c q db :
  quantize_column c = Ok q ->
  save (set_current_amount g c) db = Ok (update_row (set_current_amount g q) db).
Proof.
  intros H. unfold save. cbn [current_amount set_current_amount].
  now rewrite H.
Qed.

Lemma save_raises g c e db :
  quantize_column c = Raise e -> save (set_current_amount g c) db = Raise e.
Proof.
  intros H. unfold save. cbn [current_amount set_current_amount].
  now rewrite H.
Qed.

(** The column holds a number of cents below [10^12] as it is, and
    takes no amount of [10^12] cents or more. *)
Lemma quantize_cents n :
  - 10 ^ 12 < n < 10 ^ 12 -> quantize_column (of_cents n) = Ok (of_cents n).
Proof.
  intros Hn. unfold quantize_column, of_cents, max_digits, decimal_places.
  rewrite N2Z.inj_abs_N.
  destruct (Z.abs n =? 0) eqn:E0.
  - apply Z.eqb_eq in E0. replace (Z.abs_N n) with 0%N by lia.
    replace (n <? 0) with false by (symmetry; apply Z.ltb_ge; lia).
    reflexivity.
  - apply Z.eqb_neq in E0.
    pose proof (ndigits_le (Z.abs n) 12 ltac:(lia) ltac:(lia)) as Hd.
    replace (12 <? ndigits (Z.abs n) + -2 - 1 + 2 + 1) with false
      by (symmetry; apply Z.ltb_ge; lia).
    unfold rescale. rewrite (proj2 (Z.eqb_neq _ _) E0).
    change (- (2) <=? -2) with true. cbv beta iota.
    change (-2 - - (2)) with 0. rewrite Z.pow_0_r, Z.mul_1_r.
    rewrite Z2N.id by lia.
    replace (12 <? ndigits (Z.abs n)) with false
      by (symmetry; apply Z.ltb_ge; lia).
    f_equal. f_equal. lia.
Qed.

Lemma quantize_too_large n :
  10 ^ 12 <= n -> quantize_column (of_cents n) = Raise InvalidOperation.
Proof.
  intros Hn. unfold quantize_column, of_cents, max_digits, decimal_places.
  rewrite N2Z.inj_abs_N.
  replace (Z.abs n =? 0) with false by (symmetry; apply Z.eqb_neq; lia).
  pose proof (ndigits_ge_pow (Z.abs n) 12 ltac:(lia) ltac:(lia) ltac:(lia)) as Hd.
  replace (12 <? ndigits (Z.abs n) + -2 - 1 + 2 + 1) with true
    by (symmetry; apply Z.ltb_lt; lia).
  reflexivity.
Qed.





(** Adding a positive amount of at most two places to a stored amount
    adds its cents. *)
Lemma add_cents_amount a c e :
  0 <= a -> c <> 0%N -> -2 <= e -> a + cents_of c e < 10 ^ 28 ->
  add (of_cents a) (Dfin false c e) = Ok (of_cents (a + cents_of c e)).
Proof.
  intros Ha Hc He Hlt. unfold cents_of in *.
  assert (Hp : 0 < 10 ^ (e + 2)) by (apply pow10_pos; lia).
  assert (Hk : 1 <= Z.of_N c * 10 ^ (e + 2)) by nia.
  unfold of_cents at 1.
  replace (a <? 0) with false by (symmetry; apply Z.ltb_ge; lia).
  assert (Hs : sum_coefficient (Z.abs_N a) (-2) c e = a + Z.of_N c * 10 ^ (e + 2)).
  { unfold sum_coefficient. rewrite Z.min_l by lia.
    change (-2 - -2) with 0. rewrite Z.pow_0_r, Z.mul_1_r.
    replace (e - -2) with (e + 2) by lia. lia. }
  rewrite add_exact.
  - rewrite Hs, Z.min_l by lia. unfold of_cents.
    replace (a + Z.of_N c * 10 ^ (e + 2) <? 0) with false
      by (symmetry; apply Z.ltb_ge; lia).
    do 2 f_equal. lia.
  - exact Hc.
  - rewrite Hs. apply ndigits_le; [lia|]. exact Hlt.
  - rewrite Z.min_l by lia. split; discriminate.
Qed.

Section Overlap.

Context (u : user_id) (pk : Z) (g0 : SavingsGoal) (a b ca cb cab cba : decimal).
Hypothesis Ha : add (current_amount g0) a = Ok ca.
Hypothesis Hb : add (current_amount g0) b = Ok cb.
Hypothesis Hab : add ca b = Ok cab.
Hypothesis Hba : add cb a = Ok cba.
Hypothesis Hqa : quantize_column ca = Ok ca.
Hypothesis Hqb : quantize_column cb = Ok cb.
Hypothesis Hqab : quantize_column cab = Ok cab.
Hypothesis Hqba : quantize_column cba = Ok cba.

Let state := overlap_state pk g0 (current_amount g0) a b ca cb cab cba.

(** The store holds amount [x] for the goal. *)
Let holds (db : store) (x : decimal) : Prop :=
  get_object db u pk = Some (set_current_amount g0 x).

Lemma overlap_step_1 db x r1 r2 :
  holds db x -> state x r1 r2 ->
  exists x', holds (request_step u db r1).1 x'
             /\ state x' (request_step u db r1).2 r2.
Proof.
  unfold holds, state. intros Hdb Hst.
  inversion Hst; subst; cbn [request_step current_amount set_current_amount];
    rewrite ?Hdb, ?Ha, ?Hb, ?Hab, ?Hba; unfold save;
    cbn [current_amount set_current_amount];
    rewrite ?Hqa, ?Hqb, ?Hqab, ?Hqba;
    cbn [bind]; cbn [fst snd];
    first
      [ eexists; split; [eassumption | econstructor; eauto]; fail
      | eexists; split;
        [ apply (get_object_update_amount db u pk _ _ Hdb)
        | cbn [set_current_amount g_id g_user g_name target_amount deadline
               created_at]; econstructor; eauto ] ].
Qed.

Lemma overlap_step_2 db x r1 r2 :
  holds db x -> state x r1 r2 ->
  exists x', holds (request_step u db r2).1 x'
             /\ state x' r1 (request_step u db r2).2.
Proof.
  unfold holds, state. intros Hdb Hst.
  inversion Hst; subst; cbn [request_step current_amount set_current_amount];
    rewrite ?Hdb, ?Ha, ?Hb, ?Hab, ?Hba; unfold save;
    cbn [current_amount set_current_amount];
    rewrite ?Hqa, ?Hqb, ?Hqab, ?Hqba;
    cbn [bind]; cbn [fst snd];
    first
      [ eexists; split; [eassumption | econstructor; eauto]; fail
      | eexists; split;
        [ apply (get_object_update_amount db u pk _ _ Hdb)
        | cbn [set_current_amount g_id g_user g_name target_amount deadline
               created_at]; econstructor; eauto ] ].
Qed.

Lemma overlap_run sched : forall db x r1 r2,
  holds db x -> state x r1 r2 ->
  exists x', holds (run_schedule u sched db r1 r2).1.1 x'
             /\ state x' (run_schedule u sched db r1 r2).1.2
                         (run_schedule u sched db r1 r2).2.
Proof.
  induction sched as [|[|] sched IH]; intros db x r1 r2 Hdb Hst.
  - exists x. cbn. auto.
  - cbn [run_schedule].
    destruct (overlap_step_2 db x r1 r2 Hdb Hst) as (x' & Hdb' & Hst').
    destruct (request_step u db r2) as [db' r2']. cbn [fst snd] in *.
    now apply (IH db' x').
  - cbn [run_schedule].
    destruct (overlap_step_1 db x r1 r2 Hdb Hst) as (x' & Hdb' & Hst').
    destruct (request_step u db r1) as [db' r1']. cbn [fst snd] in *.
    now apply (IH db' x').
Qed.

End Overlap.

(** The [try] block accepts the finite decimals above zero and
    [Infinity], and nothing else. *)
Lemma positive_amount_ok amount d :
  positive_amount amount = Ok d <->
  decimal_of_str amount = Some d
  /\ ((exists c e, d = Dfin false c e /\ c <> 0%N) \/ d = Dinf false).
Proof.
  unfold positive_amount.
  destruct (decimal_of_str amount) as [d'|]; cbn [of_option bind].
  - destruct d' as [s c e|s|]; cbn [le_zero bind].
    + destruct s; cbn [orb].
      * split; [discriminate|]. intros [[= <-] [(c' & e' & [=] & _)|[=]]].
      * destruct (c =? 0)%N eqn:E.
        -- apply N.eqb_eq in E. split; [discriminate|].
           intros [[= <-] [(c' & e' & [= <- <-] & Hc)|[=]]]. contradiction.
        -- apply N.eqb_neq in E. split.
           ++ intros [= <-]. split; [reflexivity|]. left. eauto.
           ++ intros [[= <-] _]. reflexivity.
    + destruct s.
      * split; [discriminate|]. intros [[= <-] [(c' & e' & [=] & _)|[=]]].
      * split.
        -- intros [= <-]. auto.
        -- intros [[= <-] _]. reflexivity.
    + split; [discriminate|]. intros [[= <-] [(c' & e' & [=] & _)|[=]]].
  - split; [discriminate|]. intros [[=] _].
Qed.

Lemma add_funds_rejects db u today pk goal amount :
  get_object db u pk = Some goal ->
  (forall d, ~ accepted amount d) ->
  add_funds db u today pk amount
  = (db, Ok (Response400 (if py_truthy amount
                          then "Amount must be a positive number."
                          else "Amount is required."))).
Proof.
  intros Hg Hno. unfold add_funds. rewrite Hg.
  destruct (py_truthy amount) eqn:Ht; cbn [negb]; [|reflexivity].
  destruct (positive_amount amount) as [d|] eqn:Hp; [|reflexivity].
  exfalso. apply (Hno d). now split.
Qed.

(** An accepted amount whose sum the column takes as [q]: the row is
    written with [q], and the response is the view of the object. *)
Lemma add_funds_accepts db u today pk goal amount d c q :
  get_object db u pk = Some goal -> accepted amount d ->
  add (current_amount goal) d = Ok c -> quantize_column c = Ok q ->
  add_funds db u today pk amount
  = (update_row (set_current_amount goal q) db,
     let* data := serialize_goal today (set_current_amount goal c) in
     Ok (Response200 data)).
Proof.
  intros Hg [Ht Hp] Ha Hq. unfold add_funds.
  rewrite Hg, Ht, Hp, Ha. cbn [negb]. cbv zeta.
  now rewrite (save_amount goal c q db Hq).
Qed.

(** An accepted amount whose sum the column does not take: the
    exception of [save] escapes, and nothing is written. *)
Lemma add_funds_overflows db u today pk goal amount d c e :
  get_object db u pk = Some goal -> accepted amount d ->
  add (current_amount goal) d = Ok c -> quantize_column c = Raise e ->
  add_funds db u today pk amount = (db, Raise e).
Proof.
  intros Hg [Ht Hp] Ha Hq. unfold add_funds.
  rewrite Hg, Ht, Hp, Ha. cbn [negb]. cbv zeta.
  now rewrite (save_raises goal c e db Hq).
Qed.

Lemma step_pending db u pk g a :
  get_object db u pk = Some g ->
  request_step u db (Pending pk a) = (db, Loaded g a).
Proof. intros H. cbn. now rewrite H. Qed.

Lemma step_loaded db u g a c :
  add (current_amount g) a = Ok c -> quantize_column c = Ok c ->
  request_step u db (Loaded g a)
  = (update_row (set_current_amount g c) db, Finished).
Proof.
  intros H Hq. cbn [request_step]. rewrite H.
  now rewrite (save_amount g c c db Hq).
Qed.

(** The store an add-funds request leaves is the one its two steps
    leave when nothing runs in between. *)
Lemma add_funds_two_steps db u today pk amount a :
  py_truthy amount = true -> positive_amount amount = Ok a ->
  (add_funds db u today pk amount).1
  = (run_schedule u [false; false] db (Pending pk a) Finished).1.1.
Proof.
  intros Ht Hp. unfold add_funds. cbn [run_schedule request_step].
  destruct (get_object db u pk) as [g|]; [|reflexivity].
  rewrite Ht, Hp. cbn [negb].
  destruct (add (current_amount g) a) eqn:E; cbn [request_step]; rewrite E;
    [|reflexivity].
  cbv zeta. now destruct (save _ db).
Qed.

(** What add-funds does with an accepted amount of at most two places
    on a stored goal: the cents are added, unless the total does not
    fit the column. *)
Lemma add_funds_cents db u today pk goal amount a c e :
  get_object db u pk = Some goal ->
  current_amount goal = of_cents a -> 0 <= a < 10 ^ 12 ->
  accepted amount (Dfin false c e) -> c <> 0%N -> -2 <= e ->
  let total := a + cents_of c e in
  let goal' := set_current_amount goal (of_cents total) in
  (total < 10 ^ 12 ->
     add_funds db u today pk amount
     = (update_row goal' db,
        let* data := serialize_goal today goal' in Ok (Response200 data)))
  /\ (10 ^ 12 <= total < 10 ^ 28 ->
        add_funds db u today pk amount = (db, Raise InvalidOperation)).
Proof.
  intros Hg Hcur Ha Hacc Hc He total goal'.
  assert (Hk : 0 < cents_of c e).
  { unfold cents_of. apply Z.mul_pos_pos; [lia|]. apply pow10_pos. lia. }
  split; intros Ht.
  - assert (Hlt : total < 10 ^ 28) by (unfold total in *; lia).
    pose proof (add_cents_amount a c e (proj1 Ha) Hc He Hlt) as Hadd.
    rewrite <- Hcur in Hadd.
    apply (add_funds_accepts db u today pk goal amount _ _ _ Hg Hacc Hadd).
    apply quantize_cents. unfold total in *. lia.
  - pose proof (add_cents_amount a c e (proj1 Ha) Hc He (proj2 Ht)) as Hadd.
    rewrite <- Hcur in Hadd.
    apply (add_funds_overflows db u today pk goal amount _ _ _ Hg Hacc Hadd).
    apply quantize_too_large. exact (proj1 Ht).
Qed.





(** C8 (amended). The increment is a read of the goal followed by a
    write of the whole row, and nothing makes the pair atomic. For
    contributions whose sums the column holds as they are: two requests
    that run one after the other apply both contributions, in either
    order. When both read before either writes, the second write
    replaces the first and one contribution is lost. Whatever the
    interleaving, once both requests have finished the stored amount is
    one of these four sums. *)
Theorem add_funds_overlap db u pk g0 a b ca cb cab cba :
  get_object db u pk = Some g0 ->
  add (current_amount g0) a = Ok ca -> add (current_amount g0) b = Ok cb ->
  add ca b = Ok cab -> add cb a = Ok cba ->
  quantize_column ca = Ok ca -> quantize_column cb = Ok cb ->
  quantize_column cab = Ok cab -> quantize_column cba = Ok cba ->
  let final sched :=
    stored_amount (run_schedule u sched db (Pending pk a) (Pending pk b)).1.1 u pk in
  final [false; false; true; true] = Some cab
  /\ final [true; true; false; false] = Some cba
  /\ final [false; true; false; true] = Some cb
  /\ final [false; true; true; false] = Some ca
  /\ (forall sched db',
        run_schedule u sched db (Pending pk a) (Pending pk b)
        = (db', Finished, Finished) ->
        exists x, stored_amount db' u pk = Some x
                  /\ (x = ca \/ x = cb \/ x = cab \/ x = cba)).
Proof.
  intros Hg Ha Hb Hab Hba Hqa Hqb Hqab Hqba final.
  pose proof (get_object_update_amount db u pk g0 ca Hg) as Hca.
  pose proof (get_object_update_amount db u pk g0 cb Hg) as Hcb.
  unfold final, stored_amount.
  split; [|split; [|split; [|split]]].
  - cbn [run_schedule].
    rewrite (step_pending _ _ _ _ a Hg), (step_loaded _ u g0 a ca Ha Hqa).
    rewrite (step_pending _ _ _ _ b Hca),
      (step_loaded _ u (set_current_amount g0 ca) b cab Hab Hqab).
    cbn [fst snd]. now rewrite (get_object_update_amount _ u pk _ cab Hca).
  - cbn [run_schedule].
    rewrite (step_pending _ _ _ _ b Hg), (step_loaded _ u g0 b cb Hb Hqb).
    rewrite (step_pending _ _ _ _ a Hcb),
      (step_loaded _ u (set_current_amount g0 cb) a cba Hba Hqba).
    cbn [fst snd]. now rewrite (get_object_update_amount _ u pk _ cba Hcb).
  - cbn [run_schedule].
    rewrite (step_pending _ _ _ _ a Hg), (step_pending _ _ _ _ b Hg).
    rewrite (step_loaded _ u g0 a ca Ha Hqa), (step_loaded _ u g0 b cb Hb Hqb).
    cbn [fst snd].
    now rewrite (get_object_update _ u pk _ (set_current_amount g0 cb) Hca
                   (proj1 (get_object_owner _ _ _ _ Hg))
                   (proj2 (get_object_owner _ _ _ _ Hg))).
  - cbn [run_schedule].
    rewrite (step_pending _ _ _ _ a Hg), (step_pending _ _ _ _ b Hg).
    rewrite (step_loaded _ u g0 b cb Hb Hqb), (step_loaded _ u g0 a ca Ha Hqa).
    cbn [fst snd].
    now rewrite (get_object_update _ u pk _ (set_current_amount g0 ca) Hcb
                   (proj1 (get_object_owner _ _ _ _ Hg))
                   (proj2 (get_object_owner _ _ _ _ Hg))).
  - intros sched db' Hrun.
    assert (Hdb : get_object db u pk
                  = Some (set_current_amount g0 (current_amount g0)))
      by now rewrite set_current_amount_id.
    destruct (overlap_run u pk g0 a b ca cb cab cba Ha Hb Hab Hba
                Hqa Hqb Hqab Hqba sched db
                (current_amount g0) (Pending pk a) (Pending pk b) Hdb
                (os_pending _ _ _ _ _ _ _ _ _)) as (x & Hx & Hst).
    rewrite Hrun in Hx, Hst. cbn [fst snd] in Hx, Hst.
    exists x. rewrite Hx. split; [reflexivity|].
    inversion Hst; subst; assumption.
Qed.

Lemma add_funds_overlap_witness :
  stored_amount
    (run_schedule 1 [false; false; true; true] fresh_db
       (Pending 7 ten) (Pending 7 ten)).1.1 1 7 = Some twenty2
  /\ stored_amount
    (run_schedule 1 [false; true; false; true] fresh_db
       (Pending 7 ten) (Pending 7 ten)).1.1 1 7 = Some ten2.
Proof.
  assert (Hg : get_object fresh_db 1 7 = Some fresh_goal) by reflexivity.
  assert (H10 : add (current_amount fresh_goal) ten = Ok ten2) by reflexivity.
  assert (H20 : add ten2 ten = Ok twenty2) by reflexivity.
  assert (Hq10 : quantize_column ten2 = Ok ten2) by reflexivity.
  assert (Hq20 : quantize_column twenty2 = Ok twenty2) by reflexivity.
  destruct (add_funds_overlap fresh_db 1 7 fresh_goal ten ten ten2 ten2
              twenty2 twenty2 Hg H10 H10 H20 H20 Hq10 Hq10 Hq20 Hq20)
    as (H1 & _ & H3 & _).
  exact (conj H1 H3).
Defined.

(** C8, as stated, fails: two add-funds requests of 10 on a goal that
    holds 0.00, both of which run to the end, can leave 10.00 and not
    20.00 in the store: each reads 0.00, and each writes 10.00. *)
Lemma add_funds_lost_update :
  exists sched db',
    run_schedule 1 sched fresh_db (Pending 7 ten) (Pending 7 ten)
    = (db', Finished, Finished)
    /\ stored_amount fresh_db 1 7 = Some zero2
    /\ stored_amount db' 1 7 = Some ten2
    /\ stored_amount db' 1 7 <> Some twenty2.
Proof.
  exists [false; true; false; true]. eexists.
  split; [reflexivity|]. split; [reflexivity|]. split; [reflexivity|].
  discriminate.
Qed.

End AddFunds.
(** ** The progress percentage *)

Section Progress.

(** A correctly rounded value is within [2^-53] of the exact one,
    relatively. *)
Lemma rounds_to_rel x m e :
  rounds_to x m e ->
  (x * (1 - pow2 (-53)) <= mant m e /\ mant m e <= x * (1 + pow2 (-53)))%Q.
Proof.
  intros (_ & e1 & _ & _ & Hlo & _ & Hd & Hu).
  assert (Hp : (pow2 (e1 - 1) == pow2 (52 + e1) * pow2 (-53))%Q).
  { rewrite <- pow2_add. replace (52 + e1 + -53) with (e1 - 1) by lia.
    reflexivity. }
  pose proof (pow2_pos (-53)) as H53.
  assert (Hle : (pow2 (e1 - 1) <= x * pow2 (-53))%Q).
  { rewrite Hp. apply Qmult_le_compat_r; [exact Hlo|]. apply Qlt_le_weak, H53. }
  unfold mant. split; lra.
Qed.

(** [float(d)] of a positive decimal with a non-positive exponent. *)
Lemma to_float_ratio c e :
  1 <= c -> -42 <= e <= 0 -> c <= 10 ^ 14 * 10 ^ (- e) ->
  exists m ex,
    to_float (Dfin false (Z.to_N c) e) = S754_finite false m ex
    /\ rounds_to (inject_Z c / inject_Z (10 ^ (- e))) m ex.
Proof.
  intros Hc He Hmax. destruct c as [|p|p]; try lia.
  pose proof (pow10_pos (- e) ltac:(lia)) as HpE.
  set (D := Z.to_pos (10 ^ (- e))).
  assert (HD : Zpos D = 10 ^ (- e)) by (unfold D; apply Z2Pos.id; exact HpE).
  assert (HdD : Zpos (digits2_pos D) <= 140).
  { apply digits2_pos_le; [lia|]. rewrite HD.
    apply Z.le_lt_trans with (10 ^ 42); [apply Z.pow_le_mono_r; lia|].
    now vm_compute. }
  pose proof (digits2_pos_spec D) as [_ HDhi].
  assert (Hdp : Zpos (digits2_pos p) <= 47 + Zpos (digits2_pos D)).
  { apply digits2_pos_le; [lia|].
    rewrite Z.pow_add_r by lia.
    assert (10 ^ 14 < 2 ^ 47) by now vm_compute.
    rewrite <- HD in Hmax. nia. }
  pose proof (Pos2Z.is_pos (digits2_pos p)).
  pose proof (Pos2Z.is_pos (digits2_pos D)).
  destruct (fdiv_raw_nearest false p D) as (m & ex & Heq & Hr); [lia|].
  exists m, ex. rewrite <- HD. split; [|exact Hr].
  unfold to_float. change (Z.to_N (Zpos p)) with (Npos p). cbn iota.
  rewrite Z.max_r, Z.max_l by lia.
  rewrite Z.pow_0_r, Z.mul_1_r. exact Heq.
Qed.

Lemma hundred_eq : hundred = S754_finite false 7036874417766400 (-46).
Proof. reflexivity. Qed.

Lemma mant_hundred : (mant 7036874417766400 (-46) == 100)%Q.
Proof. reflexivity. Qed.

Lemma digits_hundred : Zpos (digits2_pos 7036874417766400) = 53.
Proof. reflexivity. Qed.

Lemma pow2_m53 : (pow2 (-53) == 1 # 9007199254740992)%Q.
Proof. reflexivity. Qed.

Lemma pow2_m52 : (pow2 (-52) == 1 # 4503599627370496)%Q.
Proof. reflexivity. Qed.

Lemma le_zero_cents b : le_zero (of_cents b) = Ok (b <=? 0).
Proof.
  unfold le_zero, of_cents. f_equal.
  destruct b as [|p|p]; reflexivity.
Qed.

Lemma progress_zero g b :
  current_amount g = of_cents 0 -> target_amount g = of_cents b -> 0 < b ->
  progress_percentage g = Ok (PyFloat zero).
Proof.
  intros Hc Ht Hb. unfold progress_percentage. rewrite Hc, Ht, le_zero_cents.
  replace (b <=? 0) with false by (symmetry; apply Z.leb_gt; lia).
  cbn [bind]. rewrite (of_cents_pos b) by assumption.
  unfold of_cents, div. cbn [Z.ltb Z.compare Z.abs_N Z.abs Z.of_N xorb].
  rewrite Z2N.id by lia.
  replace (b =? 0) with false by (symmetry; apply Z.eqb_neq; lia).
  reflexivity.
Qed.

(** The percentage of two stored positive amounts: the float that the
    code compares with 100. *)
Lemma progress_positive g a b :
  current_amount g = of_cents a -> target_amount g = of_cents b ->
  0 < a < 10 ^ 12 -> 0 < b < 10 ^ 12 ->
  exists m e,
    Zpos (digits2_pos m) = 53
    /\ progress_percentage g
       = Ok (if flt hundred (S754_finite false m e)
             then PyInt 100 else PyFloat (S754_finite false m e))
    /\ (b <= a -> (100 <= mant m e)%Q)
    /\ (a <= b -> (mant m e <= 100)%Q)
    /\ (inject_Z (100 * a) / inject_Z b * (1 - pow2 (-52)) <= mant m e)%Q
    /\ (mant m e <= inject_Z (100 * a) / inject_Z b * (1 + pow2 (-52)))%Q.
Proof.
  intros Hcur Htgt Ha Hb.
  destruct (progress_decimal a b Ha Hb)
    as (c & e & Hdec & Hc & He & Hge & Hle & Hmax & Herr).
  destruct (to_float_ratio c e Hc He Hmax) as (m & ex & Hf & Hr).
  pose proof Hr as [Hdm _].
  pose proof (pow10_pos (- e) ltac:(lia)) as HpD.
  set (D := 10 ^ (- e)) in *.
  set (x := (inject_Z c / inject_Z D)%Q) in *.
  assert (HDq : (0 < inject_Z D)%Q) by (apply inject_Z_pos; lia).
  assert (HBq : (0 < inject_Z b)%Q) by (apply inject_Z_pos; lia).
  assert (HAq : (0 < inject_Z a)%Q) by (apply inject_Z_pos; lia).
  exists m, ex. split; [exact Hdm|]. split.
  { unfold progress_percentage. rewrite Hcur, Htgt, le_zero_cents.
    replace (b <=? 0) with false by (symmetry; apply Z.leb_gt; lia).
    cbn [bind].
    destruct (div (of_cents a) (of_cents b)) as [q|err]; cbn [bind] in *;
      [|discriminate].
    rewrite Hdec. cbn [bind]. rewrite Hf. reflexivity. }
  split; [|split].
  - intros Hba. rewrite <- mant_hundred.
    apply (rounds_to_ge x m ex _ _ Hr digits_hundred).
    rewrite mant_hundred. unfold x. apply Qle_shift_div_l; [exact HDq|].
    change 100%Q with (inject_Z 100). rewrite <- inject_Z_mult, <- Zle_Qle.
    apply Hge, Hba.
  - intros Hab. rewrite <- mant_hundred.
    apply (rounds_to_le x m ex _ _ Hr digits_hundred).
    rewrite mant_hundred. unfold x. apply Qle_shift_div_r; [exact HDq|].
    change 100%Q with (inject_Z 100). rewrite <- inject_Z_mult, <- Zle_Qle.
    apply Hle, Hab.
  - set (y := (inject_Z (100 * a) / inject_Z b)%Q).
    assert (Hx : (x * inject_Z D == inject_Z c)%Q).
    { unfold x. field. intros H0. rewrite H0 in HDq. revert HDq. apply Qlt_irrefl. }
    assert (Hy : (y * inject_Z b == 100 * inject_Z a)%Q).
    { unfold y. rewrite inject_Z_mult. change (inject_Z 100) with 100%Q. field.
      intros H0. rewrite H0 in HBq. revert HBq. apply Qlt_irrefl. }
    assert (Hy0 : (0 < y)%Q).
    { unfold y. apply Qlt_shift_div_l; [exact HBq|]. rewrite Qmult_0_l.
      apply inject_Z_pos. lia. }
    set (P := 10 ^ 27) in *.
    assert (H1 : c * b * P <= 100 * a * D * P + 400 * (a * D)) by lia.
    assert (H2 : 100 * a * D * P <= c * b * P + 400 * (a * D)) by lia.
    assert (H1q : (inject_Z c * inject_Z b * inject_Z P
                   <= 100 * inject_Z a * inject_Z D * inject_Z P
                      + 400 * (inject_Z a * inject_Z D))%Q).
    { change 100%Q with (inject_Z 100). change 400%Q with (inject_Z 400).
      rewrite <- ?inject_Z_mult, <- ?inject_Z_plus, <- Zle_Qle. exact H1. }
    assert (H2q : (100 * inject_Z a * inject_Z D * inject_Z P
                   <= inject_Z c * inject_Z b * inject_Z P
                      + 400 * (inject_Z a * inject_Z D))%Q).
    { change 100%Q with (inject_Z 100). change 400%Q with (inject_Z 400).
      rewrite <- ?inject_Z_mult, <- ?inject_Z_plus, <- Zle_Qle. exact H2. }
    set (T := (inject_Z D * inject_Z b)%Q).
    assert (HT : (0 < T)%Q) by (unfold T; nra).
    assert (Hxy1 : (x * inject_Z P <= y * inject_Z P + 4 * y)%Q).
    { apply (Qmult_le_l _ _ T HT).
      assert (E1 : (T * (x * inject_Z P)
                    == inject_Z c * inject_Z b * inject_Z P)%Q)
        by (unfold T; rewrite <- Hx; ring).
      assert (E2 : (T * (y * inject_Z P + 4 * y)
                    == 100 * inject_Z a * inject_Z D * inject_Z P
                       + 400 * (inject_Z a * inject_Z D))%Q).
      { unfold T.
        assert (E : (inject_Z D * inject_Z b * (y * inject_Z P + 4 * y)
                     == (y * inject_Z b) * inject_Z D * inject_Z P
                        + 4 * (y * inject_Z b) * inject_Z D)%Q) by ring.
        rewrite E, Hy. ring. }
      rewrite E1, E2. exact H1q. }
    assert (Hxy2 : (y * inject_Z P <= x * inject_Z P + 4 * y)%Q).
    { apply (Qmult_le_l _ _ T HT).
      assert (E1 : (T * (x * inject_Z P + 4 * y)
                    == inject_Z c * inject_Z b * inject_Z P
                       + 400 * (inject_Z a * inject_Z D))%Q).
      { unfold T.
        assert (E : (inject_Z D * inject_Z b * (x * inject_Z P + 4 * y)
                     == (x * inject_Z D) * inject_Z b * inject_Z P
                        + 4 * (y * inject_Z b) * inject_Z D)%Q) by ring.
        rewrite E, Hx, Hy. ring. }
      assert (E2 : (T * (y * inject_Z P)
                    == 100 * inject_Z a * inject_Z D * inject_Z P)%Q).
      { unfold T.
        assert (E : (inject_Z D * inject_Z b * (y * inject_Z P)
                     == (y * inject_Z b) * inject_Z D * inject_Z P)%Q) by ring.
        rewrite E, Hy. ring. }
      rewrite E1, E2. exact H2q. }
    destruct (rounds_to_rel x m ex Hr) as [Hlo Hhi].
    rewrite pow2_m53 in Hlo, Hhi. rewrite pow2_m52.
    change (inject_Z P) with (1000000000000000000000000000 # 1)%Q in Hxy1, Hxy2.
    split; lra.
Qed.

(** C9 (amended). The progress percentage of a goal with stored amounts
    ([current_amount] of [a] cents, [target_amount] of [b] cents): it is 0
    when the target is not positive; it is 100 (the int 100, or the float
    100.0) whenever the current amount reaches or exceeds the target; and
    otherwise it is a float that is at most 100 and is
    [current / target * 100] only up to the rounding of the result,
    within a relative [2^-52] (0.0 for an empty goal). *)
Theorem progress_percentage_clamped g a b :
  current_amount g = of_cents a -> target_amount g = of_cents b ->
  0 <= a < 10 ^ 12 -> b < 10 ^ 12 ->
  (b <= 0 -> progress_percentage g = Ok (PyInt 0))
  /\ (0 < b <= a ->
      exists n, progress_percentage g = Ok n /\ pynum_float n = hundred)
  /\ (0 < b -> a = 0 -> progress_percentage g = Ok (PyFloat zero))
  /\ (0 < a < b ->
      exists m e,
        progress_percentage g = Ok (PyFloat (S754_finite false m e))
        /\ fle (S754_finite false m e) hundred = true
        /\ (inject_Z (100 * a) / inject_Z b * (1 - pow2 (-52))
            <= mant m e)%Q
        /\ (mant m e
            <= inject_Z (100 * a) / inject_Z b * (1 + pow2 (-52)))%Q).
Proof.
  intros Hcur Htgt Ha Hb. split; [|split; [|split]].
  - intros Hle. unfold progress_percentage. rewrite Htgt, le_zero_cents.
    replace (b <=? 0) with true by (symmetry; apply Z.leb_le; lia).
    reflexivity.
  - intros Hba.
    destruct (progress_positive g a b Hcur Htgt ltac:(lia) ltac:(lia))
      as (m & e & Hdm & Heq & Hge & _ & _ & _).
    specialize (Hge ltac:(lia)). rewrite Heq.
    destruct (flt hundred (S754_finite false m e)) eqn:Ef.
    + exists (PyInt 100). split; reflexivity.
    + exists (PyFloat (S754_finite false m e)). split; [reflexivity|].
      cbn [pynum_float]. rewrite hundred_eq in Ef |- *.
      assert (Hnlt : ~ (mant 7036874417766400 (-46) < mant m e)%Q).
      { intros Hlt. apply (flt_mant _ _ _ _ digits_hundred Hdm) in Hlt.
        rewrite Hlt in Ef. discriminate. }
      assert (Heqm : (mant m e == mant 7036874417766400 (-46))%Q).
      { rewrite mant_hundred in Hnlt |- *. apply Qle_antisym; [|exact Hge].
        apply Qnot_lt_le, Hnlt. }
      destruct (mant_inj _ _ _ _ Hdm digits_hundred Heqm) as [-> ->].
      reflexivity.
  - intros Hb0 ->. exact (progress_zero g b Hcur Htgt Hb0).
  - intros Hab.
    destruct (progress_positive g a b Hcur Htgt ltac:(lia) ltac:(lia))
      as (m & e & Hdm & Heq & _ & Hle & Hlo & Hhi).
    specialize (Hle ltac:(lia)). exists m, e.
    assert (Ef : flt hundred (S754_finite false m e) = false).
    { apply not_true_iff_false. intros Ef. rewrite hundred_eq in Ef.
      apply (flt_mant _ _ _ _ digits_hundred Hdm) in Ef.
      rewrite mant_hundred in Ef. apply (Qlt_not_le _ _ Ef), Hle. }
    rewrite Heq, Ef. split; [reflexivity|]. split; [|split; assumption].
    rewrite hundred_eq. apply (fle_mant _ _ _ _ Hdm digits_hundred).
    rewrite mant_hundred. exact Hle.
Qed.

Lemma progress_percentage_clamped_witness :
  progress_percentage (goal_of 100000 0) = Ok (PyFloat zero)
  /\ progress_percentage (goal_of 0 500) = Ok (PyInt 0)
  /\ exists n, progress_percentage (goal_of 100000 150000) = Ok n
               /\ pynum_float n = hundred.
Proof.
  split; [|split].
  - refine (proj1 (proj2 (proj2
      (progress_percentage_clamped (goal_of 100000 0) 0 100000 _ _ _ _))) _ _);
      try reflexivity; vm_compute; try split; congruence.
  - refine (proj1
      (progress_percentage_clamped (goal_of 0 500) 500 0 _ _ _ _) _);
      try reflexivity; vm_compute; try split; congruence.
  - refine (proj1 (proj2
      (progress_percentage_clamped (goal_of 100000 150000) 150000 100000
         _ _ _ _)) _);
      try reflexivity; vm_compute; try split; congruence.
Defined.

(** C9, as stated, fails between 0 and 100: for a target of 3.00 and a
    current amount of 1.00 the percentage is the float
    33.333333333333336, which is above 1.00 / 3.00 * 100. *)
Lemma progress_percentage_not_exact :
  progress_percentage (goal_of 300 100)
  = Ok (PyFloat (S754_finite false 4691249611844267 (-47)))
  /\ ~ (mant 4691249611844267 (-47) == inject_Z (100 * 100) / inject_Z 300)%Q
  /\ (inject_Z (100 * 100) / inject_Z 300 < mant 4691249611844267 (-47))%Q.
Proof.
  split; [vm_compute; reflexivity|].
  split; [vm_compute; discriminate|]. vm_compute. reflexivity.
Qed.

End Progress.

(** ** Where decimals end and floats begin *)

Section Exactness.

Lemma fix_cents s c :
  1 <= c < 10 ^ 28 -> fix_ s c (-2) = Ok (Dfin s (Z.to_N c) (-2)).
Proof.
  intros Hc. apply fix_exact; [lia| |now vm_compute].
  apply ndigits_le; [lia|]. apply Hc.
Qed.

Lemma normalize_cents c1 c2 :
  1 <= c1 < 10 ^ 27 -> 1 <= c2 -> normalize c1 (-2) c2 (-2) = ((c1, c2), -2).
Proof.
  intros Hc1 Hc2. unfold normalize. change (-2 <? -2) with false. cbv beta iota zeta.
  assert (Hn1 : ndigits c1 <= 27) by (apply ndigits_le; lia).
  destruct (ndigits_spec c2 Hc2) as [_ Hn2].
  replace (ndigits c2 + -2 - 1 <? -2 + Z.min (-1) (ndigits c1 - ctx_prec - 2))
    with false by (symmetry; apply Z.ltb_ge; unfold ctx_prec; lia).
  cbv beta iota zeta. change (-2 - -2) with 0.
  rewrite Z.pow_0_r, Z.mul_1_r. reflexivity.
Qed.

(** Adding two non-zero amounts of cents is exact. *)
Lemma add_cents sa sb c1 c2 :
  1 <= c1 < 10 ^ 27 -> 1 <= c2 < 10 ^ 27 ->
  add (Dfin sa (Z.to_N c1) (-2)) (Dfin sb (Z.to_N c2) (-2))
  = Ok (if Bool.eqb sa sb then Dfin sa (Z.to_N (c1 + c2)) (-2)
        else if c1 =? c2 then Dfin false 0 (-2)
        else if c1 <? c2 then Dfin sb (Z.to_N (c2 - c1)) (-2)
        else Dfin sa (Z.to_N (c1 - c2)) (-2)).
Proof.
  intros Hc1 Hc2. unfold add. rewrite !Z2N.id by lia.
  replace (c1 =? 0) with false by (symmetry; apply Z.eqb_neq; lia).
  replace (c2 =? 0) with false by (symmetry; apply Z.eqb_neq; lia).
  cbn [andb]. rewrite normalize_cents by lia.
  assert (H28 : 10 ^ 27 + 10 ^ 27 < 10 ^ 28) by now vm_compute.
  destruct (Bool.eqb sa sb); [apply fix_cents; lia|].
  destruct (c1 =? c2) eqn:E; [reflexivity|]. apply Z.eqb_neq in E.
  destruct (c1 <? c2) eqn:L;
    [apply Z.ltb_lt in L|apply Z.ltb_ge in L]; apply fix_cents; lia.
Qed.

Lemma add_cents_zero_l sa sb c :
  1 <= c < 10 ^ 27 ->
  add (Dfin sa 0 (-2)) (Dfin sb (Z.to_N c) (-2)) = Ok (Dfin sb (Z.to_N c) (-2)).
Proof.
  intros Hc. unfold add. rewrite Z2N.id by lia. cbn [Z.of_N Z.eqb andb].
  replace (c =? 0) with false by (symmetry; apply Z.eqb_neq; lia).
  unfold rescale.
  replace (c =? 0) with false by (symmetry; apply Z.eqb_neq; lia).
  change (Z.max (Z.min (-2) (-2)) (-2 - ctx_prec - 1)) with (-2).
  change (-2 <=? -2) with true. cbv beta iota zeta.
  change (-2 - -2) with 0. rewrite Z.pow_0_r, Z.mul_1_r, Z2N.id by lia.
  apply fix_cents. assert (10 ^ 27 < 10 ^ 28) by now vm_compute. lia.
Qed.

Lemma add_cents_zero_r sa sb c :
  1 <= c < 10 ^ 27 ->
  add (Dfin sa (Z.to_N c) (-2)) (Dfin sb 0 (-2)) = Ok (Dfin sa (Z.to_N c) (-2)).
Proof.
  intros Hc. unfold add. rewrite Z2N.id by lia. cbn [Z.of_N Z.eqb andb].
  replace (c =? 0) with false by (symmetry; apply Z.eqb_neq; lia).
  cbn [andb]. unfold rescale.
  replace (c =? 0) with false by (symmetry; apply Z.eqb_neq; lia).
  change (Z.max (Z.min (-2) (-2)) (-2 - ctx_prec - 1)) with (-2).
  change (-2 <=? -2) with true. cbv beta iota zeta.
  change (-2 - -2) with 0. rewrite Z.pow_0_r, Z.mul_1_r, Z2N.id by lia.
  apply fix_cents. assert (10 ^ 27 < 10 ^ 28) by now vm_compute. lia.
Qed.

(** The difference of two amounts of cents is the exact difference. *)
Lemma sub_cents x y :
  - 10 ^ 27 < x < 10 ^ 27 -> - 10 ^ 27 < y < 10 ^ 27 ->
  sub (of_cents x) (of_cents y) = Ok (of_cents (x - y)).
Proof.
  intros Hx Hy. unfold sub, of_cents, negate.
  destruct (Z.eq_dec x 0) as [->|Hx0]; destruct (Z.eq_dec y 0) as [->|Hy0].
  - reflexivity.
  - change (Z.abs_N 0) with 0%N.
    replace (Z.abs_N y) with (Z.to_N (Z.abs y)) by lia.
    rewrite add_cents_zero_l by lia. f_equal.
    replace (0 - y <? 0) with (negb (y <? 0)) by lia.
    f_equal. lia.
  - change (Z.abs_N 0) with 0%N.
    replace (Z.abs_N x) with (Z.to_N (Z.abs x)) by lia.
    rewrite add_cents_zero_r by lia. f_equal.
    rewrite Z.sub_0_r. f_equal. lia.
  - replace (Z.abs_N x) with (Z.to_N (Z.abs x)) by lia.
    replace (Z.abs_N y) with (Z.to_N (Z.abs y)) by lia.
    rewrite add_cents by lia. f_equal.
    destruct (x <? 0) eqn:Sx; destruct (y <? 0) eqn:Sy; cbn [negb Bool.eqb];
      repeat match goal with
      | |- context [?a =? ?b] => destruct (Z.eqb_spec a b)
      | |- context [?a <? ?b] => destruct (Z.ltb_spec a b)
      end; try lia; f_equal; lia.
Qed.

(** C4, as stated, fails: the on-track comparison is made on
    binary64 floats.  For a target of 7.00 over ten days, one day in, the
    expected amount is exactly 0.70 and a goal holding 0.70 meets it on
    decimals; the float product is above [float(0.70)] and the flag is
    false. *)
Lemma on_track_compares_floats :
  let g := goal_of 700 70 in
  let total := days_between (deadline g) (created_at g) in
  let elapsed := days_between jan02 (created_at g) in
  exact_on_track (current_amount g) (target_amount g) elapsed total = true
  /\ flt (to_float (current_amount g))
         (fmul (to_float (target_amount g))
               (fmin (int_truediv elapsed total) one)) = true
  /\ get_is_on_track jan02 g = false.
Proof. vm_compute. repeat split; reflexivity. Qed.

(** C4 (amended). The views add nothing up themselves: every total is
    the result of the database aggregate, taken over as a decimal. The
    monthly-total actions return it as it is; the dashboard takes the
    balance as the decimal difference of the two totals, which is exact,
    and converts totals, balance, month figures and category values to
    floats when it builds the payload. The goal comparisons are made
    after conversion to float: the progress percentage compares the
    float of the decimal quotient with 100, and the on-track flag
    compares [float(current_amount)] with a float product (in the
    degenerate branch the float comparison agrees with the decimal
    one). *)
Theorem sums_decimal_comparisons_float db u today d :
  dashboard_get db u today = Ok d ->
  let ti := or_zero (Sum (i_amount <$> income_queryset db u)) in
  let te := or_zero (Sum (e_amount <$> expense_queryset db u)) in
  (total_income d = to_float ti
   /\ total_expenses d = to_float te
   /\ (exists bal, sub ti te = Ok bal /\ balance d = to_float bal)
   /\ (forall x y, ti = of_cents x -> te = of_cents y ->
         - 10 ^ 27 < x < 10 ^ 27 -> - 10 ^ 27 < y < 10 ^ 27 ->
         sub ti te = Ok (of_cents (x - y))
         /\ balance d = to_float (of_cents (x - y)))
   /\ month_income d = to_float (mt_total (income_monthly_total db u today))
   /\ month_expenses d = to_float (mt_total (expense_monthly_total db u today))
   /\ expenses_by_category d
      = (fun r => mkSlice (cr_label r) (to_float (cr_total r)) (cr_category r))
          <$> by_category db u)
  /\ (valid today -> 18 <= 12 * year today + month today ->
      monthly_data d = chart_points db u today
      /\ forall k day, 0 <= k <= 5 ->
           (year day, month day) = month_shift (year today) (month today) k ->
           mp_income (chart_point db u today k)
           = to_float (mt_total (income_monthly_total db u day))
           /\ mp_expenses (chart_point db u today k)
              = to_float (mt_total (expense_monthly_total db u day)))
  /\ (forall g q p,
        le_zero (target_amount g) = Ok false ->
        div (current_amount g) (target_amount g) = Ok q ->
        mul q (PyDecimal.of_int 100) = Ok p ->
        progress_percentage g
        = Ok (if flt hundred (to_float p)
              then PyInt 100 else PyFloat (to_float p)))
  /\ (forall g a b,
        current_amount g = of_cents a -> target_amount g = of_cents b ->
        0 <= a < 10 ^ 12 -> 0 <= b < 10 ^ 12 ->
        let total := days_between (deadline g) (created_at g) in
        let elapsed := days_between today (created_at g) in
        (total <= 0 -> get_is_on_track today g = (b <=? a))
        /\ (0 < total ->
            get_is_on_track today g
            = fge (to_float (of_cents a))
                  (fmul (to_float (of_cents b))
                        (fmin (int_truediv elapsed total) one)))).
Proof.
  intros Hd ti te.
  destruct (dashboard_get_inv db u today d Hd)
    as (bal & ms & gs & Hbal & Hms & Hgs & ->).
  unfold ti, te. rewrite !or_zero_Sum.
  cbn [total_income total_expenses balance month_income month_expenses
       expenses_by_category monthly_data].
  split.
  { split; [reflexivity|]. split; [reflexivity|].
    split; [exists bal; now split|].
    split.
    { intros x y Hx Hy Hxr Hyr. rewrite Hx, Hy in Hbal |- *.
      rewrite (sub_cents x y Hxr Hyr) in Hbal |- *. injection Hbal as <-.
      now split. }
    split; [unfold income_monthly_total; cbn [mt_total]; now rewrite or_zero_Sum|].
    split; [unfold expense_monthly_total; cbn [mt_total]; now rewrite or_zero_Sum|].
    unfold by_category. rewrite <- list_fmap_compose. now apply list_fmap_ext. }
  split.
  { intros Hv Hy. rewrite (monthly_series_spec db u today Hv Hy) in Hms.
    injection Hms as <-. split; [reflexivity|].
    intros k day Hk Hday. unfold chart_point, income_monthly_total,
      expense_monthly_total. cbn [mp_income mp_expenses mt_total].
    rewrite !or_zero_Sum, <- Hday. cbn [fst snd]. now split. }
  split.
  { intros g q p Hz Hq Hp. unfold progress_percentage.
    rewrite Hz. cbn [bind]. rewrite Hq. cbn [bind]. rewrite Hp. reflexivity. }
  intros g a b Hcur Htgt Ha Hb.
  unfold get_is_on_track. rewrite Hcur, Htgt.
  set (total := days_between (deadline g) (created_at g)).
  set (elapsed := days_between today (created_at g)). split.
  - intros Ht. replace (total <=? 0) with true by (symmetry; apply Z.leb_le; lia).
    unfold fge. apply to_float_cents_order; assumption.
  - intros Ht. replace (total <=? 0) with false by (symmetry; apply Z.leb_gt; lia).
    reflexivity.
Qed.

Lemma sums_decimal_comparisons_float_witness :
  exists d, dashboard_get sample_db 1 jan15 = Ok d
            /\ balance d = to_float (of_cents 547975).
Proof.
  assert (E : exists d, dashboard_get sample_db 1 jan15 = Ok d)
    by (vm_compute; eexists; reflexivity).
  destruct E as [d E]. exists d. split; [exact E|].
  destruct (sums_decimal_comparisons_float sample_db 1 jan15 d E)
    as ((_ & _ & _ & H & _) & _).
  assert (Hx : - 10 ^ 27 < 645050 < 10 ^ 27) by (vm_compute; split; congruence).
  assert (Hy : - 10 ^ 27 < 97075 < 10 ^ 27) by (vm_compute; split; congruence).
  exact (proj2 (H 645050 97075 eq_refl eq_refl Hx Hy)).
Defined.

End Exactness.

(** * Further properties of the code *)

Import Validators Registration Creation Ranges.

(** ** Dates: the order of the validators and the day arithmetic *)

Section DateOrder.

Lemma days_before_year_next y1 y2 :
  y1 < y2 ->
  days_before_year y1 + 365 + (if is_leap y1 then 1 else 0)
  <= days_before_year y2.
Proof.
  intros Hlt. unfold days_before_year, is_leap.
  destruct (y1 mod 4 =? 0) eqn:L4;
    destruct (y1 mod 100 =? 0) eqn:L100;
    destruct (y1 mod 400 =? 0) eqn:L400; cbn [andb orb negb];
    rewrite ?Z.eqb_eq, ?Z.eqb_neq in *;
    Z.div_mod_to_equations; lia.
Qed.

Lemma days_before_month_next y m1 m2 :
  1 <= m1 -> m1 < m2 -> m2 <= 12 ->
  days_before_month y m1 + days_in_month y m1 <= days_before_month y m2.
Proof.
  intros H1 Hlt H2.
  assert (Hc1 : m1 = 1 \/ m1 = 2 \/ m1 = 3 \/ m1 = 4 \/ m1 = 5 \/ m1 = 6 \/
                m1 = 7 \/ m1 = 8 \/ m1 = 9 \/ m1 = 10 \/ m1 = 11) by lia.
  assert (Hc2 : m2 = 2 \/ m2 = 3 \/ m2 = 4 \/ m2 = 5 \/ m2 = 6 \/
                m2 = 7 \/ m2 = 8 \/ m2 = 9 \/ m2 = 10 \/ m2 = 11 \/ m2 = 12) by lia.
  unfold days_before_month, days_in_month.
  destruct Hc1 as [->|[->|[->|[->|[->|[->|[->|[->|[->|[->| ->]]]]]]]]]];
    destruct Hc2 as [->|[->|[->|[->|[->|[->|[->|[->|[->|[->| ->]]]]]]]]]];
    try lia; destruct (is_leap y); cbn; lia.
Qed.

Lemma day_of_year_range y m d :
  1 <= m <= 12 -> 1 <= d <= days_in_month y m ->
  1 <= days_before_month y m + d <= 365 + (if is_leap y then 1 else 0).
Proof.
  intros Hm Hd.
  assert (Hc : m = 1 \/ m = 2 \/ m = 3 \/ m = 4 \/ m = 5 \/ m = 6 \/ m = 7 \/
               m = 8 \/ m = 9 \/ m = 10 \/ m = 11 \/ m = 12) by lia.
  unfold days_before_month, days_in_month in *.
  destruct Hc as [->|[->|[->|[->|[->|[->|[->|[->|[->|[->|[->| ->]]]]]]]]]]];
    destruct (is_leap y); cbn in *; lia.
Qed.

(** On valid dates the comparison of the tuples [(year, month, day)] is
    the comparison of the ordinals. *)
Lemma date_cmp_ordinal a b :
  valid a -> valid b -> date_cmp a b = (toordinal a ?= toordinal b).
Proof.
  intros (Hya & Hma & Hda) (Hyb & Hmb & Hdb).
  destruct a as [ya ma da], b as [yb mb db]. cbn [year month day] in *.
  unfold date_cmp, toordinal. cbn [year month day].
  pose proof (day_of_year_range ya ma da Hma Hda) as Ra.
  pose proof (day_of_year_range yb mb db Hmb Hdb) as Rb.
  destruct (Z.compare_spec ya yb) as [->|Hlt|Hgt].
  - destruct (Z.compare_spec ma mb) as [->|Hmlt|Hmgt].
    + destruct (Z.compare_spec da db) as [->|Hdlt|Hdgt]; symmetry.
      * apply Z.compare_eq_iff. reflexivity.
      * apply Z.compare_lt_iff. lia.
      * apply Z.compare_gt_iff. lia.
    + symmetry. apply Z.compare_lt_iff.
      pose proof (days_before_month_next yb ma mb ltac:(lia) Hmlt ltac:(lia)). lia.
    + symmetry. apply Z.compare_gt_iff.
      pose proof (days_before_month_next yb mb ma ltac:(lia) Hmgt ltac:(lia)). lia.
  - symmetry. apply Z.compare_lt_iff.
    pose proof (days_before_year_next ya yb Hlt). lia.
  - symmetry. apply Z.compare_gt_iff.
    pose proof (days_before_year_next yb ya Hgt). lia.
Qed.

Lemma date_gt_ordinal a b :
  valid a -> valid b -> date_gt a b = (toordinal b <? toordinal a).
Proof.
  intros Ha Hb. unfold date_gt. rewrite (date_cmp_ordinal a b Ha Hb).
  rewrite Z.ltb_antisym, Z.leb_compare.
  destruct (toordinal a ?= toordinal b); reflexivity.
Qed.

Lemma date_le_ordinal a b :
  valid a -> valid b -> date_le a b = (toordinal a <=? toordinal b).
Proof.
  intros Ha Hb. unfold date_le. rewrite (date_cmp_ordinal a b Ha Hb).
  rewrite Z.leb_compare.
  destruct (toordinal a ?= toordinal b); reflexivity.
Qed.

(** X1. On valid dates the two date validators split the calendar at
    today: [validate_date] accepts a date exactly when it is today or
    earlier, [validate_deadline] exactly when it is at least one day
    ahead, so every date passes exactly one of the two; and a goal whose
    deadline was accepted today has at least one day remaining. *)
Theorem date_validators_split today value :
  valid today -> valid value ->
  (validate_date today value = Valid value <-> days_between value today <= 0)
  /\ (validate_deadline today value = Valid value
      <-> 1 <= days_between value today)
  /\ (validate_date today value = Valid value
      <-> validate_deadline today value <> Valid value)
  /\ (forall g, deadline g = value ->
        validate_deadline today value = Valid value ->
        1 <= get_days_remaining today g).
Proof.
  intros Ht Hv.
  assert (Hd : validate_date today value = Valid value
               <-> days_between value today <= 0).
  { unfold validate_date, days_between. rewrite (date_gt_ordinal _ _ Hv Ht).
    destruct (Z.ltb_spec (toordinal today) (toordinal value)); split;
      intros H'; try discriminate; try reflexivity; lia. }
  assert (Hl : validate_deadline today value = Valid value
               <-> 1 <= days_between value today).
  { unfold validate_deadline, days_between. rewrite (date_le_ordinal _ _ Hv Ht).
    destruct (Z.leb_spec (toordinal value) (toordinal today)); split;
      intros H'; try discriminate; try reflexivity; lia. }
  split; [exact Hd|]. split; [exact Hl|]. split.
  - rewrite Hd, Hl. lia.
  - intros g <- Hok. unfold get_days_remaining. apply Hl, Hok.
Qed.

Lemma date_validators_split_witness :
  validate_date jan15 jan06 = Valid jan06
  /\ validate_deadline jan06 jan15 = Valid jan15.
Proof.
  assert (H6 : valid jan06) by (apply valid_validb; reflexivity).
  assert (H15 : valid jan15) by (apply valid_validb; reflexivity).
  split.
  - apply (proj1 (date_validators_split jan15 jan06 H15 H6)).
    vm_compute. discriminate.
  - apply (proj1 (proj2 (date_validators_split jan06 jan15 H6 H15))).
    vm_compute. discriminate.
Defined.

(** X2. A goal created today ([created_at] is set on creation) with a
    deadline that [validate_deadline] accepts and stored non-negative
    amounts is on track on its first day, whatever it holds, and its
    remaining days are the whole span, at least one. *)
Theorem new_goal_on_track g today a b :
  created_at g = today ->
  validate_deadline today (deadline g) = Valid (deadline g) ->
  current_amount g = of_cents a -> target_amount g = of_cents b ->
  0 <= a < 10 ^ 12 -> 0 <= b < 10 ^ 12 ->
  valid today -> valid (deadline g) ->
  get_is_on_track today g = true
  /\ get_days_remaining today g = days_between (deadline g) (created_at g)
  /\ 1 <= get_days_remaining today g.
Proof.
  intros Hc Hok Hcur Htgt Ha Hb Hv Hvd.
  assert (Htot : 1 <= days_between (deadline g) today).
  { unfold validate_deadline in Hok.
    rewrite (date_le_ordinal _ _ Hvd Hv) in Hok. unfold days_between.
    destruct (Z.leb_spec (toordinal (deadline g)) (toordinal today));
      [discriminate|lia]. }
  pose proof (days_between_range _ _ Hvd Hv) as Hr.
  split; [|split].
  - unfold get_is_on_track. rewrite Hc, Hcur, Htgt.
    replace (days_between (deadline g) today <=? 0) with false
      by (symmetry; apply Z.leb_gt; lia).
    replace (days_between today today) with 0 by (unfold days_between; lia).
    destruct (expected_nonpos b 0 (days_between (deadline g) today)
                Hb ltac:(lia) ltac:(lia)) as (x & -> & [Hx| ->]).
    + apply fge_nonneg_nonpos; [now apply to_float_cents_nonneg | exact Hx].
    + destruct (to_float_cents_nonneg a Ha) as [->|[->|(m & e & ->)]];
        reflexivity.
  - unfold get_days_remaining. rewrite Hc. reflexivity.
  - unfold get_days_remaining. exact Htot.
Qed.

Lemma new_goal_on_track_witness :
  get_is_on_track (mkdate 2024 1 1) fresh_goal = true
  /\ get_days_remaining (mkdate 2024 1 1) fresh_goal = 10.
Proof.
  assert (Hv : valid (mkdate 2024 1 1)) by (apply valid_validb; reflexivity).
  assert (Hd : valid (deadline fresh_goal)) by (apply valid_validb; reflexivity).
  assert (Ha : 0 <= 0 < 10 ^ 12) by (vm_compute; split; congruence).
  assert (Hb : 0 <= 100000 < 10 ^ 12) by (vm_compute; split; congruence).
  destruct (new_goal_on_track fresh_goal (mkdate 2024 1 1) 0 100000
              eq_refl eq_refl eq_refl eq_refl Ha Hb Hv Hd) as (H1 & H2 & _).
  split; [exact H1|]. rewrite H2. reflexivity.
Defined.

End DateOrder.

(** ** The dashboard never fails on stored data *)

Section DashboardTotal.

Lemma progress_percentage_total g :
  stored_goal g -> exists n, progress_percentage g = Ok n.
Proof.
  intros (a & b & Hcur & Htgt & Ha & Hb).
  destruct (Z_le_gt_dec b 0) as [Hb0|Hb0].
  - exists (PyInt 0). unfold progress_percentage.
    rewrite Htgt, le_zero_cents.
    replace (b <=? 0) with true by (symmetry; apply Z.leb_le; lia).
    reflexivity.
  - destruct (Z.eq_dec a 0) as [->|Ha0].
    + eexists. apply (progress_zero g b Hcur Htgt). lia.
    + destruct (progress_positive g a b Hcur Htgt ltac:(lia) ltac:(lia))
        as (m & e & _ & Heq & _).
      eexists. exact Heq.
Qed.

Lemma mapM_total {A B} (f : A -> res B) (l : list A) :
  Forall (fun a => exists b, f a = Ok b) l ->
  exists bs, mapM f l = Ok bs /\ Forall2 (fun a b => f a = Ok b) l bs.
Proof.
  induction 1 as [|a l (b & Hb) _ (bs & Hbs & IH)].
  - exists []. split; [reflexivity|constructor].
  - exists (b :: bs). cbn [mapM]. rewrite Hb. cbn [bind]. rewrite Hbs.
    split; [reflexivity|]. constructor; assumption.
Qed.

(** X3. The dashboard is computed without an exception for every user
    whose goals hold stored amounts (two decimal places, twelve digits,
    current amount not negative) and whose income and expense sums stay
    below 10^27 cents: the response holds six chart points and one goal
    view per goal of the user, in the order of the queryset, each with
    the fields of its goal and the three derived fields. *)
Theorem dashboard_get_succeeds db u today :
  valid today -> 18 <= 12 * year today + month today ->
  Forall stored_goal (goal_queryset db u) ->
  - 10 ^ 27 < sum_cents (i_amount <$> income_queryset db u) < 10 ^ 27 ->
  - 10 ^ 27 < sum_cents (e_amount <$> expense_queryset db u) < 10 ^ 27 ->
  exists d,
    dashboard_get db u today = Ok d
    /\ length (monthly_data d) = 6%nat
    /\ Forall2 (fun g v =>
         v_id v = g_id g /\ v_name v = g_name g
         /\ v_target_amount v = target_amount g
         /\ v_current_amount v = current_amount g
         /\ v_deadline v = deadline g
         /\ progress_percentage g = Ok (v_progress_percentage v)
         /\ v_is_on_track v = get_is_on_track today g
         /\ v_days_remaining v = get_days_remaining today g)
       (goal_queryset db u) (savings_summary d).
Proof.
  intros Hv Hy Hg Hti Hte.
  assert (Hgs : Forall (fun g => exists v, serialize_goal today g = Ok v)
                  (goal_queryset db u)).
  { eapply Forall_impl; [exact Hg|]. intros g Hs.
    destruct (progress_percentage_total g Hs) as (n & Hn).
    unfold serialize_goal. rewrite Hn. cbn [bind]. eexists. reflexivity. }
  destruct (mapM_total _ _ Hgs) as (vs & Hvs & Hall).
  unfold dashboard_get.
  rewrite !or_zero_Sum, income_filter_month, expense_filter_month.
  fold (income_queryset db u) (expense_queryset db u) (goal_queryset db u).
  rewrite (sub_cents _ _ Hti Hte). cbn [bind].
  rewrite (monthly_series_spec db u today Hv Hy). cbn [bind].
  rewrite Hvs. cbn [bind].
  eexists. split; [reflexivity|].
  cbn [monthly_data savings_summary]. split; [reflexivity|].
  eapply Forall2_impl; [exact Hall|].
  intros g v Hs. unfold serialize_goal in Hs.
  destruct (progress_percentage g) as [n|err]; cbn [bind] in Hs;
    [|discriminate].
  injection Hs as <-. cbn. repeat split; reflexivity.
Qed.

Lemma dashboard_get_succeeds_witness :
  exists d, dashboard_get sample_db 1 jan15 = Ok d
            /\ length (monthly_data d) = 6%nat
            /\ length (savings_summary d) = 1%nat.
Proof.
  assert (Hv : valid jan15) by (apply valid_validb; reflexivity).
  assert (Hy : 18 <= 12 * year jan15 + month jan15)
    by (vm_compute; discriminate).
  assert (Hg : Forall stored_goal (goal_queryset sample_db 1)).
  { repeat constructor. exists 50000, 100000.
    repeat split; try reflexivity; vm_compute; congruence. }
  destruct (dashboard_get_succeeds sample_db 1 jan15 Hv Hy Hg)
    as (d & Hd & H6 & Hall);
    [vm_compute; split; congruence | vm_compute; split; congruence |].
  exists d. split; [exact Hd|]. split; [exact H6|].
  apply Forall2_length in Hall. rewrite <- Hall. reflexivity.
Defined.

End DashboardTotal.

(** ** Order between the figures of the dashboard *)

Section DashboardOrder.

Lemma sum_cents_filter_le {A} (amt : A -> Z) (P : A -> Prop)
    `{!forall x, Decision (P x)} (l : list A) :
  (forall r, r ∈ l -> 0 <= amt r) ->
  0 <= sum_cents (amt <$> filter P l) <= sum_cents (amt <$> l).
Proof.
  induction l as [|r l IH]; intros Hpos; [cbn; lia|].
  assert (Hr : 0 <= amt r) by (apply Hpos; left).
  assert (Hl : forall r', r' ∈ l -> 0 <= amt r')
    by (intros r' Hin; apply Hpos; right; exact Hin).
  specialize (IH Hl). rewrite filter_cons.
  destruct (decide (P r)); cbn [fmap list_fmap sum_cents foldr] in *;
    unfold sum_cents in *; lia.
Qed.

Lemma fle_cents a b :
  0 <= a -> a <= b -> b < 10 ^ 12 ->
  fle (to_float (of_cents a)) (to_float (of_cents b)) = true.
Proof.
  intros Ha Hab Hb. rewrite to_float_cents_order by lia.
  apply Z.leb_le, Hab.
Qed.

(** X4. With no negative amount among the user's rows and totals below
    10^12 cents, no figure of the dashboard exceeds the total it is part
    of, also after the conversion to floats: the totals of the current
    month, of every chart month and of every category are at most the
    all-time total of their kind. *)
Theorem dashboard_parts_within_totals db u today d :
  dashboard_get db u today = Ok d ->
  (forall r, r ∈ income_queryset db u -> 0 <= i_amount r) ->
  (forall r, r ∈ expense_queryset db u -> 0 <= e_amount r) ->
  sum_cents (i_amount <$> income_queryset db u) < 10 ^ 12 ->
  sum_cents (e_amount <$> expense_queryset db u) < 10 ^ 12 ->
  fle (month_income d) (total_income d) = true
  /\ fle (month_expenses d) (total_expenses d) = true
  /\ (valid today -> 18 <= 12 * year today + month today ->
      forall p, p ∈ monthly_data d ->
        fle (mp_income p) (total_income d) = true
        /\ fle (mp_expenses p) (total_expenses d) = true)
  /\ (forall s, s ∈ expenses_by_category d ->
        fle (cs_value s) (total_expenses d) = true).
Proof.
  intros Hd Hi He Hti Hte.
  destruct (dashboard_get_inv db u today d Hd)
    as (bal & ms & gs & _ & Hms & _ & ->).
  cbn [total_income total_expenses month_income month_expenses
       expenses_by_category monthly_data].
  assert (Hinc : forall y m,
    fle (to_float (of_cents (sum_cents (i_amount <$>
           income_in_month y m (income_queryset db u)))))
        (to_float (of_cents (sum_cents (i_amount <$> income_queryset db u))))
    = true).
  { intros y m. unfold income_in_month.
    pose proof (sum_cents_filter_le i_amount
      (fun r => year (i_date r) = y /\ month (i_date r) = m)
      (income_queryset db u) Hi).
    apply fle_cents; lia. }
  assert (Hexp : forall y m,
    fle (to_float (of_cents (sum_cents (e_amount <$>
           expense_in_month y m (expense_queryset db u)))))
        (to_float (of_cents (sum_cents (e_amount <$> expense_queryset db u))))
    = true).
  { intros y m. unfold expense_in_month.
    pose proof (sum_cents_filter_le e_amount
      (fun r => year (e_date r) = y /\ month (e_date r) = m)
      (expense_queryset db u) He).
    apply fle_cents; lia. }
  split; [apply Hinc|]. split; [apply Hexp|]. split.
  - intros Hv Hy p Hp.
    rewrite (monthly_series_spec db u today Hv Hy) in Hms.
    injection Hms as <-. unfold chart_points in Hp.
    apply list_elem_of_fmap in Hp as (k & -> & _).
    unfold chart_point. cbn [mp_income mp_expenses]. split; [apply Hinc|apply Hexp].
  - intros s Hs. apply list_elem_of_fmap in Hs as ([c t] & -> & Hin).
    cbn [cs_value fst snd].
    apply elem_of_category_totals in Hin as (_ & ->).
    pose proof (sum_cents_filter_le e_amount (fun e => e_category e = c)
      (expense_queryset db u) He) as Hle.
    unfold of_category. apply fle_cents; lia.
Qed.

Lemma dashboard_parts_within_totals_witness :
  exists d, dashboard_get sample_db 1 jan15 = Ok d
            /\ fle (month_income d) (total_income d) = true.
Proof.
  assert (E : exists d, dashboard_get sample_db 1 jan15 = Ok d)
    by (vm_compute; eexists; reflexivity).
  destruct E as [d E]. exists d. split; [exact E|].
  assert (Hi : forall r, r ∈ income_queryset sample_db 1 -> 0 <= i_amount r).
  { intros r Hr. vm_compute in Hr.
    repeat (apply elem_of_cons in Hr as [->|Hr]; [vm_compute; congruence|]).
    apply elem_of_nil in Hr. destruct Hr. }
  assert (He : forall r, r ∈ expense_queryset sample_db 1 -> 0 <= e_amount r).
  { intros r Hr. vm_compute in Hr.
    repeat (apply elem_of_cons in Hr as [->|Hr]; [vm_compute; congruence|]).
    apply elem_of_nil in Hr. destruct Hr. }
  assert (Hti : sum_cents (i_amount <$> income_queryset sample_db 1) < 10 ^ 12)
    by (vm_compute; reflexivity).
  assert (Hte : sum_cents (e_amount <$> expense_queryset sample_db 1) < 10 ^ 12)
    by (vm_compute; reflexivity).
  exact (proj1 (dashboard_parts_within_totals sample_db 1 jan15 d E Hi He Hti Hte)).
Defined.

Lemma slices_sorted (l : list (string * Z)) :
  StronglySorted total_desc l ->
  (forall c t, (c, t) ∈ l -> 0 <= t < 10 ^ 12) ->
  StronglySorted (fun s t => fle (cs_value t) (cs_value s) = true)
    ((fun item => mkSlice (category_label item.1)
                    (to_float (of_cents item.2)) item.1) <$> l).
Proof.
  induction 1 as [|[c t] rest Hs IH Hall]; intros Hrange; [constructor|].
  cbn [fmap list_fmap]. constructor.
  - apply IH. intros c' t' Hin. apply (Hrange c' t'). right. exact Hin.
  - apply Forall_fmap. apply Forall_forall. intros [c' t'] Hin.
    cbn [cs_value fst snd compose].
    rewrite Forall_forall in Hall. pose proof (Hall _ Hin) as Hle.
    unfold total_desc in Hle. cbn [snd] in Hle.
    pose proof (Hrange c t ltac:(left)).
    pose proof (Hrange c' t' ltac:(right; exact Hin)).
    apply fle_cents; lia.
Qed.

(** X5. The slices of the category chart are in descending order of
    their float values, and no category occurs twice. *)
Theorem dashboard_slices_sorted db u today d :
  dashboard_get db u today = Ok d ->
  (forall r, r ∈ expense_queryset db u -> 0 <= e_amount r) ->
  sum_cents (e_amount <$> expense_queryset db u) < 10 ^ 12 ->
  StronglySorted (fun s t => fle (cs_value t) (cs_value s) = true)
                 (expenses_by_category d)
  /\ NoDup (cs_category <$> expenses_by_category d).
Proof.
  intros Hd He Hte.
  destruct (dashboard_get_inv db u today d Hd)
    as (bal & ms & gs & _ & _ & _ & ->).
  cbn [expenses_by_category].
  set (l := expense_queryset db u) in *.
  assert (Hrange : forall c t, (c, t) ∈ category_totals l -> 0 <= t < 10 ^ 12).
  { intros c t Hin. apply elem_of_category_totals in Hin as (_ & ->).
    pose proof (sum_cents_filter_le e_amount (fun e => e_category e = c) l He).
    unfold of_category. lia. }
  split.
  - apply slices_sorted; [apply category_totals_sorted|exact Hrange].
  - rewrite <- list_fmap_compose.
    pose proof (category_totals_nodup l) as Hn.
    erewrite list_fmap_ext; [exact Hn|].
    intros i [c t] _. reflexivity.
Qed.

Lemma dashboard_slices_sorted_witness :
  exists d, dashboard_get sample_db 1 jan15 = Ok d
            /\ NoDup (cs_category <$> expenses_by_category d).
Proof.
  assert (E : exists d, dashboard_get sample_db 1 jan15 = Ok d)
    by (vm_compute; eexists; reflexivity).
  destruct E as [d E]. exists d. split; [exact E|].
  assert (He : forall r, r ∈ expense_queryset sample_db 1 -> 0 <= e_amount r).
  { intros r Hr. vm_compute in Hr.
    repeat (apply elem_of_cons in Hr as [->|Hr]; [vm_compute; congruence|]).
    apply elem_of_nil in Hr. destruct Hr. }
  assert (Hte : sum_cents (e_amount <$> expense_queryset sample_db 1) < 10 ^ 12)
    by (vm_compute; reflexivity).
  exact (proj2 (dashboard_slices_sorted sample_db 1 jan15 d E He Hte)).
Defined.

End DashboardOrder.

(** ** Month labels *)

Section Labels.

(** The abbreviations of two different months differ within their three
    letters, whatever follows them; the month names start with them. *)
Lemma month_abbr_prefix_inj m1 m2 (s1 s2 : string) :
  1 <= m1 <= 12 -> 1 <= m2 <= 12 ->
  (month_abbr m1 ++ s1 = month_abbr m2 ++ s2)%string -> m1 = m2.
Proof.
  intros H1 H2.
  assert (Hc1 : m1 = 1 \/ m1 = 2 \/ m1 = 3 \/ m1 = 4 \/ m1 = 5 \/ m1 = 6 \/
                m1 = 7 \/ m1 = 8 \/ m1 = 9 \/ m1 = 10 \/ m1 = 11 \/ m1 = 12)
    by lia.
  assert (Hc2 : m2 = 1 \/ m2 = 2 \/ m2 = 3 \/ m2 = 4 \/ m2 = 5 \/ m2 = 6 \/
                m2 = 7 \/ m2 = 8 \/ m2 = 9 \/ m2 = 10 \/ m2 = 11 \/ m2 = 12)
    by lia.
  destruct Hc1 as [->|[->|[->|[->|[->|[->|[->|[->|[->|[->|[->| ->]]]]]]]]]]];
    destruct Hc2 as [->|[->|[->|[->|[->|[->|[->|[->|[->|[->|[->| ->]]]]]]]]]]];
    intros H; try reflexivity; cbn in H; discriminate H.
Qed.

Lemma month_name_prefix_inj m1 m2 (s1 s2 : string) :
  1 <= m1 <= 12 -> 1 <= m2 <= 12 ->
  (month_name m1 ++ s1 = month_name m2 ++ s2)%string -> m1 = m2.
Proof.
  intros H1 H2.
  assert (Hc1 : m1 = 1 \/ m1 = 2 \/ m1 = 3 \/ m1 = 4 \/ m1 = 5 \/ m1 = 6 \/
                m1 = 7 \/ m1 = 8 \/ m1 = 9 \/ m1 = 10 \/ m1 = 11 \/ m1 = 12)
    by lia.
  assert (Hc2 : m2 = 1 \/ m2 = 2 \/ m2 = 3 \/ m2 = 4 \/ m2 = 5 \/ m2 = 6 \/
                m2 = 7 \/ m2 = 8 \/ m2 = 9 \/ m2 = 10 \/ m2 = 11 \/ m2 = 12)
    by lia.
  destruct Hc1 as [->|[->|[->|[->|[->|[->|[->|[->|[->|[->|[->| ->]]]]]]]]]]];
    destruct Hc2 as [->|[->|[->|[->|[->|[->|[->|[->|[->|[->|[->| ->]]]]]]]]]]];
    intros H; try reflexivity; cbn in H; discriminate H.
Qed.

Lemma year_digits_inj y1 y2 :
  0 <= y1 -> 0 <= y2 -> year_digits y1 = year_digits y2 -> y1 = y2.
Proof.
  intros H1 H2 H. unfold year_digits in H.
  assert (Hn : forall n, N.to_uint n <> Decimal.Nil).
  { intros [|p] E; [discriminate|].
    apply (f_equal N.of_uint) in E.
    rewrite DecimalN.Unsigned.of_to in E. discriminate. }
  apply (f_equal NilZero.uint_of_string) in H.
  rewrite !NilZero.usu in H by apply Hn.
  injection H as H. apply DecimalN.Unsigned.to_uint_inj in H. lia.
Qed.

Lemma string_app_inv_head (p s1 s2 : string) :
  (p ++ s1 = p ++ s2)%string -> s1 = s2.
Proof.
  induction p as [|c p IH]; cbn; intros H; [exact H|].
  injection H as H. apply IH, H.
Qed.

(** X6. The six chart points carry six different labels. *)
Theorem chart_labels_distinct db u today ms :
  valid today -> 18 <= 12 * year today + month today ->
  monthly_series db u today = Ok ms ->
  NoDup (mp_month <$> ms).
Proof.
  intros Hv Hy Hms.
  rewrite (monthly_series_spec db u today Hv Hy) in Hms.
  injection Hms as <-. unfold chart_points.
  rewrite <- list_fmap_compose.
  apply NoDup_fmap_2_strong.
  - intros k1 k2 Hk1 Hk2 Hlab.
    unfold compose, chart_point in Hlab. cbn [mp_month] in Hlab.
    apply month_abbr_prefix_inj in Hlab; try apply month_shift_range.
    assert (R1 : 0 <= k1 <= 5).
    { repeat (apply elem_of_cons in Hk1 as [->|Hk1]; [lia|]).
      apply elem_of_nil in Hk1. destruct Hk1. }
    assert (R2 : 0 <= k2 <= 5).
    { repeat (apply elem_of_cons in Hk2 as [->|Hk2]; [lia|]).
      apply elem_of_nil in Hk2. destruct Hk2. }
    unfold month_shift in Hlab. cbn [fst snd] in Hlab.
    Z.div_mod_to_equations. lia.
  - repeat constructor; rewrite ?elem_of_cons, ?elem_of_nil; lia.
Qed.

Lemma chart_labels_distinct_witness :
  exists ms, monthly_series sample_db 1 jan15 = Ok ms
             /\ NoDup (mp_month <$> ms).
Proof.
  assert (Hv : valid jan15) by (apply valid_validb; reflexivity).
  assert (Hy : 18 <= 12 * year jan15 + month jan15)
    by (vm_compute; discriminate).
  assert (E : exists ms, monthly_series sample_db 1 jan15 = Ok ms)
    by (vm_compute; eexists; reflexivity).
  destruct E as [ms E]. exists ms. split; [exact E|].
  exact (chart_labels_distinct sample_db 1 jan15 ms Hv Hy E).
Defined.

(** X7. The label of the monthly totals names the month: on valid dates
    two [%B %Y] labels are equal exactly when month and year are, and so
    are two [%b %Y] labels of the chart. *)
Theorem month_label_identifies_month d1 d2 :
  valid d1 -> valid d2 ->
  (strftime_B_Y d1 = strftime_B_Y d2
   <-> year d1 = year d2 /\ month d1 = month d2)
  /\ (strftime_b_Y d1 = strftime_b_Y d2
      <-> year d1 = year d2 /\ month d1 = month d2)
  /\ (forall db u,
        mt_month (income_monthly_total db u d1)
        = mt_month (expense_monthly_total db u d2)
        <-> year d1 = year d2 /\ month d1 = month d2).
Proof.
  intros (Hy1 & Hm1 & _) (Hy2 & Hm2 & _). unfold MINYEAR in *.
  assert (HB : strftime_B_Y d1 = strftime_B_Y d2
               <-> year d1 = year d2 /\ month d1 = month d2).
  { unfold strftime_B_Y. split.
    - intros H. pose proof (month_name_prefix_inj _ _ _ _ Hm1 Hm2 H) as Hm.
      rewrite Hm in H. apply string_app_inv_head in H.
      apply (string_app_inv_head " ") in H.
      apply year_digits_inj in H; [tauto|lia|lia].
    - intros [-> ->]. reflexivity. }
  split; [exact HB|]. split; [|intros db u; exact HB].
  unfold strftime_b_Y. split.
  - intros H. pose proof (month_abbr_prefix_inj _ _ _ _ Hm1 Hm2 H) as Hm.
    rewrite Hm in H. apply string_app_inv_head in H.
    apply (string_app_inv_head " ") in H.
    apply year_digits_inj in H; [tauto|lia|lia].
  - intros [-> ->]. reflexivity.
Qed.

Lemma month_label_identifies_month_witness :
  strftime_B_Y jan15 = strftime_B_Y jan06
  /\ strftime_B_Y jan15 <> strftime_B_Y (mkdate 2023 1 15).
Proof.
  assert (H15 : valid jan15) by (apply valid_validb; reflexivity).
  assert (H06 : valid jan06) by (apply valid_validb; reflexivity).
  assert (H23 : valid (mkdate 2023 1 15)) by (apply valid_validb; reflexivity).
  split.
  - apply (proj1 (month_label_identifies_month jan15 jan06 H15 H06)).
    split; reflexivity.
  - intros H.
    apply (proj1 (month_label_identifies_month jan15 (mkdate 2023 1 15) H15 H23))
      in H.
    destruct H as [H _]. vm_compute in H. discriminate H.
Defined.

End Labels.

(** ** What add-funds leaves alone *)

Section AddFundsFrame.

Lemma get_object_None db u pk :
  get_object db u pk = None
  <-> forall g, g ∈ goals db -> g_id g = pk -> g_user g <> u.
Proof.
  unfold get_object, goal_queryset. rewrite head_None. split.
  - intros Hnil g Hin Hid Hu.
    assert (Hg : g ∈ filter (fun g => g_id g = pk)
                       (filter (fun r => g_user r = u) (goals db))).
    { apply list_elem_of_filter. split; [exact Hid|].
      apply list_elem_of_filter. split; assumption. }
    rewrite Hnil in Hg. apply elem_of_nil in Hg. exact Hg.
  - intros Hno.
    destruct (filter _ _) as [|g l] eqn:E; [reflexivity|exfalso].
    assert (Hg : g ∈ filter (fun g => g_id g = pk)
                       (filter (fun r => g_user r = u) (goals db)))
      by (rewrite E; left).
    apply list_elem_of_filter in Hg as [Hid Hg].
    apply list_elem_of_filter in Hg as [Hu Hg].
    exact (Hno g Hg Hid Hu).
Qed.

Lemma get_object_elem db u pk g :
  get_object db u pk = Some g -> g ∈ goals db.
Proof.
  unfold get_object, goal_queryset. intros H.
  apply head_Some_elem_of in H.
  apply list_elem_of_filter in H as [_ H].
  apply list_elem_of_filter in H as [_ H]. exact H.
Qed.

(** X8. Add-funds answers 404 exactly when the requesting user has no
    goal with the given key: the goal of another user, or no goal at
    all, gives 404 whatever the amount is, and the store is unchanged. *)
Theorem add_funds_not_found db u today pk amount :
  ((add_funds db u today pk amount).2 = Ok Response404
   <-> forall g, g ∈ goals db -> g_id g = pk -> g_user g <> u)
  /\ ((add_funds db u today pk amount).2 = Ok Response404 ->
      (add_funds db u today pk amount).1 = db).
Proof.
  rewrite <- get_object_None. unfold add_funds.
  destruct (get_object db u pk) as [goal|] eqn:Hg.
  - assert (Hne : (Some goal = None) <-> False) by (split; [discriminate|tauto]).
    destruct (negb (py_truthy amount)); cbn [fst snd].
    + split; [split; [discriminate|discriminate]|reflexivity].
    + destruct (positive_amount amount) as [d|e]; cbn [fst snd].
      * destruct (add (current_amount goal) d) as [c|e]; cbn [fst snd].
        -- cbv zeta.
           destruct (save (set_current_amount goal c) db) as [db''|e];
             cbn [fst snd]; [|split; [split; discriminate|reflexivity]].
           destruct (serialize_goal today (set_current_amount goal c));
             cbn [bind]; split;
             try (split; discriminate); discriminate.
        -- split; [split; discriminate|reflexivity].
      * split; [split; discriminate|reflexivity].
  - cbn [fst snd]. split; [split; reflexivity|reflexivity].
Qed.

Lemma NoDup_fmap_elem_inj {A B} (f : A -> B) (l : list A) x y :
  NoDup (f <$> l) -> x ∈ l -> y ∈ l -> f x = f y -> x = y.
Proof.
  induction l as [|a l IH]; intros Hn Hx Hy Hf.
  - apply elem_of_nil in Hx. destruct Hx.
  - cbn [fmap list_fmap] in Hn. apply NoDup_cons in Hn as [Ha Hn].
    apply elem_of_cons in Hx as [->|Hx]; apply elem_of_cons in Hy as [->|Hy].
    + reflexivity.
    + exfalso. apply Ha. rewrite Hf. apply list_elem_of_fmap_2, Hy.
    + exfalso. apply Ha. rewrite <- Hf. apply list_elem_of_fmap_2, Hx.
    + apply IH; assumption.
Qed.

Lemma filter_user_frame (u v : user_id) (l l' : list SavingsGoal) :
  v <> u ->
  Forall2 (fun g g' => g' = g \/ (g_user g = u /\ g_user g' = u)) l l' ->
  filter (fun r => g_user r = v) l' = filter (fun r => g_user r = v) l.
Proof.
  intros Hv. induction 1 as [|g g' l l' Hg _ IH]; [reflexivity|].
  rewrite !filter_cons, IH.
  destruct Hg as [->|[Hu Hu']]; [reflexivity|].
  destruct (decide (g_user g' = v)); destruct (decide (g_user g = v));
    congruence.
Qed.

(** X9. With unique goal keys, add-funds changes at most one thing in
    the store, the current amount of the requesting user's goal with the
    given key: the incomes, the expenses and every other goal are as
    before, so that every read of every other user gives what it gave
    before. *)
Theorem add_funds_frame db u today pk amount :
  NoDup (g_id <$> goals db) ->
  let db' := (add_funds db u today pk amount).1 in
  incomes db' = incomes db /\ expenses db' = expenses db
  /\ Forall2 (fun g g' =>
       g' = g \/ (g_id g = pk /\ g_user g = u
                  /\ exists c, g' = set_current_amount g c))
       (goals db) (goals db')
  /\ (forall v, v <> u -> same_rows_of v db db')
  /\ (forall v t, v <> u -> dashboard_get db v t = dashboard_get db' v t).
Proof.
  intros Hn db'.
  assert (Hsame : Forall2 (fun g g' : SavingsGoal =>
            g' = g \/ (g_id g = pk /\ g_user g = u
                       /\ exists c, g' = set_current_amount g c))
            (goals db) (goals db)).
  { apply Forall_Forall2_diag, Forall_forall. intros g _. left. reflexivity. }
  assert (Hmain : incomes db' = incomes db /\ expenses db' = expenses db
    /\ Forall2 (fun g g' =>
         g' = g \/ (g_id g = pk /\ g_user g = u
                    /\ exists c, g' = set_current_amount g c))
         (goals db) (goals db')).
  { unfold db', add_funds.
    destruct (get_object db u pk) as [goal|] eqn:Hg; [|cbn; auto].
    destruct (negb (py_truthy amount)); [cbn; auto|].
    destruct (positive_amount amount) as [d|e]; [|cbn; auto].
    destruct (add (current_amount goal) d) as [c|e]; [|cbn; auto].
    cbv zeta. unfold save. cbn [current_amount set_current_amount].
    destruct (quantize_column c) as [q|e]; cbn [bind]; [|cbn; auto].
    cbn [fst]. unfold update_row. cbn [incomes expenses goals].
    split; [reflexivity|]. split; [reflexivity|].
    apply Forall2_fmap_r, Forall_Forall2_diag, Forall_forall.
    intros r Hr. unfold compose. cbn [set_current_amount g_id].
    destruct (get_object_owner _ _ _ _ Hg) as [Hid Hu].
    destruct (Z.eqb_spec (g_id r) (g_id goal)) as [E|E]; [|left; reflexivity].
    assert (r = goal).
    { apply (NoDup_fmap_elem_inj g_id (goals db)); try assumption.
      apply (get_object_elem _ _ _ _ Hg). }
    subst r. right. repeat split; try assumption. exists q. reflexivity. }
  destruct Hmain as (Hi & He & Hall).
  split; [exact Hi|]. split; [exact He|]. split; [exact Hall|].
  assert (Hrows : forall v, v <> u -> same_rows_of v db db').
  { intros v Hv. unfold same_rows_of, income_queryset, expense_queryset,
      goal_queryset. rewrite Hi, He. split; [reflexivity|].
    split; [reflexivity|]. symmetry. apply (filter_user_frame u); [exact Hv|].
    eapply Forall2_impl; [exact Hall|].
    intros g g' [->|(_ & Hu & c & ->)]; [left; reflexivity|].
    right. split; [exact Hu|]. exact Hu. }
  split; [exact Hrows|].
  intros v t Hv. apply dashboard_get_same_rows, Hrows, Hv.
Qed.

Lemma add_funds_frame_witness :
  goal_queryset (add_funds sample_db 1 jan15 7 (PyStr "25.00")).1 2
  = goal_queryset sample_db 2.
Proof.
  assert (Hn : NoDup (g_id <$> goals sample_db)).
  { cbn. repeat constructor; rewrite ?elem_of_cons, ?elem_of_nil; lia. }
  destruct (add_funds_frame sample_db 1 jan15 7 (PyStr "25.00") Hn)
    as (_ & _ & _ & Hrows & _).
  destruct (Hrows 2 ltac:(lia)) as (_ & _ & Hg). symmetry. exact Hg.
Defined.

End AddFundsFrame.

(** ** Creating rows *)

Section Create.

Lemma sum_cents_snoc (l : list Z) (a : Z) :
  sum_cents (l ++ [a])%list = sum_cents l + a.
Proof. rewrite sum_cents_app. cbn. lia. Qed.

(** X10. A created income belongs to the requesting user: it is added to
    that user's rows and to no one else's, the all-time sum of the user
    grows by exactly its amount, the total of the current month grows by
    it exactly when the row is dated in that month, and the expenses, the
    goals and every read of every other user stay as they were. *)
Theorem perform_create_income_effect db u source amount d today :
  let db' := perform_create_income db u source amount d in
  let row := mkIncome u source amount d in
  income_queryset db' u = (income_queryset db u ++ [row])%list
  /\ sum_cents (i_amount <$> income_queryset db' u)
     = sum_cents (i_amount <$> income_queryset db u) + amount
  /\ mt_total (income_monthly_total db' u today)
     = of_cents
         (sum_cents (i_amount <$>
            income_in_month (year today) (month today) (income_queryset db u))
          + (if bool_decide (year d = year today /\ month d = month today)
             then amount else 0))
  /\ expenses db' = expenses db /\ goals db' = goals db
  /\ (forall v, v <> u -> same_rows_of v db db')
  /\ (forall v t, v <> u -> dashboard_get db v t = dashboard_get db' v t).
Proof.
  intros db' row.
  assert (Hq : income_queryset db' u = (income_queryset db u ++ [row])%list).
  { unfold income_queryset, db', perform_create_income. cbn [incomes].
    rewrite filter_app, filter_cons, filter_nil.
    case_decide as Hn; [reflexivity|]. exfalso. apply Hn. reflexivity. }
  assert (Hrows : forall v, v <> u -> same_rows_of v db db').
  { intros v Hv. unfold same_rows_of, income_queryset, expense_queryset,
      goal_queryset, db', perform_create_income.
    cbn [incomes expenses goals].
    rewrite filter_app, filter_cons, filter_nil.
    case_decide as Hu.
    - exfalso. apply Hv. symmetry. exact Hu.
    - rewrite app_nil_r. repeat split; reflexivity. }
  split; [exact Hq|]. split.
  { rewrite Hq, fmap_app. change (i_amount <$> [row]) with [amount].
    apply sum_cents_snoc. }
  split.
  { unfold income_monthly_total. cbn [mt_total]. rewrite or_zero_Sum, Hq.
    unfold income_in_month. rewrite filter_app, filter_cons, filter_nil.
    cbn [i_date row].
    case_decide as Hm.
    - rewrite bool_decide_eq_true_2 by exact Hm.
      rewrite fmap_app. change (i_amount <$> [row]) with [amount].
      rewrite sum_cents_snoc. reflexivity.
    - rewrite bool_decide_eq_false_2 by exact Hm.
      rewrite app_nil_r, Z.add_0_r. reflexivity. }
  split; [reflexivity|]. split; [reflexivity|]. split; [exact Hrows|].
  intros v t Hv. apply dashboard_get_same_rows, Hrows, Hv.
Qed.

Lemma of_category_snoc c l e :
  of_category c (l ++ [e])%list
  = (of_category c l ++ (if decide (e_category e = c) then [e] else []))%list.
Proof.
  unfold of_category. rewrite filter_app, filter_cons, filter_nil.
  destruct (decide (e_category e = c)); reflexivity.
Qed.

(** X11. A created expense belongs to the requesting user and counts in
    one category only, the one sent with it or [other] when none was
    sent: in the user's breakdown the row of that category holds the
    former total plus the amount (the amount alone for a new category),
    under its label, every other row is as before, and no other user's
    rows change. *)
Theorem perform_create_expense_effect db u title category amount d :
  let db' := perform_create_expense db u title category amount d in
  let cat := default "other" category in
  let l := expense_queryset db u in
  expense_queryset db' u = (l ++ [mkExpense u title cat amount d])%list
  /\ (category = None -> cat = "other" /\ category_label cat = "Other")
  /\ (forall r, r ∈ by_category db' u <->
        (r = mkCategoryRow cat (category_label cat)
               (of_cents (sum_cents (e_amount <$> of_category cat l) + amount)))
        \/ (cr_category r <> cat /\ r ∈ by_category db u))
  /\ sum_cents (e_amount <$> expense_queryset db' u)
     = sum_cents (e_amount <$> l) + amount
  /\ incomes db' = incomes db /\ goals db' = goals db
  /\ (forall v, v <> u -> same_rows_of v db db').
Proof.
  intros db' cat l. set (row := mkExpense u title cat amount d).
  assert (Hq : expense_queryset db' u = (l ++ [row])%list).
  { unfold expense_queryset, db', perform_create_expense, l. cbn [expenses].
    rewrite filter_app, filter_cons, filter_nil. fold cat. fold row.
    case_decide as Hn; [reflexivity|]. exfalso. apply Hn. reflexivity. }
  split; [exact Hq|]. split.
  { intros ->. split; reflexivity. }
  split.
  { intros r. unfold by_category. rewrite Hq. fold l.
    rewrite !list_elem_of_fmap. split.
    - intros ([c t] & -> & Hin). cbn [fst snd].
      apply elem_of_category_totals in Hin as (Hne & ->).
      rewrite of_category_snoc in Hne |- *. cbn [e_category row] in *.
      destruct (decide (cat = c)) as [<-|Hc].
      + left. rewrite fmap_app. change (e_amount <$> [row]) with [amount].
        rewrite sum_cents_snoc. reflexivity.
      + right. cbn [cr_category]. split; [congruence|].
        rewrite app_nil_r in Hne |- *.
        exists (c, sum_cents (e_amount <$> of_category c l)).
        split; [reflexivity|].
        apply elem_of_category_totals. split; [exact Hne|reflexivity].
    - intros [->|(Hc & [c t] & -> & Hin)].
      + exists (cat, sum_cents (e_amount <$> of_category cat l) + amount).
        split; [reflexivity|].
        apply elem_of_category_totals. rewrite of_category_snoc.
        cbn [e_category row]. rewrite decide_True by reflexivity.
        split; [|rewrite fmap_app; change (e_amount <$> [row]) with [amount];
                 rewrite sum_cents_snoc; reflexivity].
        intros H. apply app_eq_nil in H as [_ H]. discriminate H.
      + cbn [cr_category fst snd] in Hc |- *.
        apply elem_of_category_totals in Hin as (Hne & ->).
        exists (c, sum_cents (e_amount <$> of_category c l)).
        split; [reflexivity|].
        apply elem_of_category_totals. rewrite of_category_snoc.
        cbn [e_category row]. rewrite decide_False by congruence.
        rewrite app_nil_r. split; [exact Hne|reflexivity]. }
  split.
  { rewrite Hq, fmap_app. change (e_amount <$> [row]) with [amount].
    apply sum_cents_snoc. }
  split; [reflexivity|]. split; [reflexivity|].
  intros v Hv. unfold same_rows_of, income_queryset, expense_queryset,
    goal_queryset, db', perform_create_expense.
  cbn [incomes expenses goals].
  rewrite filter_app, filter_cons, filter_nil. fold cat. fold row.
  case_decide as Hu.
  - exfalso. apply Hv. symmetry. exact Hu.
  - rewrite app_nil_r. repeat split; reflexivity.
Qed.

End Create.

(** ** More funds never hurt *)

Section Monotone.

(** [<=] on floats is transitive. *)
Lemma fle_trans a b c : fle a b = true -> fle b c = true -> fle a c = true.
Proof.
  unfold fle, SFleb.
  destruct a as [sa|sa| |sa ma ea], b as [sb|sb| |sb mb eb],
           c as [sc|sc| |sc mc ec]; cbn [SFcompare];
    try discriminate; try reflexivity;
    try (destruct sa; try discriminate; try reflexivity);
    try (destruct sb; try discriminate; try reflexivity);
    try (destruct sc; try discriminate; try reflexivity).
  all: change (PosDef.Pos.compare_cont Eq ma mb) with (Pos.compare ma mb);
       change (PosDef.Pos.compare_cont Eq mb mc) with (Pos.compare mb mc);
       change (PosDef.Pos.compare_cont Eq ma mc) with (Pos.compare ma mc).
  all: destruct (Z.compare_spec ea eb); destruct (Z.compare_spec eb ec);
       destruct (Z.compare_spec ea ec); try lia; try discriminate;
       try reflexivity;
       destruct (Pos.compare_spec ma mb); destruct (Pos.compare_spec mb mc);
       destruct (Pos.compare_spec ma mc); cbn [CompOpp];
       try lia; try discriminate; try reflexivity.
Qed.

End Monotone.

Section MonotoneGoals.

(** X12. On the same day, a goal that is on track stays on track when
    its current amount is larger, whatever the target and the dates. *)
Theorem on_track_monotone g g' today a a' :
  target_amount g' = target_amount g ->
  deadline g' = deadline g -> created_at g' = created_at g ->
  current_amount g = of_cents a -> current_amount g' = of_cents a' ->
  0 <= a -> a <= a' -> a' < 10 ^ 12 ->
  get_is_on_track today g = true -> get_is_on_track today g' = true.
Proof.
  intros Ht Hd Hc Ha Ha' H0 Hle Hmax.
  unfold get_is_on_track. rewrite Ht, Hd, Hc, Ha, Ha'.
  assert (Hx : fle (to_float (of_cents a)) (to_float (of_cents a')) = true).
  { rewrite to_float_cents_order by lia. apply Z.leb_le, Hle. }
  destruct (days_between (deadline g) (created_at g) <=? 0); unfold fge;
    intros He; exact (fle_trans _ _ _ He Hx).
Qed.

Lemma on_track_monotone_witness :
  get_is_on_track jan06 (goal_with 60000) = true.
Proof.
  apply (on_track_monotone (goal_with 50000) (goal_with 60000) jan06
           50000 60000); try reflexivity; vm_compute; congruence.
Defined.

(** The percentage of a goal with a positive target, case by case. *)
Lemma progress_cases g a b :
  current_amount g = of_cents a -> target_amount g = of_cents b ->
  0 <= a < 10 ^ 12 -> 0 < b < 10 ^ 12 ->
  exists n,
    progress_percentage g = Ok n
    /\ ((a = 0 /\ pynum_float n = zero)
        \/ (0 < a < b /\ exists m e,
              pynum_float n = S754_finite false m e
              /\ Zpos (digits2_pos m) = 53
              /\ (inject_Z (100 * a) / inject_Z b * (1 - pow2 (-52))
                  <= mant m e)%Q
              /\ (mant m e
                  <= inject_Z (100 * a) / inject_Z b * (1 + pow2 (-52)))%Q)
        \/ (b <= a /\ pynum_float n = hundred)).
Proof.
  intros Hcur Htgt Ha Hb.
  destruct (Z.eq_dec a 0) as [->|Ha0].
  { exists (PyFloat zero). split; [apply (progress_zero g b Hcur Htgt); lia|].
    left. split; reflexivity. }
  destruct (progress_positive g a b Hcur Htgt ltac:(lia) ltac:(lia))
    as (m & e & Hdm & Heq & Hge & Hle & Hlo & Hhi).
  rewrite Heq. eexists. split; [reflexivity|].
  destruct (Z_lt_le_dec a b) as [Hab|Hba].
  - right. left. split; [lia|]. exists m, e.
    specialize (Hle ltac:(lia)).
    assert (Ef : flt hundred (S754_finite false m e) = false).
    { apply not_true_iff_false. intros Ef. rewrite hundred_eq in Ef.
      apply (flt_mant _ _ _ _ digits_hundred Hdm) in Ef.
      rewrite mant_hundred in Ef. apply (Qlt_not_le _ _ Ef), Hle. }
    rewrite Ef. cbn [pynum_float]. repeat split; assumption.
  - right. right. split; [exact Hba|]. specialize (Hge Hba).
    destruct (flt hundred (S754_finite false m e)) eqn:Ef; [reflexivity|].
    cbn [pynum_float]. rewrite hundred_eq in Ef |- *.
    assert (Hnlt : ~ (mant 7036874417766400 (-46) < mant m e)%Q).
    { intros Hlt. apply (flt_mant _ _ _ _ digits_hundred Hdm) in Hlt.
      rewrite Hlt in Ef. discriminate. }
    assert (Heqm : (mant m e == mant 7036874417766400 (-46))%Q).
    { rewrite mant_hundred in Hnlt |- *. apply Qle_antisym; [|exact Hge].
      apply Qnot_lt_le, Hnlt. }
    destruct (mant_inj _ _ _ _ Hdm digits_hundred Heqm) as [-> ->].
    reflexivity.
Qed.

(** Below the target the exact percentage is at least [10^-10] under
    100, and two different amounts are at least [10^-10] apart. *)
Lemma percent_gap a a' b :
  0 < a -> a < a' -> 0 < b < 10 ^ 12 ->
  (inject_Z (100 * a) / inject_Z b + (1 # 10000000000)
   <= inject_Z (100 * a') / inject_Z b)%Q.
Proof.
  intros Ha Hlt Hb.
  assert (HB : (0 < inject_Z b)%Q) by (apply inject_Z_pos; lia).
  assert (HBmax : (inject_Z b <= 1000000000000)%Q).
  { change 1000000000000%Q with (inject_Z (10 ^ 12)). rewrite <- Zle_Qle. lia. }
  assert (Haa : (inject_Z (100 * a) + 100 <= inject_Z (100 * a'))%Q).
  { change 100%Q with (inject_Z 100).
    rewrite <- inject_Z_plus, <- Zle_Qle. lia. }
  set (y := (inject_Z (100 * a) / inject_Z b)%Q).
  set (y' := (inject_Z (100 * a') / inject_Z b)%Q).
  assert (Hy : (y * inject_Z b == inject_Z (100 * a))%Q).
  { unfold y. field. intros H0. rewrite H0 in HB. revert HB. apply Qlt_irrefl. }
  assert (Hy' : (y' * inject_Z b == inject_Z (100 * a'))%Q).
  { unfold y'. field. intros H0. rewrite H0 in HB. revert HB. apply Qlt_irrefl. }
  assert (Hd : (100 <= (y' - y) * inject_Z b)%Q).
  { assert (E : ((y' - y) * inject_Z b
                 == y' * inject_Z b - y * inject_Z b)%Q) by ring.
    rewrite E, Hy, Hy'. lra. }
  assert (Hpos : (0 <= y' - y)%Q).
  { destruct (Qlt_le_dec (y' - y) 0) as [Hneg|]; [|assumption].
    exfalso.
    assert ((y' - y) * inject_Z b <= 0 * inject_Z b)%Q
      by (apply Qmult_le_compat_r; lra).
    lra. }
  assert (Hm : ((y' - y) * inject_Z b <= (y' - y) * 1000000000000)%Q).
  { rewrite !(Qmult_comm (y' - y)). apply Qmult_le_compat_r; assumption. }
  lra.
Qed.

End MonotoneGoals.

Section Progress100.

Lemma percent_full b :
  0 < b -> (inject_Z (100 * b) / inject_Z b == 100)%Q.
Proof.
  intros Hb. rewrite inject_Z_mult. change (inject_Z 100) with 100%Q.
  field. intros H0.
  assert (HB : (0 < inject_Z b)%Q) by (apply inject_Z_pos; lia).
  rewrite H0 in HB. revert HB. apply Qlt_irrefl.
Qed.

Lemma percent_pos a b :
  0 < a -> 0 < b -> (0 < inject_Z (100 * a) / inject_Z b)%Q.
Proof.
  intros Ha Hb. apply Qlt_shift_div_l; [apply inject_Z_pos; lia|].
  rewrite Qmult_0_l. apply inject_Z_pos. lia.
Qed.

(** Below the target the percentage is a float under 100. *)
Lemma progress_below_100 a b m e :
  0 < a < b -> b < 10 ^ 12 ->
  (mant m e <= inject_Z (100 * a) / inject_Z b * (1 + pow2 (-52)))%Q ->
  (mant m e < 100)%Q.
Proof.
  intros Ha Hb Hhi.
  pose proof (percent_gap a b b ltac:(lia) ltac:(lia) ltac:(lia)) as Hgap.
  rewrite (percent_full b) in Hgap by lia.
  pose proof (percent_pos a b ltac:(lia) ltac:(lia)) as Hpos.
  rewrite pow2_m52 in Hhi.
  set (y := (inject_Z (100 * a) / inject_Z b)%Q) in *.
  lra.
Qed.

Lemma progress_same_amounts g g' :
  current_amount g' = current_amount g -> target_amount g' = target_amount g ->
  progress_percentage g' = progress_percentage g.
Proof. intros Hc Ht. unfold progress_percentage. rewrite Hc, Ht. reflexivity. Qed.

Lemma progress_full_iff g a b n :
  current_amount g = of_cents a -> target_amount g = of_cents b ->
  0 <= a < 10 ^ 12 -> 0 < b < 10 ^ 12 ->
  progress_percentage g = Ok n ->
  (pynum_float n = hundred <-> b <= a).
Proof.
  intros Hcur Htgt Ha Hb Hn.
  destruct (progress_cases g a b Hcur Htgt Ha Hb) as (n0 & Hn0 & Hc).
  rewrite Hn in Hn0. injection Hn0 as <-.
  destruct Hc as [[-> Hz]|[(Hab & m & e & Hf & Hdm & _ & Hhi)|[Hba Hf]]].
  - rewrite Hz. split; [discriminate|lia].
  - split; [|lia]. intros Hh. exfalso.
    rewrite Hf, hundred_eq in Hh. injection Hh as -> ->.
    pose proof (progress_below_100 a b _ _ Hab ltac:(lia) Hhi) as Hlt.
    rewrite mant_hundred in Hlt. revert Hlt. apply Qlt_irrefl.
  - split; [intros _; exact Hba|intros _; exact Hf].
Qed.

Lemma fle_refl_finite m e :
  fle (S754_finite false m e) (S754_finite false m e) = true.
Proof.
  unfold fle, SFleb. cbn [SFcompare]. rewrite Z.compare_refl.
  change (PosDef.Pos.compare_cont Eq m m) with (Pos.compare m m).
  rewrite Pos.compare_refl. reflexivity.
Qed.

(** X13. The progress percentage never falls when the current amount
    grows: for two goals with the same positive target, the larger
    current amount has the larger or equal percentage, strictly larger
    while the smaller amount is below the target; and the percentage is
    100 exactly when the current amount has reached the target. *)
Theorem progress_monotone g g' a a' b :
  current_amount g = of_cents a -> current_amount g' = of_cents a' ->
  target_amount g = of_cents b -> target_amount g' = of_cents b ->
  0 <= a -> a <= a' -> a' < 10 ^ 12 -> 0 < b < 10 ^ 12 ->
  exists n n',
    progress_percentage g = Ok n /\ progress_percentage g' = Ok n'
    /\ fle (pynum_float n) (pynum_float n') = true
    /\ (a < a' -> a < b -> flt (pynum_float n) (pynum_float n') = true)
    /\ (pynum_float n = hundred <-> b <= a).
Proof.
  intros Hcur Hcur' Htgt Htgt' H0 Hle Hmax Hb.
  destruct (progress_cases g a b Hcur Htgt ltac:(lia) Hb) as (n & Hn & Hc).
  destruct (progress_cases g' a' b Hcur' Htgt' ltac:(lia) Hb) as (n' & Hn' & Hc').
  exists n, n'. split; [exact Hn|]. split; [exact Hn'|].
  split; [|split];
    [| |exact (progress_full_iff g a b n Hcur Htgt ltac:(lia) Hb Hn)].
  - destruct (Z.eq_dec a a') as [<-|Hne].
    { rewrite (progress_same_amounts g g') in Hn'
        by (rewrite ?Hcur, ?Hcur', ?Htgt, ?Htgt'; reflexivity).
      rewrite Hn in Hn'. injection Hn' as <-.
      destruct Hc as [[_ ->]|[(_ & m & e & -> & _)|[_ ->]]];
        [reflexivity|apply fle_refl_finite|reflexivity]. }
    destruct Hc as [[-> Hz]|[(Hab & m & e & Hf & Hdm & Hlo & Hhi)|[Hba Hf]]];
      destruct Hc' as [[-> Hz']|[(Hab' & m' & e' & Hf' & Hdm' & Hlo' & Hhi')
                                |[Hba' Hf']]]; try lia.
    + rewrite Hz, Hf'. reflexivity.
    + rewrite Hz, Hf'. reflexivity.
    + rewrite Hf, Hf'. apply (fle_mant _ _ _ _ Hdm Hdm').
      pose proof (percent_gap a a' b ltac:(lia) ltac:(lia) Hb) as Hgap.
      pose proof (percent_gap a' b b ltac:(lia) ltac:(lia) ltac:(lia)) as Hg2.
      rewrite (percent_full b) in Hg2 by lia.
      pose proof (percent_pos a b ltac:(lia) ltac:(lia)) as Hpos.
      rewrite pow2_m52 in Hhi, Hlo'.
      set (y := (inject_Z (100 * a) / inject_Z b)%Q) in *.
      set (y' := (inject_Z (100 * a') / inject_Z b)%Q) in *.
      lra.
    + rewrite Hf, Hf', hundred_eq. apply (fle_mant _ _ _ _ Hdm digits_hundred).
      rewrite mant_hundred. apply Qlt_le_weak.
      exact (progress_below_100 a b _ _ Hab ltac:(lia) Hhi).
    + rewrite Hf, Hf'. reflexivity.
  - intros Hlt Hltb.
    destruct Hc as [[-> Hz]|[(Hab & m & e & Hf & Hdm & Hlo & Hhi)|[Hba Hf]]];
      destruct Hc' as [[-> Hz']|[(Hab' & m' & e' & Hf' & Hdm' & Hlo' & Hhi')
                                |[Hba' Hf']]]; try lia.
    + rewrite Hz, Hf'. reflexivity.
    + rewrite Hz, Hf'. reflexivity.
    + rewrite Hf, Hf'. apply (flt_mant _ _ _ _ Hdm Hdm').
      pose proof (percent_gap a a' b ltac:(lia) ltac:(lia) Hb) as Hgap.
      pose proof (percent_gap a' b b ltac:(lia) ltac:(lia) ltac:(lia)) as Hg2.
      rewrite (percent_full b) in Hg2 by lia.
      pose proof (percent_pos a b ltac:(lia) ltac:(lia)) as Hpos.
      rewrite pow2_m52 in Hhi, Hlo'.
      set (y := (inject_Z (100 * a) / inject_Z b)%Q) in *.
      set (y' := (inject_Z (100 * a') / inject_Z b)%Q) in *.
      lra.
    + rewrite Hf, Hf', hundred_eq. apply (flt_mant _ _ _ _ Hdm digits_hundred).
      rewrite mant_hundred.
      exact (progress_below_100 a b _ _ Hab ltac:(lia) Hhi).
Qed.

Lemma progress_monotone_witness :
  exists n n',
    progress_percentage (goal_with 25000) = Ok n
    /\ progress_percentage (goal_with 50000) = Ok n'
    /\ flt (pynum_float n) (pynum_float n') = true.
Proof.
  assert (H0 : 0 <= 25000) by (vm_compute; congruence).
  assert (Hle : 25000 <= 50000) by (vm_compute; congruence).
  assert (Hmax : 50000 < 10 ^ 12) by (vm_compute; reflexivity).
  assert (Hb : 0 < 100000 < 10 ^ 12) by (vm_compute; split; congruence).
  destruct (progress_monotone (goal_with 25000) (goal_with 50000)
              25000 50000 100000 eq_refl eq_refl eq_refl eq_refl
              H0 Hle Hmax Hb)
    as (n & n' & Hn & Hn' & _ & Hlt & _).
  exists n, n'. split; [exact Hn|]. split; [exact Hn'|].
  apply Hlt; vm_compute; reflexivity.
Defined.

(** X14. Once the deadline is reached (no day remains), the view of a
    goal with stored amounts and a positive target says on track exactly
    when the goal is fully funded, that is exactly when its progress
    percentage is 100. *)
Theorem overdue_goal_view g today a b v :
  serialize_goal today g = Ok v ->
  current_amount g = of_cents a -> target_amount g = of_cents b ->
  0 <= a < 10 ^ 12 -> 0 < b < 10 ^ 12 ->
  valid today -> valid (created_at g) -> valid (deadline g) ->
  v_days_remaining v <= 0 ->
  (v_is_on_track v = true <-> b <= a)
  /\ (v_is_on_track v = true
      <-> pynum_float (v_progress_percentage v) = hundred).
Proof.
  intros Hs Hcur Htgt Ha Hb Hv Hvc Hvd Hrem.
  unfold serialize_goal in Hs.
  destruct (progress_percentage g) as [n|err] eqn:Hn; cbn [bind] in Hs;
    [|discriminate].
  injection Hs as <-.
  cbn [v_days_remaining v_is_on_track v_progress_percentage] in *.
  pose proof (progress_full_iff g a b n Hcur Htgt Ha Hb Hn) as Hfull.
  assert (Htrack : get_is_on_track today g = true <-> b <= a).
  { unfold get_days_remaining, days_between in Hrem.
    pose proof (days_between_range _ _ Hv Hvc) as Hel.
    assert (Hdeg : fge (to_float (of_cents a)) (to_float (of_cents b)) = true
                   <-> b <= a).
    { unfold fge. fold (fle (to_float (of_cents b)) (to_float (of_cents a))).
      rewrite to_float_cents_order by lia. apply Z.leb_le. }
    unfold get_is_on_track. rewrite Hcur, Htgt.
    destruct (Z.leb_spec (days_between (deadline g) (created_at g)) 0)
      as [Ht|Ht]; [exact Hdeg|].
    rewrite expected_capped; [exact Hdeg|lia|exact Ht|].
    unfold days_between in *. lia. }
  split; [exact Htrack|]. rewrite Htrack, Hfull. reflexivity.
Qed.

Lemma overdue_goal_view_witness :
  exists v, serialize_goal jan15 (goal_with 99999) = Ok v
            /\ v_is_on_track v = false.
Proof.
  assert (E : exists v, serialize_goal jan15 (goal_with 99999) = Ok v)
    by (vm_compute; eexists; reflexivity).
  destruct E as [v E]. exists v. split; [exact E|].
  assert (Hv : forall d, validb d = true -> valid d)
    by (intros d; apply valid_validb).
  assert (Ha : 0 <= 99999 < 10 ^ 12) by (vm_compute; split; congruence).
  assert (Hb : 0 < 100000 < 10 ^ 12) by (vm_compute; split; congruence).
  assert (Hrem : v_days_remaining v <= 0).
  { unfold serialize_goal in E.
    destruct (progress_percentage (goal_with 99999)); cbn [bind] in E;
      [|discriminate].
    injection E as <-. vm_compute. congruence. }
  destruct (overdue_goal_view (goal_with 99999) jan15 99999 100000 v E
              eq_refl eq_refl Ha Hb (Hv jan15 eq_refl)
              (Hv (created_at (goal_with 99999)) eq_refl)
              (Hv (deadline (goal_with 99999)) eq_refl) Hrem) as [H _].
  apply not_true_iff_false. intros Ht. apply H in Ht. lia.
Defined.

End Progress100.

(** ** The validators of the serializers *)

Section ValidatorFacts.

Lemma le_zero_false d :
  le_zero d = Ok false
  <-> (exists c e, d = Dfin false c e /\ c <> 0%N) \/ d = Dinf false.
Proof.
  destruct d as [s c e|s|]; cbn [le_zero].
  - split.
    + intros H. injection H as H. apply orb_false_iff in H as [-> H].
      apply N.eqb_neq in H. left. exists c, e. split; [reflexivity|exact H].
    + intros [(c' & e' & [= -> -> ->] & Hc)|H]; [|discriminate].
      cbn [orb]. apply N.eqb_neq in Hc. rewrite Hc. reflexivity.
  - split.
    + intros [= ->]. right. reflexivity.
    + intros [(c & e & H & _)|[= ->]]; [discriminate|reflexivity].
  - split; [discriminate|].
    intros [(c & e & H & _)|H]; discriminate.
Qed.

Lemma pow10_Q_pos e : (0 < Qpower (inject_Z 10) e)%Q.
Proof. apply Qpower_0_lt. reflexivity. Qed.

(** The sign of a finite decimal, read off its value. *)
Lemma dec_value_pos s c e :
  (0 < dec_value (Dfin s c e))%Q <-> s = false /\ c <> 0%N.
Proof.
  unfold dec_value. pose proof (pow10_Q_pos e) as Hp.
  set (p := Qpower (inject_Z 10) e) in *.
  destruct s; cbn [cond_Zopp]; split.
  - intros H. exfalso.
    assert (Hc : (inject_Z (- Z.of_N c) <= inject_Z 0)%Q)
      by (rewrite <- Zle_Qle; lia).
    change (inject_Z 0) with 0%Q in Hc.
    assert (Hle : (inject_Z (- Z.of_N c) * p <= 0 * p)%Q)
      by (apply Qmult_le_compat_r; [exact Hc | apply Qlt_le_weak, Hp]).
    lra.
  - intros [[=] _].
  - intros H. split; [reflexivity|]. intros ->.
    change (inject_Z (Z.of_N 0)) with 0%Q in H. lra.
  - intros [_ Hc].
    assert (H1 : (inject_Z 0 < inject_Z (Z.of_N c))%Q)
      by (rewrite <- Zlt_Qlt; lia).
    change (inject_Z 0) with 0%Q in H1.
    apply Qmult_lt_0_compat; assumption.
Qed.

(** X15. The sign checks of the code, for every decimal. A finite
    decimal above zero, and [Infinity], pass [validate_amount] and
    [validate_target_amount] unchanged; a finite decimal that is zero or
    below, and [-Infinity], are rejected, by the first with "Amount must
    be greater than zero." and by the second with "Target amount must be
    greater than zero."; on a NaN the comparison raises
    [InvalidOperation], which neither validator catches. On stored
    amounts the accepted ones are those from 0.01 up. The check of
    add-funds accepts an amount exactly when its text is a decimal that
    [validate_amount] accepts, raises [ValueError] exactly when it is
    one that [validate_amount] rejects, and [InvalidOperation] on a
    NaN. *)
Theorem amount_checks_agree d :
  (forall s c e, d = Dfin s c e ->
     ((0 < dec_value d)%Q ->
        validate_amount d = Valid d /\ validate_target_amount d = Valid d)
     /\ ((dec_value d <= 0)%Q ->
           validate_amount d = Invalid "Amount must be greater than zero."
           /\ validate_target_amount d
              = Invalid "Target amount must be greater than zero."))
  /\ (d = Dinf false ->
        validate_amount d = Valid d /\ validate_target_amount d = Valid d)
  /\ (d = Dinf true ->
        validate_amount d = Invalid "Amount must be greater than zero."
        /\ validate_target_amount d
           = Invalid "Target amount must be greater than zero.")
  /\ (d = Dnan ->
        validate_amount d = Escapes InvalidOperation
        /\ validate_target_amount d = Escapes InvalidOperation)
  /\ (validate_amount d = Valid d
      <-> (exists c e, d = Dfin false c e /\ c <> 0%N) \/ d = Dinf false)
  /\ (validate_target_amount d = Valid d <-> validate_amount d = Valid d)
  /\ ((exists msg, validate_target_amount d = Invalid msg)
      <-> exists msg, validate_amount d = Invalid msg)
  /\ (forall x, validate_amount d = Valid x -> x = d)
  /\ (forall x, validate_target_amount d = Valid x -> x = d)
  /\ (forall n, validate_amount (of_cents n) = Valid (of_cents n) <-> 1 <= n)
  /\ (forall n, n <= 0 ->
        validate_amount (of_cents n)
        = Invalid "Amount must be greater than zero."
        /\ validate_target_amount (of_cents n)
           = Invalid "Target amount must be greater than zero.")
  /\ (forall amount,
        positive_amount amount = Ok d
        <-> decimal_of_str amount = Some d /\ validate_amount d = Valid d)
  /\ (forall amount, decimal_of_str amount = Some d ->
        (positive_amount amount = Raise ValueError
         <-> validate_amount d = Invalid "Amount must be greater than zero.")
        /\ (positive_amount amount = Raise InvalidOperation
            <-> validate_amount d = Escapes InvalidOperation)
        /\ (positive_amount amount = Raise InvalidOperation <-> d = Dnan)).
Proof.
  assert (Hv : forall d, validate_amount d = Valid d <-> le_zero d = Ok false).
  { intros d0. unfold validate_amount.
    destruct (le_zero d0) as [[|]|e]; split; intros H;
      try discriminate; reflexivity. }
  split.
  { intros s c e ->. split.
    - intros Hpos. apply dec_value_pos in Hpos as [-> Hc].
      apply N.eqb_neq in Hc.
      unfold validate_amount, validate_target_amount. cbn [le_zero orb].
      now rewrite Hc.
    - intros Hle.
      assert (Hs : s || (c =? 0)%N = true).
      { destruct s; [reflexivity|]. cbn [orb]. apply N.eqb_eq.
        destruct (N.eq_dec c 0%N) as [E|E]; [exact E|exfalso].
        assert (Hpos : (0 < dec_value (Dfin false c e))%Q)
          by (apply dec_value_pos; now split).
        lra. }
      unfold validate_amount, validate_target_amount. cbn [le_zero].
      now rewrite Hs. }
  split; [intros ->; now split|].
  split; [intros ->; now split|].
  split; [intros ->; now split|].
  split; [rewrite Hv; apply le_zero_false|].
  split.
  { rewrite Hv. unfold validate_target_amount.
    destruct (le_zero d) as [[|]|e]; split; intros H;
      try discriminate; reflexivity. }
  split.
  { unfold validate_amount, validate_target_amount.
    destruct (le_zero d) as [[|]|e]; split; intros [msg H];
      try discriminate; eexists; reflexivity. }
  split.
  { intros x. unfold validate_amount.
    destruct (le_zero d) as [[|]|e]; intros H; try discriminate.
    injection H as <-. reflexivity. }
  split.
  { intros x. unfold validate_target_amount.
    destruct (le_zero d) as [[|]|e]; intros H; try discriminate.
    injection H as <-. reflexivity. }
  split.
  { intros n. rewrite Hv, le_zero_cents. split.
    - intros [= H]. apply Z.leb_gt in H. lia.
    - intros H. f_equal. apply Z.leb_gt. lia. }
  split.
  { intros n Hn. unfold validate_amount, validate_target_amount.
    rewrite le_zero_cents.
    replace (n <=? 0) with true by (symmetry; apply Z.leb_le; exact Hn).
    now split. }
  split.
  { intros amount. rewrite positive_amount_ok, Hv, le_zero_false. reflexivity. }
  intros amount Hp. unfold positive_amount, validate_amount. rewrite Hp.
  cbn [of_option bind].
  destruct d as [s c e|s|]; cbn [le_zero bind].
  - destruct (s || (c =? 0)%N); repeat split; intros H; try discriminate;
      reflexivity.
  - destruct s; repeat split; intros H; try discriminate; reflexivity.
  - repeat split; intros H; try discriminate; reflexivity.
Qed.

End ValidatorFacts.

(** ** Registration *)

Section Register.

(** X16. A registration passes [validate] exactly when both password
    fields are there and equal, and then comes back unchanged; [create]
    after it cannot miss the key it pops, and calls [create_user] with
    every submitted field but [password2], the password being the
    confirmed one. Two different passwords are rejected on the
    [password] field. *)
Theorem register_validate_create (a : attrs) :
  (forall a', Registration.validate a = Done a' <->
     a' = a /\ exists p, a !! "password" = Some p /\ a !! "password2" = Some p)
  /\ (forall a', Registration.validate a = Done a' ->
        exists kw,
          Registration.create a' = Done kw
          /\ kw !! "password2" = None
          /\ kw !! "password" = a !! "password"
          /\ forall k, k <> "password2" -> kw !! k = a !! k)
  /\ (forall p p2, a !! "password" = Some p -> a !! "password2" = Some p2 ->
        p <> p2 ->
        Registration.validate a = Rejected "password" "Passwords do not match.").
Proof.
  assert (Hv : forall a', Registration.validate a = Done a' <->
     a' = a /\ exists p, a !! "password" = Some p /\ a !! "password2" = Some p).
  { intros a'. unfold Registration.validate.
    destruct (a !! "password") as [p|] eqn:Hp;
      [destruct (a !! "password2") as [p2|] eqn:Hp2|].
    - destruct (String.eqb_spec p p2) as [->|Hne].
      + split.
        * intros [= <-]. split; [reflexivity|]. exists p2. split; reflexivity.
        * intros [-> _]. reflexivity.
      + split; [discriminate|]. intros [_ (q & [= ->] & [= ->])].
        exfalso. apply Hne. reflexivity.
    - split; [discriminate|]. intros [_ (q & _ & H)]. discriminate.
    - split; [discriminate|]. intros [_ (q & H & _)]. discriminate. }
  split; [exact Hv|]. split.
  - intros a' Ha'. apply Hv in Ha' as [-> (p & Hp & Hp2)].
    exists (delete "password2" a). unfold Registration.create. rewrite Hp2.
    split; [reflexivity|]. split; [apply lookup_delete_eq|].
    split.
    + apply lookup_delete_ne. discriminate.
    + intros k Hk. apply lookup_delete_ne. congruence.
  - intros p p2 Hp Hp2 Hne. unfold Registration.validate. rewrite Hp, Hp2.
    destruct (String.eqb_spec p p2) as [->|_]; [|reflexivity].
    exfalso. apply Hne. reflexivity.
Qed.

End Register.

(** ** Integer amounts *)

Section IntegerAmounts.

(** The characters of [str(n)] for the digits of [n]. *)
Lemma digit_chars_facts c :
  is_digit c = true ->
  plain_char c = true /\ lower c = c
  /\ c <> "-"%char /\ c <> "+"%char /\ c <> "."%char /\ c <> "e"%char.
Proof.
  destruct c as [[] [] [] [] [] [] [] []]; vm_compute; intros H;
    try discriminate H; repeat split; discriminate.
Qed.

Lemma uint_chars_digits (u : Decimal.uint) :
  forallb is_digit (list_ascii_of_string (NilEmpty.string_of_uint u)) = true.
Proof. induction u; cbn; try reflexivity; exact IHu. Qed.

Lemma uint_chars_value_acc (u : Decimal.uint) (p : positive) :
  fold_left (fun acc c => 10 * acc + digit_val c)
            (list_ascii_of_string (NilEmpty.string_of_uint u)) (Zpos p)
  = Zpos (Pos.of_uint_acc u p).
Proof.
  revert p. induction u; intros p; cbn [NilEmpty.string_of_uint
    list_ascii_of_string fold_left Pos.of_uint_acc]; [reflexivity|..];
    match goal with
    | |- context [digit_val ?c] =>
      let v := eval vm_compute in (digit_val c) in
      change (digit_val c) with v
    end;
    match goal with
    | |- fold_left _ _ ?acc = _ =>
      match goal with
      | |- _ = Zpos (Pos.of_uint_acc _ ?q) =>
        replace acc with (Zpos q) by lia
      end
    end; apply IHu.
Qed.

Lemma uint_chars_value (u : Decimal.uint) :
  digits_value (list_ascii_of_string (NilEmpty.string_of_uint u))
  = Z.of_N (Pos.of_uint u).
Proof.
  unfold digits_value.
  induction u; cbn [NilEmpty.string_of_uint list_ascii_of_string fold_left
                    Pos.of_uint]; [reflexivity|exact IHu|..];
    match goal with
    | |- context [digit_val ?c] =>
      let v := eval vm_compute in (digit_val c) in
      change (digit_val c) with v
    end;
    match goal with
    | |- fold_left _ _ ?acc = Z.of_N (N.pos (Pos.of_uint_acc _ ?q)) =>
      change acc with (Zpos q)
    end; apply uint_chars_value_acc.
Qed.

Lemma span_all_digits l :
  forallb is_digit l = true -> span_digits l = (l, []).
Proof.
  induction l as [|c l IH]; cbn [forallb span_digits]; [reflexivity|].
  intros H. apply andb_true_iff in H as [Hc Hl].
  rewrite Hc, (IH Hl). reflexivity.
Qed.

Lemma lstrip_head c l : is_space c = false -> lstrip (c :: l) = c :: l.
Proof. intros H. cbn [lstrip]. rewrite H. reflexivity. Qed.

Lemma strip_no_space l :
  forallb (fun c => negb (is_space c)) l = true -> strip l = l.
Proof.
  intros H. unfold strip.
  assert (Hl : forall l', forallb (fun c => negb (is_space c)) l' = true ->
                          lstrip l' = l').
  { intros [|c l'] H'; [reflexivity|]. cbn [forallb] in H'.
    apply andb_true_iff in H' as [Hc _]. apply lstrip_head.
    apply negb_true_iff, Hc. }
  rewrite (Hl l H), Hl, rev_involutive; [reflexivity|].
  rewrite forallb_forall in *. intros c Hc. apply H, in_rev, Hc.
Qed.

(** A text of plain ASCII characters is read as it is. *)
Lemma plain_char_facts c :
  plain_char c = true ->
  (N_of_ascii c <? 128)%N = true /\ is_space (N_of_ascii c) = false
  /\ is_underscore (N_of_ascii c) = false
  /\ as_ascii_char (N_of_ascii c) = Some c.
Proof.
  unfold plain_char. cbv zeta. intros H.
  apply andb_true_iff in H as [H Hu]. apply andb_true_iff in H as [H Hs].
  apply andb_true_iff in H as [H0 H1].
  apply negb_true_iff in Hu, Hs.
  split; [exact H1|]. split; [exact Hs|]. split; [exact Hu|].
  unfold as_ascii_char. rewrite H0. cbn [andb].
  replace (N_of_ascii c <=? 127)%N with true
    by (symmetry; apply N.leb_le; apply N.ltb_lt in H1; lia).
  now rewrite ascii_N_embedding.
Qed.

Lemma parse_plain l :
  forallb plain_char l = true ->
  parse_decimal (string_of_list_ascii l) = parse_ascii l.
Proof.
  intros H. unfold parse_decimal, code_points.
  rewrite list_ascii_of_string_of_list_ascii.
  assert (Hall : forall c, In c l -> plain_char c = true)
    by (apply forallb_forall; exact H).
  assert (Hdec : utf8_decode (map N_of_ascii l) = Some (map N_of_ascii l)).
  { clear H. induction l as [|c l IH]; [reflexivity|].
    cbn [map utf8_decode].
    destruct (plain_char_facts c (Hall c (or_introl eq_refl))) as (-> & _).
    rewrite IH by (intros c' Hc'; apply Hall; now right). reflexivity. }
  rewrite Hdec. unfold numeric_as_ascii.
  rewrite strip_no_space.
  2:{ apply forallb_forall. intros n Hn. apply in_map_iff in Hn as (c & <- & Hc).
      apply negb_true_iff, (plain_char_facts c (Hall c Hc)). }
  rewrite forallb_filter_id.
  2:{ apply forallb_forall. intros n Hn. apply in_map_iff in Hn as (c & <- & Hc).
      apply negb_true_iff, (plain_char_facts c (Hall c Hc)). }
  assert (Has : as_ascii (map N_of_ascii l) = Some l).
  { clear H Hdec. induction l as [|c l IH]; [reflexivity|].
    cbn [map as_ascii].
    destruct (plain_char_facts c (Hall c (or_introl eq_refl))) as (_ & _ & _ & ->).
    rewrite IH by (intros c' Hc'; apply Hall; now right). reflexivity. }
  now rewrite Has.
Qed.

(** What [Decimal(s)] reads from a sign and digits. *)
Lemma parse_sign_digits (sg : bool) (l : list ascii) :
  l <> [] -> forallb is_digit l = true ->
  parse_decimal
    (string_of_list_ascii ((if sg then ["-"%char] else []) ++ l))
  = Some (Dfin sg (Z.to_N (digits_value l)) 0).
Proof.
  intros Hne Hd.
  assert (Hall : forall c, In c l -> is_digit c = true)
    by (apply forallb_forall; exact Hd).
  set (full := ((if sg then ["-"%char] else []) ++ l)%list).
  assert (Hfull : forall c, In c full -> c = "-"%char \/ is_digit c = true).
  { intros c Hc. unfold full in Hc. apply in_app_or in Hc as [Hc|Hc].
    - destruct sg; [|destruct Hc]. destruct Hc as [<-|[]]. left. reflexivity.
    - right. apply Hall, Hc. }
  rewrite parse_plain.
  2:{ apply forallb_forall. intros c Hc.
      destruct (Hfull c Hc) as [->|Hc']; [reflexivity|].
      apply (digit_chars_facts c Hc'). }
  unfold parse_ascii.
  assert (Hm : map lower full = full).
  { rewrite <- (map_id full) at 2. apply map_ext_in. intros c Hc.
    destruct (Hfull c Hc) as [->|Hc']; [reflexivity|].
    apply (digit_chars_facts c Hc'). }
  rewrite Hm.
  destruct l as [|c r]; [congruence|].
  assert (Hc : is_digit c = true) by (apply Hall; left; reflexivity).
  destruct (digit_chars_facts c Hc) as (_ & _ & Hm1 & Hp1 & _ & _).
  assert (Hts : take_sign full = (sg, c :: r)).
  { unfold full. destruct sg; [reflexivity|]. cbn [app take_sign].
    destruct c as [[] [] [] [] [] [] [] []]; try reflexivity;
      congruence. }
  rewrite Hts. unfold parse_number. rewrite (span_all_digits _ Hd).
  cbn [parse_exponent length]. rewrite app_nil_r. reflexivity.
Qed.

Lemma to_uint_not_nil n : N.to_uint n <> Decimal.Nil.
Proof.
  destruct n as [|p]; [discriminate|]. intros E.
  apply (f_equal N.of_uint) in E.
  rewrite DecimalN.Unsigned.of_to in E. discriminate.
Qed.

(** [Decimal(str(n))] is [Decimal(n)] for every integer [n]. *)
Lemma parse_str_of_int n : parse_decimal (str_of_int n) = Some (of_int n).
Proof.
  unfold str_of_int, PyDecimal.of_int.
  set (u := N.to_uint (Z.abs_N n)).
  assert (Hu : NilZero.string_of_uint u = NilEmpty.string_of_uint u).
  { pose proof (to_uint_not_nil (Z.abs_N n)) as Hn. fold u in Hn.
    destruct u; [congruence|reflexivity..]. }
  rewrite Hu.
  set (l := list_ascii_of_string (NilEmpty.string_of_uint u)).
  assert (Hne : l <> []).
  { pose proof (to_uint_not_nil (Z.abs_N n)) as Hn. fold u in Hn.
    unfold l. destruct u; [congruence|discriminate..]. }
  assert (Hval : Z.to_N (digits_value l) = Z.abs_N n).
  { unfold l. rewrite uint_chars_value.
    change (Pos.of_uint u) with (N.of_uint u). unfold u.
    rewrite DecimalN.Unsigned.of_to. lia. }
  pose proof (parse_sign_digits (n <? 0) l Hne (uint_chars_digits u)) as Hp.
  rewrite Hval in Hp. rewrite <- Hp. f_equal.
  destruct (n <? 0); cbn [app].
  - cbn [string_of_list_ascii]. unfold l.
    rewrite string_of_list_ascii_of_string. reflexivity.
  - unfold l. rewrite string_of_list_ascii_of_string. reflexivity.
Qed.

(** X17. An integer sent as the amount of add-funds is read as that
    integer: [Decimal(str(n))] is [n]. So zero is answered with
    "Amount is required.", a negative integer with "Amount must be a
    positive number.", and a positive integer [n] added to a stored
    amount of [a] cents stores exactly [a + 100 n] cents when that is
    below [10^12], the twelve digits of the column; from there on
    saving raises [InvalidOperation] and nothing is stored. *)
Theorem add_funds_integer db u today pk goal n :
  get_object db u pk = Some goal ->
  decimal_of_str (PyIntV n) = Some (PyDecimal.of_int n)
  /\ (n = 0 ->
      add_funds db u today pk (PyIntV n)
      = (db, Ok (Response400 "Amount is required.")))
  /\ (n < 0 ->
      add_funds db u today pk (PyIntV n)
      = (db, Ok (Response400 "Amount must be a positive number.")))
  /\ (forall a, 0 < n -> current_amount goal = of_cents a ->
        0 <= a < 10 ^ 12 ->
        let goal' := set_current_amount goal (of_cents (a + 100 * n)) in
        (a + 100 * n < 10 ^ 12 ->
           add_funds db u today pk (PyIntV n)
           = (update_row goal' db,
              let* data := serialize_goal today goal' in Ok (Response200 data))
           /\ stored_amount (update_row goal' db) u pk
              = Some (of_cents (a + 100 * n)))
        /\ (10 ^ 12 <= a + 100 * n < 10 ^ 28 ->
              add_funds db u today pk (PyIntV n)
              = (db, Raise InvalidOperation))).
Proof.
  intros Hg. cbn [decimal_of_str].
  pose proof (parse_str_of_int n) as Hp.
  split; [exact Hp|]. split; [|split].
  - intros ->. unfold add_funds. rewrite Hg. reflexivity.
  - intros Hn.
    rewrite (add_funds_rejects db u today pk goal (PyIntV n) Hg).
    + cbn [py_truthy].
      replace (n =? 0) with false by (symmetry; apply Z.eqb_neq; lia).
      reflexivity.
    + intros d [_ Hd]. apply positive_amount_ok in Hd as [Hd Hpos].
      cbn [decimal_of_str] in Hd. rewrite Hp in Hd. injection Hd as <-.
      unfold PyDecimal.of_int in Hpos.
      replace (n <? 0) with true in Hpos by (symmetry; apply Z.ltb_lt; lia).
      destruct Hpos as [(c & e & H & _)|H]; discriminate.
  - intros a Hn Hcur Ha. cbv zeta.
    assert (Hint : PyDecimal.of_int n = Dfin false (Z.abs_N n) 0).
    { unfold PyDecimal.of_int.
      now replace (n <? 0) with false by (symmetry; apply Z.ltb_ge; lia). }
    assert (Hacc : accepted (PyIntV n) (Dfin false (Z.abs_N n) 0)).
    { split.
      - cbn [py_truthy]. apply negb_true_iff, Z.eqb_neq. lia.
      - apply positive_amount_ok. cbn [decimal_of_str]. rewrite Hp, Hint.
        split; [reflexivity|]. left.
        exists (Z.abs_N n), 0. split; [reflexivity|lia]. }
    assert (Hc : Z.abs_N n <> 0%N) by lia.
    assert (He : -2 <= 0) by lia.
    assert (Hk : cents_of (Z.abs_N n) 0 = 100 * n).
    { unfold cents_of. change (10 ^ (0 + 2)) with 100. lia. }
    destruct (add_funds_cents db u today pk goal (PyIntV n) a (Z.abs_N n) 0
                Hg Hcur Ha Hacc Hc He) as [Hfit Hover].
    rewrite Hk in Hfit, Hover. split.
    + intros Ht. split; [exact (Hfit Ht)|].
      unfold stored_amount.
      now rewrite (get_object_update_amount db u pk goal _ Hg).
    + exact Hover.
Qed.

Lemma add_funds_integer_witness :
  stored_amount (add_funds fresh_db 1 jan06 7 (PyIntV 10)).1 1 7
  = Some (of_cents 1000).
Proof.
  assert (Hg : get_object fresh_db 1 7 = Some fresh_goal) by reflexivity.
  destruct (add_funds_integer fresh_db 1 jan06 7 fresh_goal 10 Hg)
    as (_ & _ & _ & H).
  assert (Hn : 0 < 10) by lia.
  assert (Hcur : current_amount fresh_goal = of_cents 0) by reflexivity.
  assert (Ha : 0 <= 0 < 10 ^ 12) by (split; [lia|reflexivity]).
  destruct (H 0 Hn Hcur Ha) as [Hfit _].
  assert (Ht : 0 + 100 * 10 < 10 ^ 12) by reflexivity.
  destruct (Hfit Ht) as [Heq Hst].
  rewrite Heq. exact Hst.
Defined.

End IntegerAmounts.

(** ** The month figures, and what add-funds does not move *)

Section Agreement.

(** X18. The figures of the current month are the same wherever they
    are shown: the dashboard's [month_income] and [month_expenses] are
    the floats of the totals that the two [monthly_total] actions
    return, and the last point of the chart, labelled with the current
    month, holds the same two floats. *)
Theorem month_figures_agree db u today d :
  dashboard_get db u today = Ok d ->
  valid today -> 18 <= 12 * year today + month today ->
  month_income d = to_float (mt_total (income_monthly_total db u today))
  /\ month_expenses d = to_float (mt_total (expense_monthly_total db u today))
  /\ exists p, last (monthly_data d) = Some p
               /\ mp_month p = strftime_b_Y today
               /\ mp_income p = month_income d
               /\ mp_expenses p = month_expenses d.
Proof.
  intros Hd Hv Hy.
  destruct (dashboard_get_inv db u today d Hd)
    as (bal & ms & gs & _ & Hms & _ & ->).
  rewrite (monthly_series_spec db u today Hv Hy) in Hms. injection Hms as <-.
  cbn [month_income month_expenses monthly_data].
  unfold income_monthly_total, expense_monthly_total. cbn [mt_total].
  rewrite !or_zero_Sum. split; [reflexivity|]. split; [reflexivity|].
  exists (chart_point db u today 0). split; [reflexivity|].
  unfold chart_point, strftime_b_Y.
  destruct Hv as (_ & Hm & _). rewrite (month_shift_0 _ _ Hm).
  cbn [fst snd mp_month mp_income mp_expenses]. repeat split; reflexivity.
Qed.

Lemma month_figures_agree_witness :
  exists d, dashboard_get sample_db 1 jan15 = Ok d
            /\ month_income d
               = to_float (mt_total (income_monthly_total sample_db 1 jan15)).
Proof.
  assert (E : exists d, dashboard_get sample_db 1 jan15 = Ok d)
    by (vm_compute; eexists; reflexivity).
  destruct E as [d E]. exists d. split; [exact E|].
  assert (Hv : valid jan15) by (apply valid_validb; reflexivity).
  assert (Hy : 18 <= 12 * year jan15 + month jan15)
    by (vm_compute; discriminate).
  exact (proj1 (month_figures_agree sample_db 1 jan15 d E Hv Hy)).
Defined.

Lemma add_funds_keeps_rows db u today pk amount :
  incomes (add_funds db u today pk amount).1 = incomes db
  /\ expenses (add_funds db u today pk amount).1 = expenses db.
Proof.
  unfold add_funds.
  destruct (get_object db u pk) as [goal|]; [|split; reflexivity].
  destruct (negb (py_truthy amount)); [split; reflexivity|].
  destruct (positive_amount amount) as [d|e]; [|split; reflexivity].
  destruct (add (current_amount goal) d) as [c|e]; [|split; reflexivity].
  cbv zeta. unfold save.
  destruct (quantize_column _); cbn [bind]; split; reflexivity.
Qed.

(** X19. Add-funds moves no money: whatever it answers, for every user
    the totals, the balance, the month figures, the category slices and
    the chart of the dashboard are what they were before; only the goal
    summary can differ. *)
Theorem add_funds_moves_no_money db u today pk amount v t d d' :
  dashboard_get db v t = Ok d ->
  dashboard_get (add_funds db u today pk amount).1 v t = Ok d' ->
  total_income d' = total_income d
  /\ total_expenses d' = total_expenses d
  /\ balance d' = balance d
  /\ month_income d' = month_income d
  /\ month_expenses d' = month_expenses d
  /\ expenses_by_category d' = expenses_by_category d
  /\ monthly_data d' = monthly_data d.
Proof.
  intros Hd Hd'.
  destruct (add_funds_keeps_rows db u today pk amount) as [Hi He].
  set (db' := (add_funds db u today pk amount).1) in *.
  assert (Hqi : income_queryset db' v = income_queryset db v)
    by (unfold income_queryset; rewrite Hi; reflexivity).
  assert (Hqe : expense_queryset db' v = expense_queryset db v)
    by (unfold expense_queryset; rewrite He; reflexivity).
  assert (Hm : monthly_series db' v t = monthly_series db v t).
  { unfold monthly_series, month_point_for. rewrite Hi, He. reflexivity. }
  destruct (dashboard_get_inv db v t d Hd)
    as (bal & ms & gs & Hbal & Hms & _ & ->).
  destruct (dashboard_get_inv db' v t d' Hd')
    as (bal' & ms' & gs' & Hbal' & Hms' & _ & ->).
  rewrite Hqi, Hqe in Hbal'. rewrite Hbal in Hbal'. injection Hbal' as <-.
  rewrite Hm, Hms in Hms'. injection Hms' as <-.
  cbn [total_income total_expenses balance month_income month_expenses
       expenses_by_category monthly_data].
  rewrite Hqi, Hqe. repeat split; reflexivity.
Qed.

Lemma add_funds_moves_no_money_witness :
  exists d d',
    dashboard_get sample_db 1 jan15 = Ok d
    /\ dashboard_get (add_funds sample_db 1 jan15 7 (PyStr "25.00")).1 1 jan15
       = Ok d'
    /\ balance d' = balance d.
Proof.
  assert (E : exists d, dashboard_get sample_db 1 jan15 = Ok d)
    by (vm_compute; eexists; reflexivity).
  assert (E' : exists d',
    dashboard_get (add_funds sample_db 1 jan15 7 (PyStr "25.00")).1 1 jan15
    = Ok d') by (vm_compute; eexists; reflexivity).
  destruct E as [d E]. destruct E' as [d' E']. exists d, d'.
  split; [exact E|]. split; [exact E'|].
  exact (proj1 (proj2 (proj2
    (add_funds_moves_no_money sample_db 1 jan15 7 (PyStr "25.00")
       1 jan15 d d' E E')))).
Defined.

(** X20. The chart needs the five months before the current one to
    exist: on a valid date before June of year 1 the loop steps below
    0001-01-01, the date subtraction raises [OverflowError], and the
    dashboard gives no response. *)
Theorem dashboard_before_june_of_year_one db u today :
  valid today -> 12 * year today + month today < 18 ->
  monthly_series db u today = Raise OverflowError
  /\ forall d, dashboard_get db u today <> Ok d.
Proof.
  intros (Hy & Hm & Hd) Hlt. unfold MINYEAR, MAXYEAR in *.
  assert (Hs : monthly_series db u today = Raise OverflowError).
  { destruct today as [y m dd]. cbn [year month day] in *.
    assert (y = 1) by lia. subst y.
    assert (Hc : m = 1 \/ m = 2 \/ m = 3 \/ m = 4 \/ m = 5) by lia.
    unfold monthly_series, range_5_down. cbn [mapM].
    unfold month_point_for at 1. unfold replace_day1. cbn [year month day].
    destruct Hc as [->|[->|[->|[->| ->]]]]; reflexivity. }
  split; [exact Hs|].
  intros d Hd'.
  destruct (dashboard_get_inv db u today d Hd') as (_ & ms & _ & _ & Hms & _).
  rewrite Hs in Hms. discriminate.
Qed.

Lemma dashboard_before_june_of_year_one_witness :
  monthly_series sample_db 1 (mkdate 1 5 31) = Raise OverflowError.
Proof.
  assert (Hv : valid (mkdate 1 5 31)) by (apply valid_validb; reflexivity).
  assert (Hlt : 12 * year (mkdate 1 5 31) + month (mkdate 1 5 31) < 18)
    by (vm_compute; reflexivity).
  exact (proj1 (dashboard_before_june_of_year_one sample_db 1 _ Hv Hlt)).
Defined.

End Agreement.
